(** * Kompensaty: the invoice reconciliation pipeline

    A shallow embedding of the Python sources
    [pdf_processor.py], [email_service.py], [exchange_client.py],
    [email_processor.py], [models.py] and [config.py], and the properties
    of the pipeline proved (or refuted) over it.

    Conventions of the embedding.
    - Python [str] values are Rocq [string]s.  The character tables
      ([str.lower], [str.isspace], the regex classes [\w], [\d], [\s]) are
      the ASCII ones; a byte above 127 is no letter, digit or blank and is
      left alone by [lower].
    - Time stamps ([EWSDateTime]) are integers, in seconds; a
      [timedelta(days=d)] is [d * 86400].  Every [datetime] of a run is
      taken on one clock, in seconds since 1970-01-01 00:00:00 UTC, and
      the arithmetic of the windows raises [OverflowError] where Python's
      does: days beyond 999999999, instants outside the years 1 to 9999.
    - Logging is not modelled; it has no influence on any returned value.
    - Everything outside the repository that the code talks to is an
      explicit parameter of the run (record [Env]): the mailbox, the
      cancellation flag (read by polling), the failures of the mail store
      (of a request, and of a lazy read of a folder of the account or of
      the content of an attachment),
      the regular-expression engine, the iteration order of a Python [set],
      the PDF reader, and the two parts of [str.format_map] that are not
      spelled out here (format specs that are not empty, attribute
      access).
    - A run is a function from the state of the world (polls made,
      requests sent, writes accepted by the store) to a value or an
      exception and the new state. *)

From Stdlib Require Import String Ascii List ZArith Lia Bool Arith.
From Stdlib Require Import Permutation Sorted DecimalString.
Import ListNotations.

Open Scope string_scope.
Open Scope list_scope.

(** ** Python string primitives *)

Module Py.

Definition code (c : ascii) : nat := nat_of_ascii c.

Definition between (lo hi : nat) (c : ascii) : bool :=
  ((lo <=? code c)%nat && (code c <=? hi)%nat)%bool.

Definition isupper (c : ascii) : bool := between 65 90 c.
Definition islower (c : ascii) : bool := between 97 122 c.
Definition isdigit (c : ascii) : bool := between 48 57 c.
Definition isalpha (c : ascii) : bool := isupper c || islower c.
Definition isalnum (c : ascii) : bool := isalpha c || isdigit c.

(** [str.isspace] on ASCII: TAB, LF, VT, FF, CR, the separators FS..US
    and the blank. *)
Definition isspace (c : ascii) : bool :=
  between 9 13 c || between 28 32 c.

Definition lower_char (c : ascii) : ascii :=
  if isupper c then ascii_of_nat (code c + 32) else c.

Fixpoint map_chars (f : ascii -> ascii) (s : string) : string :=
  match s with
  | EmptyString => EmptyString
  | String c r => String (f c) (map_chars f r)
  end.

(** [s.lower()] *)
Definition lower (s : string) : string := map_chars lower_char s.

(** [s.startswith(p)] *)
Fixpoint startswith (s p : string) : bool :=
  match p, s with
  | EmptyString, _ => true
  | String _ _, EmptyString => false
  | String a p', String b s' => Ascii.eqb a b && startswith s' p'
  end.

(** [needle in hay] *)
Fixpoint contains (needle hay : string) : bool :=
  startswith hay needle ||
  match hay with
  | EmptyString => false
  | String _ r => contains needle r
  end.

(** [s.endswith(suffix)] *)
Fixpoint endswith (s suffix : string) : bool :=
  String.eqb s suffix ||
  match s with
  | EmptyString => false
  | String _ r => endswith r suffix
  end.

(** [s.split(sep)] for a one-character separator. *)
Fixpoint split_on (sep : ascii) (s : string) : list string :=
  match s with
  | EmptyString => [EmptyString]
  | String c r =>
      if Ascii.eqb c sep then EmptyString :: split_on sep r
      else match split_on sep r with
           | [] => [String c EmptyString]
           | h :: t => String c h :: t
           end
  end.

(** [c in s] for a one-character [c] *)
Fixpoint has_char (c : ascii) (s : string) : bool :=
  match s with
  | EmptyString => false
  | String d r => Ascii.eqb c d || has_char c r
  end.

Fixpoint lstrip (s : string) : string :=
  match s with
  | EmptyString => EmptyString
  | String c r => if isspace c then lstrip r else s
  end.

(** Blanks at the end are dropped from the right: a blank survives only
    when something that is not blank follows it. *)
Fixpoint rstrip (s : string) : string :=
  match s with
  | EmptyString => EmptyString
  | String c r =>
      match rstrip r with
      | EmptyString => if isspace c then EmptyString else String c EmptyString
      | r' => String c r'
      end
  end.

(** [s.strip()] *)
Definition strip (s : string) : string := rstrip (lstrip s).

(** [s.split()]: the maximal runs of characters that are not blank. *)
Fixpoint words_aux (cur : string) (s : string) : list string :=
  match s with
  | EmptyString => match cur with EmptyString => [] | _ => [cur] end
  | String c r =>
      if isspace c
      then match cur with
           | EmptyString => words_aux EmptyString r
           | _ => cur :: words_aux EmptyString r
           end
      else words_aux (cur ++ String c EmptyString) r
  end.

Definition split (s : string) : list string := words_aux EmptyString s.

(** [sep.join(l)] *)
Fixpoint join (sep : string) (l : list string) : string :=
  match l with
  | [] => EmptyString
  | [x] => x
  | x :: r => x ++ sep ++ join sep r
  end.

(** Truth value of a string: [if s:] *)
Definition truthy (s : string) : bool :=
  match s with EmptyString => false | _ => true end.

End Py.

(** ** The regular expressions the code spells out *)

Module Re.

(** [\d] and [\w] and [\s] *)
Definition digit (c : ascii) : bool := Py.isdigit c.
Definition word (c : ascii) : bool := Py.isalnum c || Ascii.eqb c "_".
Definition space (c : ascii) : bool := Py.isspace c.

(** The class [[^\w\d.-]] of [re.sub(r'[^\w\d.-]', '_', s)]: the hyphen
    stands last in the class and is a literal hyphen. *)
Definition not_word_digit_dot_hyphen (c : ascii) : bool :=
  negb (word c || digit c || Ascii.eqb c "." || Ascii.eqb c "-").

(** [re.sub(cls, '_', s)] for a one-character class [cls]: every match is
    one character, replaced where it stands. *)
Definition sub_class (cls : ascii -> bool) (s : string) : string :=
  Py.map_chars (fun c => if cls c then "_"%char else c) s.

End Re.

(** [search_fragment = re.sub(r'[^\w\d.-]', '_', invoice_number).lower()],
    the first statement of [_find_single_invoice_attachment] and the same
    expression in [_find_missing_invoices]. *)
Definition search_fragment (invoice_number : string) : string :=
  Py.lower (Re.sub_class Re.not_word_digit_dot_hyphen invoice_number).

(** The fragment as the specification words it: a character that is not
    alphanumeric, a dot or a hyphen becomes an underscore, then the
    result is lowercased. *)
Definition spec_fragment (identifier : string) : string :=
  Py.lower
    (Py.map_chars
       (fun c => if Py.isalnum c || Ascii.eqb c "." || Ascii.eqb c "-"
                 then c else "_"%char)
       identifier).

(** ** Data model ([models.py], [config.py]) and the mail store *)

(** An attachment of a message: [isinstance(a, FileAttachment)] holds of
    the first constructor only.  [content] is the attachment's bytes. *)
Inductive Attachment :=
| FileAttachment (name : string) (content : string)
| ItemAttachment (name : string).

Definition att_name (a : Attachment) : string :=
  match a with
  | FileAttachment n _ => n
  | ItemAttachment n => n
  end.

Definition att_content (a : Attachment) : string :=
  match a with
  | FileAttachment _ c => c
  | ItemAttachment _ => EmptyString
  end.

Definition is_file (a : Attachment) : bool :=
  match a with
  | FileAttachment _ _ => true
  | ItemAttachment _ => false
  end.

Record Message := {
  item_id : nat;
  subject : string;
  sender : string;                (* sender.email_address *)
  datetime_received : Z;
  is_read : bool;
  has_attachments : bool;
  attachments : list Attachment
}.

#[warnings="-register-all"]
Inductive Folder :=
| mkFolder (name : string) (children : list Folder) (items : list Message).

Definition folder_name (f : Folder) : string :=
  match f with mkFolder n _ _ => n end.
Definition folder_children (f : Folder) : list Folder :=
  match f with mkFolder _ c _ => c end.
Definition folder_items (f : Folder) : list Message :=
  match f with mkFolder _ _ i => i end.

(** The well-known folders of [exchangelib.Account]; [None] is a value
    that is false in [if not current_folder]. *)
Record Account := {
  inbox : option Folder;
  sent : option Folder;
  root : option Folder
}.

Record MainEmailCriteria := {
  main_folder_path : string;
  subject_contains : string;
  sender_contains : string;
  only_unread : bool;
  require_attachments : bool
}.

Record AttachmentCriteria := {
  name_contains : string;
  extension : string
}.

Record RelatedEmailCriteria := {
  folder_path : string;
  file_extension : string
}.

Record SearchCriteria := {
  main_email : MainEmailCriteria;
  main_attachment : AttachmentCriteria;
  regex_pattern : string;                  (* extraction.regex_pattern *)
  related_emails : RelatedEmailCriteria;
  months_back_compensation : Z;
  months_back_invoices : Z
}.

Record EmailTemplate := {
  tpl_subject : string;
  tpl_body : string
}.

Record EmailTemplateCollection := {
  email_do_ksiegowej : EmailTemplate;
  powiadomienie_brak_faktur_w_pdf : EmailTemplate;
  powiadomienie_czesciowo_znalezione : EmailTemplate
}.

Record AppConfig := {
  username : option string;                (* exchange.username *)
  ksiegowa_glowny : string;
  ksiegowa_2 : option string;
  ksiegowa_3 : option string;
  powiadomienia_brak_pdf : list string;
  powiadomienia_czesciowe : list string;
  przetworzone : string                    (* folders.przetworzone *)
}.

(** ** Exceptions, the outside world, and the monad of a run *)

Inductive Exn :=
| OperationCancelledError
| PDFProcessingError
| FolderNotFoundError
| StoreError          (* anything raised inside exchangelib *)
| OverflowError       (* [timedelta] and [datetime] arithmetic out of range *)
| ValueError
| TypeError
| IndexError
| AttributeError.

Definition is_cancelled (e : Exn) : bool :=
  match e with OperationCancelledError => true | _ => false end.

(** The texts of [ProcessingResult.message]:
    - [MsgNotFound]: "Nie znaleziono głównego emaila z kompensatą zgodnie
      z kryteriami";
    - [MsgNoData]: "Nie udało się wyekstrahować danych z PDF. Wysłano
      powiadomienie.";
    - [MsgDone found total]: "Przetwarzanie zakończone pomyślnie. Wysłano
      email z found/total fakturami.";
    - [MsgSendFailed]: "Błąd wysyłania emaila do księgowej. Email nie
      został przeniesiony.";
    - [MsgCancelled]: "Przetwarzanie anulowane przez użytkownika";
    - [MsgCritical e]: "Błąd krytyczny: " and the text of [e]. *)
Inductive ResultMessage :=
| MsgNotFound
| MsgNoData
| MsgDone (found total : nat)
| MsgSendFailed
| MsgCancelled
| MsgCritical (e : Exn).

Record ProcessingResult := {
  success : bool;
  message : ResultMessage;
  email_subject : option string;
  extracted_data : list string;
  found_attachments_count : nat;
  missing_invoices : list string
}.

(** The outcome of a computation that may raise. *)
Inductive Res (A : Type) :=
| Ok (a : A)
| Raise (e : Exn).
Arguments Ok {A} a.
Arguments Raise {A} e.

(** The Python values that the data of a template holds. *)
Inductive PyVal :=
| VNone
| VStr (s : string)
| VInt (z : Z)
| VList (l : list string).

(** What [re.findall] returns: a list of strings for a pattern with at
    most one group, a list of [n] tuples for a pattern with more. *)
Inductive FindAll :=
| Strings (l : list string)
| Tuples (n : nat).

Record Env := {
  (** [stop_event.is_set()] as seen by the n-th poll of the run *)
  stop_event : nat -> bool;
  (** whether the n-th request sent to the mail store raises *)
  store_fails : nat -> bool;
  (** whether a lazy read of the account raises when n requests have
      been sent to the store: exchangelib fetches a well-known folder
      ([account.inbox], [account.sent], [account.root]) and the content
      of an attachment from the server when they are first read *)
  fetch_fails : nat -> bool;
  account : Account;
  (** [EWSDateTime.now()] *)
  now : Z;
  (** [re.findall(pattern, text, re.IGNORECASE)]: [None] when the
      pattern does not compile ([re.error]) *)
  re_compile : string -> option (string -> FindAll);
  (** [list(s)] of a set [s] holding the given distinct strings, listed
      here in the order they were added *)
  set_order : list string -> list string;
  (** [PyPDF2.PdfReader]: [None] when the bytes cannot be read; a page is
      [None] when its [extract_text()] raises *)
  pdf_reader : string -> option (list (option string));
  (** [datetime.strftime(format)] *)
  strftime : Z -> string -> string;
  (** [format(value, spec)] for a format spec that is not empty and a
      value that is a string or a number *)
  py_format : PyVal -> string -> Res string;
  (** the text of a replacement field that reads the attribute [attr] of
      [value] and goes on with the accessors [rest], under the given
      conversion and the given (expanded) format spec:
      [py_attribute_field value attr rest conversion spec] *)
  py_attribute_field :
    PyVal -> string -> string -> option ascii -> Res string -> Res string
}.

(** A write request issued to the mail store. *)
Inductive StoreOp :=
| OpSend (recipients : list string) (subj body : string)
         (atts : list Attachment)                  (* send_and_save *)
| OpMove (item : nat) (destination : string)       (* email.move *)
| OpMarkRead (item : nat).                         (* email.save(is_read) *)

Record World := {
  polls : nat;              (* polls of the stop event made so far *)
  requests : nat;           (* requests sent to the store so far *)
  trace : list StoreOp      (* write requests that went through, oldest first *)
}.

Definition M (A : Type) : Type := World -> Res A * World.

Definition ret {A} (a : A) : M A := fun w => (Ok a, w).

Definition raise {A} (e : Exn) : M A := fun w => (Raise e, w).

Definition bind {A B} (m : M A) (k : A -> M B) : M B :=
  fun w => match m w with
           | (Ok a, w') => k a w'
           | (Raise e, w') => (Raise e, w')
           end.

(** [try: m  except ...: h e] *)
Definition catch {A} (m : M A) (h : Exn -> M A) : M A :=
  fun w => match m w with
           | (Ok a, w') => (Ok a, w')
           | (Raise e, w') => h e w'
           end.

(** A value or an exception of a pure computation, in the run. *)
Definition lift {A} (r : Res A) : M A :=
  match r with
  | Ok a => ret a
  | Raise e => raise e
  end.

Declare Scope run_scope.
Delimit Scope run_scope with run.
Notation "x <- m ;; k" := (bind m (fun x => k))
  (at level 61, m at next level, right associativity) : run_scope.
Notation "m ;;; k" := (bind m (fun _ => k))
  (at level 61, right associativity) : run_scope.
Open Scope run_scope.

Section Run.

Variable env : Env.

(** [stop_event.is_set()] *)
Definition is_set : M bool :=
  fun w => (Ok (stop_event env (polls w)),
            {| polls := S (polls w); requests := requests w; trace := trace w |}).

(** [if stop_event.is_set(): raise OperationCancelledError(...)] *)
Definition check_cancelled : M unit :=
  b <- is_set ;; if b then raise OperationCancelledError else ret tt.

(** One request to the store; it raises when the store fails on it. *)
Definition store_request : M unit :=
  fun w => let w' := {| polls := polls w; requests := S (requests w);
                        trace := trace w |} in
           if store_fails env (requests w) then (Raise StoreError, w')
           else (Ok tt, w').

(** A lazy read of the account, of a value [a] that the server holds:
    it raises when the server fails it, and changes nothing.  A value
    that was fetched is kept by exchangelib, so that a later read of it
    cannot fail; the oracle [fetch_fails] is free to fail any read, and
    what holds for every oracle holds for the program. *)
Definition fetch {A} (a : A) : M A :=
  fun w => if fetch_fails env (requests w) then (Raise StoreError, w)
           else (Ok a, w).

(** A write request: it is recorded when the store accepts it. *)
Definition store_write (op : StoreOp) : M unit :=
  store_request ;;;
  fun w => (Ok tt, {| polls := polls w; requests := requests w;
                      trace := trace w ++ [op] |}).

(** ** [exchange_client.py] *)

(** The loop of [get_folder_by_path] over the remaining path parts. *)
Fixpoint navigate (current_folder : Folder) (path_parts : list string)
  : M Folder :=
  match path_parts with
  | [] => ret current_folder
  | part :: rest =>
      if negb (Py.truthy part) then navigate current_folder rest
      else
        next_folder <-
          catch
            (store_request ;;;
             match find (fun child =>
                           String.eqb (Py.lower (folder_name child))
                                      (Py.lower part))
                        (folder_children current_folder) with
             | Some next_folder => ret next_folder
             | None => store_request ;;; raise FolderNotFoundError
             end)
            (fun _ => raise FolderNotFoundError) ;;
        navigate next_folder rest
  end.

Definition in_list (s : string) (l : list string) : bool :=
  existsb (String.eqb s) l.

Definition get_folder_by_path (folder_path : string) : M Folder :=
  if negb (Py.truthy folder_path) then raise FolderNotFoundError
  else
    let path_parts := Py.split_on "/" folder_path in
    let first_part := Py.lower (hd EmptyString path_parts) in
    let '(well_known_folder, path_parts) :=
      if in_list first_part ["inbox"; "skrzynka odbiorcza"]
      then (inbox (account env), tl path_parts)
      else if in_list first_part ["sent items"; "elementy wysłane"]
      then (sent (account env), tl path_parts)
      else (root (account env), path_parts) in
    current_folder <- fetch well_known_folder ;;
    match current_folder with
    | None => raise FolderNotFoundError
    | Some current_folder => navigate current_folder path_parts
    end.

(** [folder.filter(...).order_by('-datetime_received')]: the newest
    message first; messages received at the same instant keep the order
    the store holds them in. *)
Fixpoint insert_newest (m : Message) (l : list Message) : list Message :=
  match l with
  | [] => [m]
  | x :: r =>
      if (datetime_received x <? datetime_received m)%Z
      then m :: l
      else x :: insert_newest m r
  end.

Fixpoint order_by_newest (l : list Message) : list Message :=
  match l with
  | [] => []
  | m :: r => insert_newest m (order_by_newest r)
  end.

Definition in_window (start_datetime end_datetime : Z) (m : Message) : bool :=
  ((start_datetime <=? datetime_received m)%Z &&
   (datetime_received m <? end_datetime)%Z)%bool.

(** ** [email_service.py]: the matcher *)

(** The test of an attachment in [_find_single_invoice_attachment]. *)
Definition attachment_matches (search_fragment file_extension : string)
           (attachment : Attachment) : bool :=
  is_file attachment &&
  (let att_name_lower := Py.lower (att_name attachment) in
   Py.endswith att_name_lower ("." ++ Py.lower file_extension) &&
   Py.contains search_fragment att_name_lower).

(** [for attachment in email.attachments: ...]; [Some a] is the
    [return attachment], [None] the end of the loop. *)
Fixpoint scan_attachments (search_fragment file_extension : string)
         (atts : list Attachment) : M (option Attachment) :=
  match atts with
  | [] => ret None
  | attachment :: rest =>
      check_cancelled ;;;
      if attachment_matches search_fragment file_extension attachment
      then ret (Some attachment)
      else scan_attachments search_fragment file_extension rest
  end.

(** [for email in emails: ...] *)
Fixpoint scan_emails (search_fragment file_extension : string)
         (emails : list Message) : M (option Attachment) :=
  match emails with
  | [] => ret None
  | email :: rest =>
      check_cancelled ;;;
      match attachments email with
      | [] => scan_emails search_fragment file_extension rest
      | atts =>
          r <- scan_attachments search_fragment file_extension atts ;;
          match r with
          | Some attachment => ret (Some attachment)
          | None => scan_emails search_fragment file_extension rest
          end
      end
  end.

(** The query of [_find_single_invoice_attachment]:
    [has_attachments=True], [start <= datetime_received < end]. *)
Definition invoice_emails (folder : Folder) (start_datetime end_datetime : Z)
  : list Message :=
  order_by_newest
    (filter (fun m => has_attachments m &&
                      in_window start_datetime end_datetime m)
            (folder_items folder)).

Definition _find_single_invoice_attachment
           (folder : Folder) (invoice_number : string)
           (start_datetime end_datetime : Z) (file_extension : string)
  : M (option Attachment) :=
  let search_fragment := search_fragment invoice_number in
  catch
    (store_request ;;;
     scan_emails search_fragment file_extension
                 (invoice_emails folder start_datetime end_datetime))
    (fun e => if is_cancelled e then raise e else ret None).

Definition days (d : Z) : Z := (d * 86400)%Z.

(** The instants that a [datetime] holds, from 0001-01-01 00:00:00 to
    9999-12-31 23:59:59, in seconds since 1970-01-01 00:00:00. *)
Definition datetime_min : Z := (-62135596800)%Z.
Definition datetime_max : Z := 253402300799%Z.

Definition in_datetime_range (t : Z) : bool :=
  ((datetime_min <=? t)%Z && (t <=? datetime_max)%Z)%bool.

(** [timedelta(days=d)]: [OverflowError] when the magnitude of the days
    exceeds 999999999. *)
Definition timedelta (d : Z) : Res Z :=
  if (Z.abs d <=? 999999999)%Z then Ok (days d) else Raise OverflowError.

(** [t + delta] and [t - delta] of a [datetime] and a [timedelta]:
    [OverflowError] when the result is no instant of a [datetime]. *)
Definition datetime_plus (t delta : Z) : Res Z :=
  if in_datetime_range (t + delta) then Ok (t + delta)%Z
  else Raise OverflowError.

Definition datetime_minus (t delta : Z) : Res Z :=
  if in_datetime_range (t - delta) then Ok (t - delta)%Z
  else Raise OverflowError.

(** [t - timedelta(days=months_back * 31)]: the start of a window. *)
Definition window_start (t months_back : Z) : Res Z :=
  match timedelta (months_back * 31) with
  | Ok delta => datetime_minus t delta
  | Raise e => Raise e
  end.

(** [for invoice_number in extracted_data: ...] with the list
    [found_attachments] it appends to. *)
Fixpoint find_related_loop (folder : Folder)
         (start_datetime end_datetime : Z) (file_extension : string)
         (extracted_data : list string) (found_attachments : list Attachment)
  : M (list Attachment) :=
  match extracted_data with
  | [] => ret found_attachments
  | invoice_number :: rest =>
      check_cancelled ;;;
      attachment <- _find_single_invoice_attachment
                      folder invoice_number start_datetime end_datetime
                      file_extension ;;
      find_related_loop folder start_datetime end_datetime file_extension rest
        match attachment with
        | Some a => found_attachments ++ [a]
        | None => found_attachments
        end
  end.

Definition find_related_invoices (extracted_data : list string)
           (reference_date : Z) (criteria : SearchCriteria)
  : M (list Attachment) :=
  check_cancelled ;;;
  match extracted_data with
  | [] => ret []
  | _ =>
      folder <- get_folder_by_path (folder_path (related_emails criteria)) ;;
      end_datetime <- lift (datetime_plus reference_date (days 2)) ;;
      start_datetime <-
        lift (window_start reference_date (months_back_invoices criteria)) ;;
      find_related_loop folder start_datetime end_datetime
        (file_extension (related_emails criteria)) extracted_data []
  end.

(** [_find_missing_invoices]; the names are collected in a set, of which
    only membership is used. *)
Definition _find_missing_invoices (extracted_data : list string)
           (found_attachments : list Attachment) : list string :=
  let found_names_lower :=
    map (fun att => Py.lower (att_name att)) found_attachments in
  filter (fun invoice_number =>
            negb (existsb (Py.contains (search_fragment invoice_number))
                          found_names_lower))
         extracted_data.

End Run.

(** ** Notions used in the statements *)

(** The world after [n] more polls of the stop event. *)
Definition poll_n (n : nat) (w : World) : World :=
  {| polls := n + polls w; requests := requests w; trace := trace w |}.

(** The world after one more request to the store. *)
Definition requested (w : World) : World :=
  {| polls := polls w; requests := S (requests w); trace := trace w |}.

(** The stop event is never set during the run. *)
Definition never_stops (env : Env) : Prop :=
  forall n, stop_event env n = false.

(** The store answers every request of the run. *)
Definition never_fails (env : Env) : Prop :=
  forall n, store_fails env n = false.

(** The attachments of the search window, in the order the search
    visits them. *)
Definition candidates (folder : Folder) (start_datetime end_datetime : Z)
  : list Attachment :=
  flat_map attachments (invoice_emails folder start_datetime end_datetime).

(** The attachments among a list of per-identifier results. *)
Fixpoint somes {A} (l : list (option A)) : list A :=
  match l with
  | [] => []
  | Some a :: r => a :: somes r
  | None :: r => somes r
  end.

(** [l1] is [l2] with some elements left out. *)
Inductive Subseq {A} : list A -> list A -> Prop :=
| Subseq_nil : Subseq [] []
| Subseq_skip l1 l2 x : Subseq l1 l2 -> Subseq l1 (x :: l2)
| Subseq_keep l1 l2 x : Subseq l1 l2 -> Subseq (x :: l1) (x :: l2).

(** [r] is what the search for [invoice_number] returned in some state
    of the run. *)
Definition searched (env : Env) (folder : Folder)
           (start_datetime end_datetime : Z) (file_extension : string)
           (invoice_number : string) (r : option Attachment) : Prop :=
  exists w0 w1,
    _find_single_invoice_attachment env folder invoice_number
      start_datetime end_datetime file_extension w0 = (Ok r, w1).

(** The criteria with another [months_back_invoices]. *)
Definition with_months_back_invoices (criteria : SearchCriteria) (m : Z)
  : SearchCriteria :=
  {| main_email := main_email criteria;
     main_attachment := main_attachment criteria;
     regex_pattern := regex_pattern criteria;
     related_emails := related_emails criteria;
     months_back_compensation := months_back_compensation criteria;
     months_back_invoices := m |}.


(** Newest first: every message is at least as new as those after it. *)
Definition newer_or_same (a b : Message) : Prop :=
  (datetime_received b <= datetime_received a)%Z.

(** Example data: a store that answers and is never stopped, with one
    folder that holds one message carrying the given file names. *)
Definition quiet_env (acct : Account) : Env :=
  {| stop_event := fun _ => false;
     store_fails := fun _ => false;
     fetch_fails := fun _ => false;
     account := acct;
     now := 0%Z;
     re_compile := fun _ => None;
     set_order := fun l => l;
     pdf_reader := fun _ => None;
     strftime := fun _ _ => EmptyString;
     py_format := fun _ _ => Raise ValueError;
     py_attribute_field := fun _ _ _ _ _ => Raise AttributeError |}.

Definition no_account : Account :=
  {| inbox := None; sent := None; root := None |}.

Definition message_with (id : nat) (received : Z) (names : list string)
  : Message :=
  {| item_id := id; subject := "faktury"; sender := "biuro@example.com";
     datetime_received := received; is_read := true;
     has_attachments := true;
     attachments := map (fun n => FileAttachment n EmptyString) names |}.

Definition folder_with (names : list string) : Folder :=
  mkFolder "Faktury" [] [message_with 1 5 names].

Definition world0 : World := {| polls := 0; requests := 0; trace := [] |}.


(** What the searches of a batch return, one result per identifier, when
    none is stopped: the search of the identifier at position [k] is the
    request number [req + k] to the store. *)
Fixpoint results_from (env : Env) (folder : Folder)
         (start_datetime end_datetime : Z) (file_extension : string)
         (req : nat) (extracted_data : list string)
  : list (option Attachment) :=
  match extracted_data with
  | [] => []
  | invoice_number :: rest =>
      (if store_fails env req then None
       else find (attachment_matches (search_fragment invoice_number)
                                     file_extension)
                 (candidates folder start_datetime end_datetime))
      :: results_from env folder start_datetime end_datetime file_extension
                      (S req) rest
  end.

(** A result that is an attachment stays that attachment. *)
Definition keeps_match (r1 r2 : option Attachment) : Prop :=
  forall a, r1 = Some a -> r2 = Some a.

(** The defaults of the dataclasses of [models.py]. *)
Definition default_criteria : SearchCriteria :=
  {| main_email :=
       {| main_folder_path := "Skrzynka odbiorcza/Kompensaty Quadra";
          subject_contains := "";
          sender_contains := "";
          only_unread := true;
          require_attachments := true |};
     main_attachment := {| name_contains := "kompensata"; extension := "pdf" |};
     regex_pattern := "\b(?:F/M|QN|F/)\s*[\w\s\/-]*\d[\w\s\/-]*\b";
     related_emails :=
       {| folder_path := "Skrzynka odbiorcza/Faktury";
          file_extension := "pdf" |};
     months_back_compensation := 8;
     months_back_invoices := 4 |}.

(** An account whose inbox has the given subfolders. *)
Definition account_with (subfolders : list Folder) : Account :=
  {| inbox := Some (mkFolder "Inbox" subfolders []);
     sent := None;
     root := Some (mkFolder "root" [] []) |}.

(** The quiet environment, except that the store fails on the request
    number [k]. *)
Definition failing_at (k : nat) (acct : Account) : Env :=
  {| stop_event := fun _ => false;
     store_fails := fun n => Nat.eqb n k;
     fetch_fails := fun _ => false;
     account := acct;
     now := 0%Z;
     re_compile := fun _ => None;
     set_order := fun l => l;
     pdf_reader := fun _ => None;
     strftime := fun _ _ => EmptyString;
     py_format := fun _ _ => Raise ValueError;
     py_attribute_field := fun _ _ _ _ _ => Raise AttributeError |}.


(** ** [pdf_processor.py] *)

(** A Python [set] of strings, held as the list of its distinct elements
    in the order they were added. *)
Definition set_add (x : string) (s : list string) : list string :=
  if in_list x s then s else s ++ [x].

Fixpoint all_digits (s : string) : bool :=
  match s with
  | EmptyString => true
  | String c r => Re.digit c && all_digits r
  end.

Fixpoint drop_spaces (s : string) : string :=
  match s with
  | EmptyString => EmptyString
  | String c r => if Re.space c then drop_spaces r else s
  end.

(** [(\s+\d{1,2})$] matched at the start of [s]: one blank or more, then
    one or two digits, then the end of the string. *)
Definition ending_here (s : string) : bool :=
  match s with
  | EmptyString => false
  | String c r =>
      Re.space c &&
      (let d := drop_spaces r in
       all_digits d && (1 <=? String.length d)%nat && (String.length d <=? 2)%nat)
  end.

(** [re.search(r'(\s+\d{1,2})$', s)]: the length of group 1 of the
    leftmost match, for a string that does not end with a newline (the
    code searches in a stripped string). *)
Fixpoint search_ending (s : string) : option nat :=
  match s with
  | EmptyString => None
  | String _ r =>
      if ending_here s then Some (String.length s) else search_ending r
  end.

Definition _clean_invoice_number (raw_number : string) : string :=
  let cleaned := Py.strip raw_number in
  let cleaned :=
    match search_ending cleaned with
    | Some n => substring 0 (String.length cleaned - n) cleaned
    | None => cleaned
    end in
  Py.strip cleaned.

(** The loop [for raw_number in matches] of
    [_find_invoice_numbers_in_text], adding to the set. *)
Definition add_cleaned (invoice_numbers : list string) (raw_number : string)
  : list string :=
  let cleaned_number := _clean_invoice_number raw_number in
  if Py.truthy cleaned_number then set_add cleaned_number invoice_numbers
  else invoice_numbers.

Section Extract.

Variable env : Env.

(** [_extract_text_from_page]: the text with every run of blanks made
    one blank; the empty string for a page without text or a page whose
    [extract_text] raises. *)
Definition _extract_text_from_page (page : option string) : string :=
  match page with
  | Some text => if Py.truthy text then Py.join " " (Py.split text) else ""
  | None => ""
  end.

(** [_find_invoice_numbers_in_text].  A pattern that does not compile
    raises [re.error] in [re.findall], which is caught and logged.  For a
    pattern with several groups the matches are tuples: the first
    [raw_number.strip()] raises [AttributeError], caught by
    [except Exception] before anything was added. *)
Definition _find_invoice_numbers_in_text (text regex_pattern : string)
  : list string :=
  match re_compile env regex_pattern with
  | None => []
  | Some findall =>
      match findall text with
      | Strings matches => fold_left add_cleaned matches []
      | Tuples _ => []
      end
  end.

(** [invoice_numbers.update(numbers)]: the elements of [numbers] are
    added in the order the set [numbers] is iterated. *)
Definition set_update (invoice_numbers numbers : list string) : list string :=
  fold_left (fun s x => set_add x s) (set_order env numbers) invoice_numbers.

(** [for page_num, page in enumerate(reader.pages): ...] *)
Fixpoint extract_pages (regex_pattern : string) (pages : list (option string))
         (invoice_numbers : list string) : M (list string) :=
  match pages with
  | [] => ret invoice_numbers
  | page :: rest =>
      check_cancelled env ;;;
      let text := _extract_text_from_page page in
      extract_pages regex_pattern rest
        (if Py.truthy text
         then set_update invoice_numbers
                (_find_invoice_numbers_in_text text regex_pattern)
         else invoice_numbers)
  end.

Definition extract_invoice_numbers (pdf_content regex_pattern : string)
  : M (list string) :=
  check_cancelled env ;;;
  if negb (Py.truthy regex_pattern) then raise PDFProcessingError
  else
    catch
      (match pdf_reader env pdf_content with
       | None => raise ValueError            (* PdfReader raises *)
       | Some pages =>
           invoice_numbers <- extract_pages regex_pattern pages [] ;;
           ret (set_order env invoice_numbers)
       end)
      (fun e => if is_cancelled e then raise e else raise PDFProcessingError).

End Extract.

(** Iterating a set yields each of its elements once. *)
Definition set_order_permutes (env : Env) : Prop :=
  forall l, Permutation (set_order env l) l.

(** The identifiers of a document in the order they are first seen: the
    cleaned, non-empty matches of each page that has text, page after
    page, each identifier kept where it first occurs. *)
Definition page_candidates (env : Env) (regex_pattern : string)
           (page : option string) : list string :=
  let text := _extract_text_from_page page in
  if Py.truthy text then
    match re_compile env regex_pattern with
    | None => []
    | Some findall =>
        match findall text with
        | Strings matches =>
            filter Py.truthy (map _clean_invoice_number matches)
        | Tuples _ => []
        end
    end
  else [].

Fixpoint keep_first (seen l : list string) : list string :=
  match l with
  | [] => []
  | x :: r => if in_list x seen then keep_first seen r
              else x :: keep_first (x :: seen) r
  end.

Definition first_seen (env : Env) (regex_pattern : string)
           (pages : list (option string)) : list string :=
  keep_first [] (flat_map (page_candidates env regex_pattern) pages).

(** Example data: a reader that takes the bytes for the text of the one
    page of the document (and cannot read empty bytes), an engine whose
    every pattern but "(" matches the words of the text, and a set that is
    iterated in the given order. *)
Definition reading_env (order : list string -> list string) : Env :=
  {| stop_event := fun _ => false;
     store_fails := fun _ => false;
     fetch_fails := fun _ => false;
     account := no_account;
     now := 0%Z;
     re_compile := fun p => if String.eqb p "(" then None
                            else Some (fun text => Strings (Py.split text));
     set_order := order;
     pdf_reader := fun bytes => if Py.truthy bytes then Some [Some bytes]
                                else None;
     strftime := fun _ _ => EmptyString;
     py_format := fun _ _ => Raise ValueError;
     py_attribute_field := fun _ _ _ _ _ => Raise AttributeError |}.


(** An iteration order that does not follow the order of insertion:
    the strings in decreasing order. *)
Fixpoint insert_desc (x : string) (l : list string) : list string :=
  match l with
  | [] => [x]
  | y :: r => if String.ltb y x then x :: l else y :: insert_desc x r
  end.

Definition descending (l : list string) : list string :=
  fold_right insert_desc [] l.

(** What the loop over the pages leaves in the set. *)
Definition pages_step (env : Env) (regex_pattern : string)
           (invoice_numbers : list string) (page : option string)
  : list string :=
  let text := _extract_text_from_page page in
  if Py.truthy text
  then set_update env invoice_numbers
         (_find_invoice_numbers_in_text env text regex_pattern)
  else invoice_numbers.


(** ** [models.py]: [EmailTemplate.format] *)

Definition nl : string := String (ascii_of_nat 10) EmptyString.
Definition backslash : ascii := ascii_of_nat 92.
Definition quote1 : ascii := ascii_of_nat 39.
Definition quote2 : ascii := ascii_of_nat 34.

Definition str1 (c : ascii) : string := String c EmptyString.

(** A [dict] with string keys; the binding made last stands first. *)
Definition Dict : Type := list (string * PyVal).

Fixpoint dict_get (k : string) (d : Dict) : option PyVal :=
  match d with
  | [] => None
  | (k', v) :: r => if String.eqb k k' then Some v else dict_get k r
  end.

(** [k in d] *)
Definition dict_has (k : string) (d : Dict) : bool :=
  match dict_get k d with Some _ => true | None => false end.

(** [d[k] = v] *)
Definition dict_set (k : string) (v : PyVal) (d : Dict) : Dict := (k, v) :: d.

(** [d[k]] for [d = defaultdict(lambda: '', ...)].  (The lookup of a
    missing key also stores the default under the key, which no later
    lookup can tell from the key being missing.) *)
Definition default_get (k : string) (d : Dict) : PyVal :=
  match dict_get k d with Some v => v | None => VStr "" end.

(** [bool(v)] *)
Definition truth (v : PyVal) : bool :=
  match v with
  | VNone => false
  | VStr s => Py.truthy s
  | VInt z => negb (z =? 0)%Z
  | VList l => match l with [] => false | _ => true end
  end.

Definition decimal (z : Z) : string := NilZero.string_of_int (Z.to_int z).

Definition hex_digit (n : nat) : ascii :=
  ascii_of_nat (if (n <? 10)%nat then 48 + n else 87 + n).

(** [repr] of a character inside the quotes [quote]. *)
Definition repr_char (quote c : ascii) : string :=
  let n := Py.code c in
  if Ascii.eqb c quote || Ascii.eqb c backslash then String backslash (str1 c)
  else if (n =? 9)%nat then String backslash "t"
  else if (n =? 10)%nat then String backslash "n"
  else if (n =? 13)%nat then String backslash "r"
  else if (n <? 32)%nat || (n =? 127)%nat
       then String backslash
              (String "x" (String (hex_digit (n / 16)) (str1 (hex_digit (n mod 16)))))
  else str1 c.

Fixpoint concat_chars (f : ascii -> string) (s : string) : string :=
  match s with
  | EmptyString => EmptyString
  | String c r => f c ++ concat_chars f r
  end.

(** [repr(s)]: double quotes when [s] holds a single quote and no double
    quote, single quotes otherwise. *)
Definition py_repr_str (s : string) : string :=
  let quote := if Py.has_char quote1 s && negb (Py.has_char quote2 s)
               then quote2 else quote1 in
  String quote (concat_chars (repr_char quote) s ++ str1 quote).

(** [str(v)] *)
Definition py_str (v : PyVal) : string :=
  match v with
  | VNone => "None"
  | VStr s => s
  | VInt z => decimal z
  | VList l => "[" ++ Py.join ", " (map py_repr_str l) ++ "]"
  end.

(** [repr(v)] *)
Definition py_repr (v : PyVal) : string :=
  match v with
  | VStr s => py_repr_str s
  | _ => py_str v
  end.

(** *** The format string of [str.format_map]

    The scan of a format string: literal characters, replacement fields
    (field name, conversion, format spec), or the [ValueError] of a
    string that is not well formed, met where the scan gets to it. *)
Inductive Markup :=
| MEnd
| MChar (c : ascii) (rest : Markup)
| MField (field_name : string) (conversion : option ascii)
         (format_spec : string) (rest : Markup)
| MError.

Inductive ScanState :=
| SText
| SOpen                                    (* after an opening brace *)
| SClose                                   (* after a closing brace *)
| SName (name : string) (bracket : bool)   (* in the field name *)
| SBang (name : string)                    (* after the "!" *)
| SConv (name : string) (conv : ascii)     (* after the conversion *)
| SSpec (name : string) (conv : option ascii) (spec : string) (count : nat).

Inductive NameStep :=
| NGo (st : ScanState)
| NField
| NError.

Definition snoc (s : string) (c : ascii) : string := s ++ str1 c.

(** One character of a field name.  Between "[" and "]" every character
    belongs to the name. *)
Definition name_char (name : string) (bracket : bool) (c : ascii) : NameStep :=
  if bracket then NGo (SName (snoc name c) (negb (Ascii.eqb c "]")))
  else if Ascii.eqb c "{" then NError
  else if Ascii.eqb c "[" then NGo (SName (snoc name c) true)
  else if Ascii.eqb c "}" then NField
  else if Ascii.eqb c ":" then NGo (SSpec name None "" 1)
  else if Ascii.eqb c "!" then NGo (SBang name)
  else NGo (SName (snoc name c) false).

Fixpoint scan (st : ScanState) (s : string) : Markup :=
  match s with
  | EmptyString => match st with SText => MEnd | _ => MError end
  | String c r =>
      let name_step name bracket :=
        match name_char name bracket c with
        | NGo st' => scan st' r
        | NField => MField name None "" (scan SText r)
        | NError => MError
        end in
      match st with
      | SText =>
          if Ascii.eqb c "{" then scan SOpen r
          else if Ascii.eqb c "}" then scan SClose r
          else MChar c (scan SText r)
      | SOpen =>
          if Ascii.eqb c "{" then MChar c (scan SText r)
          else name_step "" false
      | SClose =>
          if Ascii.eqb c "}" then MChar c (scan SText r) else MError
      | SName name bracket => name_step name bracket
      | SBang name => scan (SConv name c) r
      | SConv name conv =>
          if Ascii.eqb c "}" then MField name (Some conv) "" (scan SText r)
          else if Ascii.eqb c ":" then scan (SSpec name (Some conv) "" 1) r
          else MError
      | SSpec name conv spec count =>
          if Ascii.eqb c "{"
          then scan (SSpec name conv (snoc spec c) (S count)) r
          else if Ascii.eqb c "}"
          then match count with
               | S (S k) => scan (SSpec name conv (snoc spec c) (S k)) r
               | _ => MField name conv spec (scan SText r)
               end
          else scan (SSpec name conv (snoc spec c) count) r
      end
  end.

(** The first part of a field name: up to the first "." or "[". *)
Fixpoint split_first (s : string) : string * string :=
  match s with
  | EmptyString => (EmptyString, EmptyString)
  | String c r =>
      if Ascii.eqb c "." || Ascii.eqb c "[" then (EmptyString, s)
      else let (a, b) := split_first r in (String c a, b)
  end.

(** The accessors that follow the first part. *)
Inductive Accessors :=
| AEnd
| AAttr (name : string) (rest : string)      (* ".name", and what follows *)
| AItem (index : string) (more : Accessors)  (* "[index]" *)
| AError.

Inductive AccState :=
| AStart
| AInAttr (name : string)
| AInItem (index : string).

Fixpoint scan_accessors (st : AccState) (s : string) : Accessors :=
  match s with
  | EmptyString =>
      match st with
      | AStart => AEnd
      | AInAttr name =>
          if Py.truthy name then AAttr name EmptyString else AError
      | AInItem _ => AError
      end
  | String c r =>
      match st with
      | AStart =>
          if Ascii.eqb c "." then scan_accessors (AInAttr "") r
          else if Ascii.eqb c "[" then scan_accessors (AInItem "") r
          else AError
      | AInAttr name =>
          if Ascii.eqb c "." || Ascii.eqb c "["
          then (if Py.truthy name then AAttr name s else AError)
          else scan_accessors (AInAttr (snoc name c)) r
      | AInItem index =>
          if Ascii.eqb c "]"
          then (if Py.truthy index then AItem index (scan_accessors AStart r)
                else AError)
          else scan_accessors (AInItem (snoc index c)) r
      end
  end.

Fixpoint digits_value (acc : N) (s : string) : N :=
  match s with
  | EmptyString => acc
  | String c r => digits_value (acc * 10 + N.of_nat (Py.code c - 48))%N r
  end.

(** [sys.maxsize] of a 64-bit build. *)
Definition maxsize : N := 9223372036854775807%N.

Fixpoint chars (s : string) : list string :=
  match s with
  | EmptyString => []
  | String c r => str1 c :: chars r
  end.

(** [obj[index]] inside a field name: an integer index when [index] is
    made of digits, the string [index] as key otherwise. *)
Definition get_item (obj : PyVal) (index : string) : Res PyVal :=
  if all_digits index then
    let n := digits_value 0 index in
    if (maxsize <? n)%N then Raise ValueError
    else match obj with
         | VStr s => match nth_error (chars s) (N.to_nat n) with
                     | Some c => Ok (VStr c)
                     | None => Raise IndexError
                     end
         | VList l => match nth_error l (N.to_nat n) with
                      | Some x => Ok (VStr x)
                      | None => Raise IndexError
                      end
         | _ => Raise TypeError
         end
  else Raise TypeError.

(** The value a chain of accessors leads to; [inr] when it reads an
    attribute. *)
Fixpoint walk (obj : PyVal) (a : Accessors)
  : Res PyVal + (PyVal * string * string) :=
  match a with
  | AEnd => inl (Ok obj)
  | AError => inl (Raise ValueError)
  | AAttr name rest => inr (obj, name, rest)
  | AItem index more =>
      match get_item obj index with
      | Ok v => walk v more
      | Raise e => inl (Raise e)
      end
  end.

(** The conversions "!s", "!r" and "!a". *)
Definition convert (conversion : option ascii) (v : PyVal) : Res PyVal :=
  match conversion with
  | None => Ok v
  | Some c =>
      if Ascii.eqb c "s" then Ok (VStr (py_str v))
      else if Ascii.eqb c "r" || Ascii.eqb c "a" then Ok (VStr (py_repr v))
      else Raise ValueError
  end.

Section Format.

Variable env : Env.

(** [format(v, spec)] *)
Definition format_value (v : PyVal) (spec : string) : Res string :=
  if Py.truthy spec then
    match v with
    | VStr _ | VInt _ => py_format env v spec
    | _ => Raise TypeError
    end
  else Ok (py_str v).

(** One replacement field.  A field name that is empty or a number is a
    positional field, which [format_map] refuses.  [expand] formats the
    format spec when it holds replacement fields of its own. *)
Definition render_field (expand : string -> Res string) (d : Dict)
           (field_name : string) (conversion : option ascii)
           (format_spec : string) : Res string :=
  let (first, rest) := split_first field_name in
  if negb (Py.truthy first) || all_digits first then Raise ValueError
  else
    let spec := if Py.has_char "{" format_spec then expand format_spec
                else Ok format_spec in
    match walk (default_get first d) (scan_accessors AStart rest) with
    | inr (obj, attr, rest') =>
        py_attribute_field env obj attr rest' conversion spec
    | inl (Raise e) => Raise e
    | inl (Ok v) =>
        match convert conversion v with
        | Raise e => Raise e
        | Ok v' =>
            match spec with
            | Raise e => Raise e
            | Ok spec' => format_value v' spec'
            end
        end
    end.

Fixpoint render_markup (expand : string -> Res string) (d : Dict)
         (m : Markup) : Res string :=
  match m with
  | MEnd => Ok EmptyString
  | MError => Raise ValueError
  | MChar c rest =>
      match render_markup expand d rest with
      | Ok t => Ok (String c t)
      | Raise e => Raise e
      end
  | MField field_name conversion format_spec rest =>
      match render_field expand d field_name conversion format_spec with
      | Raise e => Raise e
      | Ok t =>
          match render_markup expand d rest with
          | Ok u => Ok (t ++ u)%string
          | Raise e => Raise e
          end
      end
  end.

(** A format string nested deeper than [depth] is refused. *)
Fixpoint build_string (depth : nat) (d : Dict) (template : string)
  : Res string :=
  match depth with
  | O => Raise ValueError
  | S k => render_markup (build_string k d) d (scan SText template)
  end.

(** [template.format_map(d)] *)
Definition format_map (template : string) (d : Dict) : Res string :=
  build_string 2 d template.

(** ["\n".join([f"  - {nr}" for nr in l])] *)
Definition bullet_lines (l : list string) : string :=
  Py.join nl (map (fun nr => ("  - " ++ nr)%string) l).

(** The elements of [for nr in v]. *)
Definition iterate (v : PyVal) : Res (list string) :=
  match v with
  | VStr s => Ok (chars s)
  | VList l => Ok l
  | _ => Raise TypeError
  end.

(** The first part of [EmailTemplate.format]: the dictionary
    [format_dict] with the computed entries. *)
Definition build_format_dict (kwargs : Dict) : Res Dict :=
  let format_dict := kwargs in
  let format_dict :=
    match dict_get "numery_faktur_z_kompensaty" kwargs with
    | Some (VList l) =>
        dict_set "numery_faktur_z_kompensaty_lista" (VStr (bullet_lines l))
                 format_dict
    | _ => format_dict
    end in
  let brakujace :=
    match dict_get "numery_brakujace" kwargs with
    | Some v =>
        if truth v then
          match iterate v with
          | Ok l =>
              Ok (nl ++ "Nie udało się odnaleźć następujących faktur:" ++ nl
                     ++ bullet_lines l)%string
          | Raise e => Raise e
          end
        else Ok EmptyString
    | None => Ok EmptyString
    end in
  match brakujace with
  | Raise e => Raise e
  | Ok info =>
      let format_dict := dict_set "brakujace_faktury_info" (VStr info) format_dict in
      if negb (dict_has "nazwa_uzytkownika" format_dict)
         && dict_has "exchange_username" kwargs
      then
        match default_get "exchange_username" kwargs with
        | VStr username =>
            Ok (dict_set "nazwa_uzytkownika"
                  (VStr (if Py.has_char "@" username
                         then hd EmptyString (Py.split_on "@" username)
                         else username))
                  format_dict)
        | VList l =>
            if in_list "@" l then Raise AttributeError
            else Ok (dict_set "nazwa_uzytkownika" (VList l) format_dict)
        | _ => Raise TypeError
        end
      else Ok format_dict
  end.

(** [EmailTemplate.format], called with keyword arguments; [self] is
    only read. *)
Definition EmailTemplate_format (self : EmailTemplate) (kwargs : Dict)
  : Res EmailTemplate :=
  match build_format_dict kwargs with
  | Raise e => Raise e
  | Ok format_dict =>
      match format_map (tpl_subject self) format_dict with
      | Raise e => Raise e
      | Ok subject' =>
          match format_map (tpl_body self) format_dict with
          | Raise e => Raise e
          | Ok body' => Ok {| tpl_subject := subject'; tpl_body := body' |}
          end
      end
  end.

End Format.


(** Templates made of literal text and placeholders [{name}]. *)
Inductive Segment :=
| Lit (text : string)
| Hole (name : string).

(** A literal text as a format string spells it: every brace doubled. *)
Definition escape_braces (text : string) : string :=
  concat_chars (fun c => if Ascii.eqb c "{" || Ascii.eqb c "}"
                         then String c (str1 c) else str1 c) text.

Definition write_segment (g : Segment) : string :=
  match g with
  | Lit text => escape_braces text
  | Hole name => String "{" (name ++ "}")
  end.

Fixpoint write (l : list Segment) : string :=
  match l with
  | [] => EmptyString
  | g :: r => (write_segment g ++ write r)%string
  end.

(** A name that is a key and nothing more: not empty, not a number, and
    without any of the characters that end a key or a field. *)
Definition plain_char (c : ascii) : bool :=
  negb (Ascii.eqb c "{" || Ascii.eqb c "}" || Ascii.eqb c "[" ||
        Ascii.eqb c "." || Ascii.eqb c "!" || Ascii.eqb c ":").

Fixpoint all_plain (s : string) : bool :=
  match s with
  | EmptyString => true
  | String c r => plain_char c && all_plain r
  end.

Definition plain_name (name : string) : bool :=
  Py.truthy name && all_plain name && negb (all_digits name).

Definition plain (g : Segment) : bool :=
  match g with
  | Lit _ => true
  | Hole name => plain_name name
  end.

(** The text that stands for a segment. *)
Definition fill (d : Dict) (g : Segment) : string :=
  match g with
  | Lit text => text
  | Hole name => py_str (default_get name d)
  end.

Fixpoint fill_all (d : Dict) (l : list Segment) : string :=
  match l with
  | [] => EmptyString
  | g :: r => (fill d g ++ fill_all d r)%string
  end.

(** The data for which the computed entries can be computed: the
    missing numbers are no number other than zero, and the user name,
    when it is needed, is a string (or a list without "@"). *)
Definition data_ok (kwargs : Dict) : bool :=
  match dict_get "numery_brakujace" kwargs with
  | Some (VInt z) => (z =? 0)%Z
  | _ => true
  end &&
  (dict_has "nazwa_uzytkownika" kwargs ||
   match dict_get "exchange_username" kwargs with
   | None => true
   | Some (VStr _) => true
   | Some (VList l) => negb (in_list "@" l)
   | Some _ => false
   end).

Definition computed_key (k : string) : bool :=
  in_list k ["numery_faktur_z_kompensaty_lista"; "brakujace_faktury_info";
             "nazwa_uzytkownika"].


(** Literal characters in front of a scan. *)
Fixpoint mchars (s : string) (m : Markup) : Markup :=
  match s with
  | EmptyString => m
  | String c r => MChar c (mchars r m)
  end.


(** ** [config.py]: the recipients *)

(** [[s]] when [s] is a string that is not empty: [if s: emails.append(s)] *)
Definition if_set (o : option string) : list string :=
  match o with
  | Some s => if Py.truthy s then [s] else []
  | None => []
  end.

Definition get_ksiegowa_emails (config : AppConfig) : list string :=
  ksiegowa_glowny config :: if_set (ksiegowa_2 config) ++ if_set (ksiegowa_3 config).

Definition get_notification_emails_for_missing_pdf (config : AppConfig)
  : list string :=
  match powiadomienia_brak_pdf config with
  | [] => if_set (username config)
  | l => l
  end.

Definition get_notification_emails_for_partial_results (config : AppConfig)
  : list string :=
  match powiadomienia_czesciowe config with
  | [] => if_set (username config)
  | l => l
  end.

(** The value of [config.exchange.username] in the data of a template. *)
Definition username_value (config : AppConfig) : PyVal :=
  match username config with
  | Some s => VStr s
  | None => VNone
  end.

(** What steps 1 to 5 of [process_emails] hand to step 6: a result that
    is already final, or the outcome of the delivery. *)
Inductive Stage :=
| Finished (result : ProcessingResult)
| Delivery (compensation_email : Message) (pdf_attachment : Attachment)
           (extracted : list string) (found_invoices : list Attachment)
           (email_sent : bool).

Section Pipeline.

Variable env : Env.
Variable config : AppConfig.
Variable templates : EmailTemplateCollection.

(** *** [exchange_client.py], continued *)

Definition _attachment_matches_criteria (attachment : Attachment)
           (criteria : AttachmentCriteria) : bool :=
  let att_name_lower := Py.lower (att_name attachment) in
  if Py.truthy (name_contains criteria) &&
     negb (Py.contains (Py.lower (name_contains criteria)) att_name_lower)
  then false
  else if Py.truthy (extension criteria) &&
          negb (Py.endswith att_name_lower ("." ++ Py.lower (extension criteria)))
  then false
  else true.

(** [for attachment in email.attachments] of [find_compensation_email] *)
Fixpoint scan_main_attachments (criteria : SearchCriteria) (email : Message)
         (atts : list Attachment) : M (option (Message * Attachment)) :=
  match atts with
  | [] => ret None
  | attachment :: rest =>
      check_cancelled env ;;;
      if is_file attachment &&
         _attachment_matches_criteria attachment (main_attachment criteria)
      then ret (Some (email, attachment))
      else scan_main_attachments criteria email rest
  end.

(** [for email in emails] of [find_compensation_email] *)
Fixpoint scan_main_emails (criteria : SearchCriteria) (emails : list Message)
  : M (option (Message * Attachment)) :=
  match emails with
  | [] => ret None
  | email :: rest =>
      check_cancelled env ;;;
      let c := main_email criteria in
      if Py.truthy (subject_contains c) &&
         negb (Py.contains (Py.lower (subject_contains c))
                           (Py.lower (subject email)))
      then scan_main_emails criteria rest
      else if Py.truthy (sender_contains c) &&
              negb (Py.contains (Py.lower (sender_contains c))
                                (Py.lower (sender email)))
      then scan_main_emails criteria rest
      else match attachments email with
           | [] => scan_main_emails criteria rest
           | atts =>
               r <- scan_main_attachments criteria email atts ;;
               match r with
               | Some found => ret (Some found)
               | None => scan_main_emails criteria rest
               end
           end
  end.

(** The filter of [find_compensation_email]. *)
Definition main_filter (criteria : SearchCriteria)
           (start_datetime end_datetime : Z) (m : Message) : bool :=
  in_window start_datetime end_datetime m &&
  (if require_attachments (main_email criteria) then has_attachments m
   else true) &&
  (if only_unread (main_email criteria) then negb (is_read m) else true).

(** [(email, attachment)], or [None] for [(None, None)]. *)
Definition find_compensation_email (criteria : SearchCriteria)
  : M (option (Message * Attachment)) :=
  check_cancelled env ;;;
  folder <- get_folder_by_path env (main_folder_path (main_email criteria)) ;;
  let end_datetime := now env in
  start_datetime <-
    lift (window_start end_datetime (months_back_compensation criteria)) ;;
  catch
    (store_request env ;;;
     scan_main_emails criteria
       (order_by_newest
          (filter (main_filter criteria start_datetime end_datetime)
                  (folder_items folder))))
    (fun e => if is_cancelled e then raise e else ret None).

Definition send_email (recipients : list string) (subj body : string)
           (atts : list Attachment) : M bool :=
  match recipients with
  | [] => ret false
  | _ =>
      catch (store_write env (OpSend recipients subj body atts) ;;; ret true)
            (fun _ => ret false)
  end.

Definition mark_as_read (email : Message) : M bool :=
  catch
    ((if is_read email then ret tt
      else store_write env (OpMarkRead (item_id email))) ;;;
     ret true)
    (fun _ => ret false).

Definition move_email (email : Message) (destination_folder_path : string)
  : M bool :=
  catch
    (destination_folder <- get_folder_by_path env destination_folder_path ;;
     store_write env (OpMove (item_id email) destination_folder_path) ;;;
     ret true)
    (fun _ => ret false).

(** *** [email_service.py], continued *)

Definition move_email_to_processed_folder (email : Message) : M bool :=
  catch
    (success <- move_email email (przetworzone config) ;;
     if success then ret true
     else mark_as_read email ;;; ret false)
    (fun _ => mark_as_read email).

(** [for invoice_attachment in found_invoices] of
    [send_compensation_email_to_accounting] *)
Fixpoint attach_invoices (found_invoices : list Attachment)
         (atts : list Attachment) (added_names : list string)
  : M (list Attachment) :=
  match found_invoices with
  | [] => ret atts
  | invoice_attachment :: rest =>
      check_cancelled env ;;;
      let n := Py.lower (att_name invoice_attachment) in
      if in_list n added_names then attach_invoices rest atts added_names
      else attach_invoices rest (atts ++ [invoice_attachment])
                           (set_add n added_names)
  end.

Definition count (A : Type) (l : list A) : PyVal := VInt (Z.of_nat (length l)).
Arguments count {A} l.

Definition send_compensation_email_to_accounting
           (original_pdf : Attachment) (found_invoices : list Attachment)
           (extracted : list string) (original_email : Message) : M bool :=
  check_cancelled env ;;;
  catch
    (let recipients := get_ksiegowa_emails config in
     match recipients with
     | [] => ret false
     | _ =>
         let template_data : Dict :=
           [("temat_kompensaty", VStr (subject original_email));
            ("liczba_faktur_z_kompensaty", count extracted);
            ("numery_faktur_z_kompensaty", VList extracted);
            ("liczba_znalezionych_faktur_zal", count found_invoices);
            ("exchange_username", username_value config)] in
         let template_data :=
           if (length found_invoices <? length extracted)%nat
           then dict_set "numery_brakujace"
                  (VList (_find_missing_invoices extracted found_invoices))
                  template_data
           else template_data in
         formatted_template <-
           lift (EmailTemplate_format env (email_do_ksiegowej templates)
                                      template_data) ;;
         atts <- attach_invoices found_invoices [original_pdf]
                   [Py.lower (att_name original_pdf)] ;;
         send_email recipients (tpl_subject formatted_template)
                    (tpl_body formatted_template) atts
     end)
    (fun e => if is_cancelled e then raise e else ret false).

Definition send_missing_pdf_notification (original_email : Message)
           (pdf_filename : string) : M bool :=
  check_cancelled env ;;;
  match get_notification_emails_for_missing_pdf config with
  | [] => ret false
  | recipients =>
      catch
        (let template_data : Dict :=
           [("temat_kompensaty", VStr (subject original_email));
            ("nadawca_kompensaty", VStr (sender original_email));
            ("data_kompensaty",
             VStr (strftime env (datetime_received original_email)
                            "%Y-%m-%d %H:%M:%S %Z"));
            ("nazwa_pliku_pdf_kompensaty", VStr pdf_filename);
            ("exchange_username", username_value config)] in
         formatted_template <-
           lift (EmailTemplate_format env
                   (powiadomienie_brak_faktur_w_pdf templates) template_data) ;;
         send_email recipients (tpl_subject formatted_template)
                    (tpl_body formatted_template) [])
        (fun e => if is_cancelled e then raise e else ret false)
  end.

Definition send_partial_results_notification (original_email : Message)
           (extracted : list string) (found_attachments : list Attachment)
  : M bool :=
  check_cancelled env ;;;
  match get_notification_emails_for_partial_results config with
  | [] => ret false
  | recipients =>
      catch
        (let missing := _find_missing_invoices extracted found_attachments in
         let template_data : Dict :=
           [("temat_kompensaty", VStr (subject original_email));
            ("data_kompensaty",
             VStr (strftime env (datetime_received original_email)
                            "%Y-%m-%d %H:%M"));
            ("liczba_oczekiwanych", count extracted);
            ("numery_faktur_z_kompensaty", VList extracted);
            ("liczba_znalezionych", count found_attachments);
            ("numery_brakujace", VList missing);
            ("exchange_username", username_value config)] in
         formatted_template <-
           lift (EmailTemplate_format env
                   (powiadomienie_czesciowo_znalezione templates)
                   template_data) ;;
         send_email recipients (tpl_subject formatted_template)
                    (tpl_body formatted_template) [])
        (fun e => if is_cancelled e then raise e else ret false)
  end.

(** *** [email_processor.py] *)

Definition result (ok : bool) (msg : ResultMessage) : ProcessingResult :=
  {| success := ok; message := msg; email_subject := None;
     extracted_data := []; found_attachments_count := 0;
     missing_invoices := [] |}.

Definition _handle_no_data_extracted (compensation_email : Message)
           (pdf_attachment : Attachment) : M ProcessingResult :=
  send_missing_pdf_notification compensation_email (att_name pdf_attachment) ;;;
  move_email_to_processed_folder compensation_email ;;;
  ret {| success := false; message := MsgNoData;
         email_subject := Some (subject compensation_email);
         extracted_data := []; found_attachments_count := 0;
         missing_invoices := [] |}.

(** Steps 1 to 5 of [process_emails] (Krok 1 ... Krok 5): up to and
    with the email to accounting. *)
Definition process_emails_delivery (search_criteria : SearchCriteria)
  : M Stage :=
  check_cancelled env ;;;
  found <- find_compensation_email search_criteria ;;
  match found with
  | None => ret (Finished (result false MsgNotFound))
  | Some (compensation_email, pdf_attachment) =>
      pdf_content <- fetch env (att_content pdf_attachment) ;;
      extracted <- extract_invoice_numbers env pdf_content
                     (regex_pattern search_criteria) ;;
      match extracted with
      | [] =>
          r <- _handle_no_data_extracted compensation_email pdf_attachment ;;
          ret (Finished r)
      | _ =>
          found_invoices <-
            find_related_invoices env extracted
              (datetime_received compensation_email) search_criteria ;;
          (if (length found_invoices <? length extracted)%nat
           then send_partial_results_notification
                  compensation_email extracted found_invoices ;;; ret tt
           else ret tt) ;;;
          email_sent <- send_compensation_email_to_accounting
                          pdf_attachment found_invoices extracted
                          compensation_email ;;
          ret (Delivery compensation_email pdf_attachment extracted
                        found_invoices email_sent)
      end
  end.

(** Step 6 (Krok 6) and the result. *)
Definition process_emails_archive (stage : Stage) : M ProcessingResult :=
  match stage with
  | Finished r => ret r
  | Delivery compensation_email pdf_attachment extracted found_invoices
             email_sent =>
      result_message <-
        (if email_sent
         then move_email_to_processed_folder compensation_email ;;;
              ret (MsgDone (length found_invoices) (length extracted))
         else ret MsgSendFailed) ;;
      ret {| success := email_sent;
             message := result_message;
             email_subject := Some (subject compensation_email);
             extracted_data := extracted;
             found_attachments_count := length found_invoices;
             missing_invoices :=
               _find_missing_invoices extracted found_invoices |}
  end.

Definition process_emails (search_criteria : SearchCriteria)
  : M ProcessingResult :=
  catch
    (stage <- process_emails_delivery search_criteria ;;
     process_emails_archive stage)
    (fun e => if is_cancelled e then ret (result false MsgCancelled)
              else ret (result false (MsgCritical e))).

End Pipeline.

(** A send is the only write that leaves the place of a message and its
    read flag as they are. *)
Definition is_send (op : StoreOp) : Prop :=
  match op with
  | OpSend _ _ _ _ => True
  | _ => False
  end.

(** Between [w] and [w'] nothing was written to the store but sends. *)
Definition sends_only (w w' : World) : Prop :=
  exists ops, trace w' = trace w ++ ops /\ Forall is_send ops.

(** A computation that writes nothing to the store but sends. *)
Definition only_sends {A} (m : M A) : Prop :=
  forall w r w', m w = (r, w') -> sends_only w w'.


(** Example data for a whole run: the reader takes the bytes of an
    attachment for the text of its one page, every pattern but "("
    matches the words of the text, and the store fails on the request
    number [k]. *)
Definition pipeline_env (k : nat) (acct : Account) : Env :=
  {| stop_event := fun _ => false;
     store_fails := fun n => Nat.eqb n k;
     fetch_fails := fun _ => false;
     account := acct;
     now := 0%Z;
     re_compile := fun p => if String.eqb p "(" then None
                            else Some (fun text => Strings (Py.split text));
     set_order := fun l => l;
     pdf_reader := fun bytes => if Py.truthy bytes then Some [Some bytes]
                                else None;
     strftime := fun _ _ => EmptyString;
     py_format := fun _ _ => Raise ValueError;
     py_attribute_field := fun _ _ _ _ _ => Raise AttributeError |}.

Definition compensation_message : Message :=
  {| item_id := 7; subject := "Kompensata 05"; sender := "quadra@example.com";
     datetime_received := (-100)%Z; is_read := false;
     has_attachments := true;
     attachments := [FileAttachment "Kompensata_05.pdf" "FV-1"] |}.

Definition example_account : Account :=
  account_with
    [mkFolder "Kompensaty Quadra"
       [mkFolder "Wyslane do weryfikacji" [] []] [compensation_message];
     mkFolder "Faktury" [] [message_with 8 (-200) ["fv-1.pdf"]]].

Definition example_config : AppConfig :=
  {| username := Some "jan@example.com";
     ksiegowa_glowny := "crypto@woox.pl";
     ksiegowa_2 := None;
     ksiegowa_3 := None;
     powiadomienia_brak_pdf := [];
     powiadomienia_czesciowe := [];
     przetworzone :=
       "Skrzynka odbiorcza/Kompensaty Quadra/Wyslane do weryfikacji" |}.

Definition example_templates : EmailTemplateCollection :=
  {| email_do_ksiegowej :=
       {| tpl_subject :=
            "Kompensata {temat_kompensaty} - faktury ({liczba_znalezionych_faktur_zal}/{liczba_faktur_z_kompensaty})";
          tpl_body := "{numery_faktur_z_kompensaty_lista}{brakujace_faktury_info}" |};
     powiadomienie_brak_faktur_w_pdf :=
       {| tpl_subject := "Problem z ekstrakcją faktur z kompensaty: {temat_kompensaty}";
          tpl_body := "Witaj {nazwa_uzytkownika}" |};
     powiadomienie_czesciowo_znalezione :=
       {| tpl_subject := "UWAGA: Nie wszystkie faktury znalezione dla kompensaty '{temat_kompensaty}'";
          tpl_body := "{brakujace_faktury_info}" |} |}.


(** ** Further notions used in the statements *)

(** The characters a fragment is made of. *)
Definition fragment_char_ok (c : ascii) : bool :=
  (Re.word c || Ascii.eqb c "." || Ascii.eqb c "-") && negb (Py.isupper c).

Fixpoint all_chars (p : ascii -> bool) (s : string) : bool :=
  match s with
  | EmptyString => true
  | String c r => p c && all_chars p r
  end.

(** No blank at either end. *)
Definition no_blank_at_ends (s : string) : Prop :=
  Py.lstrip s = s /\ Py.rstrip s = s.


(** [validate_pdf_content]: the reader reads the bytes and finds a page. *)
Definition validate_pdf_content (env : Env) (pdf_content : string) : bool :=
  match pdf_reader env pdf_content with
  | Some (_ :: _) => true
  | _ => false
  end.


(** The test of an attachment in the inner loop of
    [find_compensation_email]. *)
Definition main_attachment_ok (criteria : SearchCriteria) (a : Attachment)
  : bool :=
  is_file a && _attachment_matches_criteria a (main_attachment criteria).

(** A message passes the subject and sender checks of
    [find_compensation_email]: neither [continue] is taken. *)
Definition main_email_ok (criteria : SearchCriteria) (email : Message) : bool :=
  let c := main_email criteria in
  negb (Py.truthy (subject_contains c) &&
        negb (Py.contains (Py.lower (subject_contains c))
                          (Py.lower (subject email)))) &&
  negb (Py.truthy (sender_contains c) &&
        negb (Py.contains (Py.lower (sender_contains c))
                          (Py.lower (sender email)))).

(** What the loops of [find_compensation_email] return when they are not
    stopped. *)
Fixpoint first_compensation (criteria : SearchCriteria) (emails : list Message)
  : option (Message * Attachment) :=
  match emails with
  | [] => None
  | email :: rest =>
      if main_email_ok criteria email then
        match find (main_attachment_ok criteria) (attachments email) with
        | Some a => Some (email, a)
        | None => first_compensation criteria rest
        end
      else first_compensation criteria rest
  end.


(** The writes that filing a processed message away may leave: none, its
    move to the folder of processed messages, or its mark as read. *)
Definition archive_ops (config : AppConfig) (email : Message)
           (ops : list StoreOp) : Prop :=
  ops = []
  \/ ops = [OpMove (item_id email) (przetworzone config)]
  \/ (is_read email = false /\ ops = [OpMarkRead (item_id email)]).

(** The writes that a notification may leave: none, or one send without
    attachments to the given recipients. *)
Definition notice_ops (recipients : list string) (ops : list StoreOp) : Prop :=
  ops = [] \/ exists subj body, ops = [OpSend recipients subj body []].


(** The exceptions that the steps of a run let through. *)
Definition run_exception (x : Exn) : Prop :=
  x = OperationCancelledError \/ x = FolderNotFoundError
  \/ x = PDFProcessingError \/ x = StoreError \/ x = OverflowError.

(** [EmailTemplateCollection.get_default] *)
Definition get_default : EmailTemplateCollection :=
  {| email_do_ksiegowej :=
       {| tpl_subject :=
            "Kompensata {temat_kompensaty} - faktury ({liczba_znalezionych_faktur_zal}/{liczba_faktur_z_kompensaty})";
          tpl_body :=
            ("Dzień dobry," ++ nl ++ nl ++
             "W załączeniu przesyłam dokument kompensaty (z e-maila '{temat_kompensaty}') oraz odnalezione na skrzynce faktury." ++ nl ++ nl ++
             "Numery faktur odczytane z dokumentu kompensaty ({liczba_faktur_z_kompensaty}):" ++ nl ++
             "{numery_faktur_z_kompensaty_lista}" ++ nl ++ nl ++
             "Załączono {liczba_znalezionych_faktur_zal} plików faktur." ++ nl ++
             "{brakujace_faktury_info}" ++ nl ++ nl ++
             "Z poważaniem," ++ nl ++
             "Automatyczny Asystent Skrzynki Pocztowej")%string |};
     powiadomienie_brak_faktur_w_pdf :=
       {| tpl_subject :=
            "Problem z ekstrakcją faktur z kompensaty: {temat_kompensaty}";
          tpl_body :=
            ("Witaj {nazwa_uzytkownika}," ++ nl ++ nl ++
             "Automat próbował przetworzyć email z kompensatą, ale nie udało się wyekstrahować żadnych numerów faktur z załączonego dokumentu PDF." ++ nl ++ nl ++
             "Dotyczy to emaila:" ++ nl ++
             "  Temat: {temat_kompensaty}" ++ nl ++
             "  Nadawca: {nadawca_kompensaty}" ++ nl ++
             "  Data otrzymania: {data_kompensaty}" ++ nl ++
             "  Nazwa pliku PDF z kompensatą: {nazwa_pliku_pdf_kompensaty}" ++ nl ++ nl ++
             "Prosimy o ręczne sprawdzenie tego dokumentu." ++ nl ++ nl ++
             "Z poważaniem," ++ nl ++
             "Automatyczny Asystent Skrzynki Pocztowej")%string |};
     powiadomienie_czesciowo_znalezione :=
       {| tpl_subject :=
            "UWAGA: Nie wszystkie faktury znalezione dla kompensaty '{temat_kompensaty}'";
          tpl_body :=
            ("Cześć {nazwa_uzytkownika}," ++ nl ++ nl ++
             "Automat przetworzył email z kompensatą:" ++ nl ++
             "  - Temat: '{temat_kompensaty}'" ++ nl ++
             "  - Otrzymano: {data_kompensaty}" ++ nl ++ nl ++
             "Z dokumentu PDF wyciągnięto {liczba_oczekiwanych} numerów faktur:" ++ nl ++
             "{numery_faktur_z_kompensaty_lista}" ++ nl ++ nl ++
             "Udało się odnaleźć {liczba_znalezionych} odpowiadających im plików faktur." ++ nl ++
             "{brakujace_faktury_info}" ++ nl ++ nl ++
             "Email z kompensatą i znalezionymi fakturami został wysłany do księgowej." ++ nl ++
             "Prosimy o ewentualne sprawdzenie brakujących pozycji." ++ nl ++ nl ++
             "Z poważaniem," ++ nl ++
             "Automatyczny Asystent Skrzynki Pocztowej")%string |} |}.

(** The placeholders and the text of [email_do_ksiegowej] as [get_default] gives it. *)
Definition default_email_do_ksiegowej_subject : list Segment :=
  [Lit "Kompensata ";
   Hole "temat_kompensaty";
   Lit " - faktury (";
   Hole "liczba_znalezionych_faktur_zal";
   Lit "/";
   Hole "liczba_faktur_z_kompensaty";
   Lit ")"].

Definition default_email_do_ksiegowej_body : list Segment :=
  [Lit ("Dzień dobry," ++ nl ++ nl ++
          "W załączeniu przesyłam dokument kompensaty (z e-maila '")%string;
   Hole "temat_kompensaty";
   Lit ("') oraz odnalezione na skrzynce faktury." ++ nl ++ nl ++
          "Numery faktur odczytane z dokumentu kompensaty (")%string;
   Hole "liczba_faktur_z_kompensaty";
   Lit ("):" ++ nl)%string;
   Hole "numery_faktur_z_kompensaty_lista";
   Lit (nl ++ nl ++ "Załączono ")%string;
   Hole "liczba_znalezionych_faktur_zal";
   Lit (" plików faktur." ++ nl)%string;
   Hole "brakujace_faktury_info";
   Lit (nl ++ nl ++ "Z poważaniem," ++ nl ++
          "Automatyczny Asystent Skrzynki Pocztowej")%string].

(** The placeholders and the text of [powiadomienie_brak_faktur_w_pdf] as [get_default] gives it. *)
Definition default_powiadomienie_brak_faktur_w_pdf_subject : list Segment :=
  [Lit "Problem z ekstrakcją faktur z kompensaty: ";
   Hole "temat_kompensaty"].

Definition default_powiadomienie_brak_faktur_w_pdf_body : list Segment :=
  [Lit "Witaj ";
   Hole "nazwa_uzytkownika";
   Lit ("," ++ nl ++ nl ++
          "Automat próbował przetworzyć email z kompensatą, ale nie udało się wyekstrahować żadnych numerów faktur z załączonego dokumentu PDF." ++ nl ++ nl ++
          "Dotyczy to emaila:" ++ nl ++
          "  Temat: ")%string;
   Hole "temat_kompensaty";
   Lit (nl ++ "  Nadawca: ")%string;
   Hole "nadawca_kompensaty";
   Lit (nl ++ "  Data otrzymania: ")%string;
   Hole "data_kompensaty";
   Lit (nl ++ "  Nazwa pliku PDF z kompensatą: ")%string;
   Hole "nazwa_pliku_pdf_kompensaty";
   Lit (nl ++ nl ++ "Prosimy o ręczne sprawdzenie tego dokumentu." ++ nl ++ nl ++
          "Z poważaniem," ++ nl ++
          "Automatyczny Asystent Skrzynki Pocztowej")%string].

(** The placeholders and the text of [powiadomienie_czesciowo_znalezione] as [get_default] gives it. *)
Definition default_powiadomienie_czesciowo_znalezione_subject : list Segment :=
  [Lit "UWAGA: Nie wszystkie faktury znalezione dla kompensaty '";
   Hole "temat_kompensaty";
   Lit "'"].

Definition default_powiadomienie_czesciowo_znalezione_body : list Segment :=
  [Lit "Cześć ";
   Hole "nazwa_uzytkownika";
   Lit ("," ++ nl ++ nl ++
          "Automat przetworzył email z kompensatą:" ++ nl ++
          "  - Temat: '")%string;
   Hole "temat_kompensaty";
   Lit ("'" ++ nl ++
          "  - Otrzymano: ")%string;
   Hole "data_kompensaty";
   Lit (nl ++ nl ++ "Z dokumentu PDF wyciągnięto ")%string;
   Hole "liczba_oczekiwanych";
   Lit (" numerów faktur:" ++ nl)%string;
   Hole "numery_faktur_z_kompensaty_lista";
   Lit (nl ++ nl ++ "Udało się odnaleźć ")%string;
   Hole "liczba_znalezionych";
   Lit (" odpowiadających im plików faktur." ++ nl)%string;
   Hole "brakujace_faktury_info";
   Lit (nl ++ nl ++ "Email z kompensatą i znalezionymi fakturami został wysłany do księgowej." ++ nl ++
          "Prosimy o ewentualne sprawdzenie brakujących pozycji." ++ nl ++ nl ++
          "Z poważaniem," ++ nl ++
          "Automatyczny Asystent Skrzynki Pocztowej")%string].


(** Example data for a whole run in which the store answers every
    request; the reader and the engine are those of [pipeline_env]. *)
Definition working_env (acct : Account) : Env :=
  {| stop_event := fun _ => false;
     store_fails := fun _ => false;
     fetch_fails := fun _ => false;
     account := acct;
     now := 0%Z;
     re_compile := fun p => if String.eqb p "(" then None
                            else Some (fun text => Strings (Py.split text));
     set_order := fun l => l;
     pdf_reader := fun bytes => if Py.truthy bytes then Some [Some bytes]
                                else None;
     strftime := fun _ _ => EmptyString;
     py_format := fun _ _ => Raise ValueError;
     py_attribute_field := fun _ _ _ _ _ => Raise AttributeError |}.


(** ** [models.py]: dictionaries *)

(** A value of the dictionaries that [from_dict] reads and [to_dict]
    writes: a string, a number, a truth value or a dictionary. *)
#[warnings="-register-all"]
Inductive Json :=
| JStr (s : string)
| JInt (z : Z)
| JBool (b : bool)
| JDict (entries : list (string * Json)).

(** [d.get(k)]: the entries of a dictionary, each key once. *)
Fixpoint json_get (k : string) (d : list (string * Json)) : option Json :=
  match d with
  | [] => None
  | (k', v) :: r => if String.eqb k k' then Some v else json_get k r
  end.

(** The readers below return [None] for a value that is not of the type
    the field is declared with: [from_dict] does not check it, and the
    object it builds then holds a value that the records of this
    development cannot ([.get] on a value that is no dictionary raises
    [AttributeError]). *)

(** [data.get(k, {})] *)
Definition get_section (k : string) (data : list (string * Json))
  : option (list (string * Json)) :=
  match json_get k data with
  | None => Some []
  | Some (JDict entries) => Some entries
  | Some _ => None
  end.

(** [data.get(k, default)] for a field that is a string *)
Definition get_str (k default : string) (data : list (string * Json))
  : option string :=
  match json_get k data with
  | None => Some default
  | Some (JStr s) => Some s
  | Some _ => None
  end.

Definition get_bool (k : string) (default : bool) (data : list (string * Json))
  : option bool :=
  match json_get k data with
  | None => Some default
  | Some (JBool b) => Some b
  | Some _ => None
  end.

Definition get_int (k : string) (default : Z) (data : list (string * Json))
  : option Z :=
  match json_get k data with
  | None => Some default
  | Some (JInt z) => Some z
  | Some _ => None
  end.

Definition and_then {A B} (o : option A) (k : A -> option B) : option B :=
  match o with
  | Some a => k a
  | None => None
  end.

(** [SearchCriteria.from_dict] *)
Definition SearchCriteria_from_dict (data : list (string * Json))
  : option SearchCriteria :=
  and_then (get_section "glowny_email" data) (fun main_email_data =>
  and_then (get_str "folder_sciezka" "Skrzynka odbiorcza/Kompensaty Quadra"
                    main_email_data) (fun me_folder_path =>
  and_then (get_str "temat_zawiera" "" main_email_data) (fun me_subject =>
  and_then (get_str "nadawca_zawiera" "" main_email_data) (fun me_sender =>
  and_then (get_bool "tylko_nieprzeczytane" true main_email_data)
           (fun me_unread =>
  and_then (get_bool "wymagane_zalaczniki" true main_email_data)
           (fun me_attachments =>
  and_then (get_section "glowny_zalacznik" data) (fun main_attachment_data =>
  and_then (get_str "nazwa_zawiera" "kompensata" main_attachment_data)
           (fun ma_name =>
  and_then (get_str "rozszerzenie" "pdf" main_attachment_data) (fun ma_ext =>
  and_then (get_section "ekstrakcja_z_zalacznika" data) (fun extraction_data =>
  and_then (get_str "wzorzec_regex"
                    "\b(?:F/M|QN|F/)\s*[\w\s\/-]*\d[\w\s\/-]*\b"
                    extraction_data) (fun ex_pattern =>
  and_then (get_section "powiazane_emaile_faktury" data) (fun related_data =>
  and_then (get_str "folder_sciezka" "Skrzynka odbiorcza/Faktury" related_data)
           (fun re_folder_path =>
  and_then (get_str "rozszerzenie_pliku" "pdf" related_data) (fun re_ext =>
  and_then (get_int "miesiace_wstecz_kompensaty" 8 data) (fun months_comp =>
  and_then (get_int "miesiace_wstecz_faktury" 4 data) (fun months_inv =>
  Some {| main_email :=
            {| main_folder_path := me_folder_path;
               subject_contains := me_subject;
               sender_contains := me_sender;
               only_unread := me_unread;
               require_attachments := me_attachments |};
          main_attachment :=
            {| name_contains := ma_name; extension := ma_ext |};
          regex_pattern := ex_pattern;
          related_emails :=
            {| folder_path := re_folder_path; file_extension := re_ext |};
          months_back_compensation := months_comp;
          months_back_invoices := months_inv |})))))))))))))))).

(** [SearchCriteria.to_dict] *)
Definition SearchCriteria_to_dict (self : SearchCriteria)
  : list (string * Json) :=
  [("glowny_email",
    JDict [("folder_sciezka", JStr (main_folder_path (main_email self)));
           ("temat_zawiera", JStr (subject_contains (main_email self)));
           ("nadawca_zawiera", JStr (sender_contains (main_email self)));
           ("tylko_nieprzeczytane", JBool (only_unread (main_email self)));
           ("wymagane_zalaczniki",
            JBool (require_attachments (main_email self)))]);
   ("glowny_zalacznik",
    JDict [("nazwa_zawiera", JStr (name_contains (main_attachment self)));
           ("rozszerzenie", JStr (extension (main_attachment self)))]);
   ("ekstrakcja_z_zalacznika",
    JDict [("wzorzec_regex", JStr (regex_pattern self))]);
   ("powiazane_emaile_faktury",
    JDict [("folder_sciezka", JStr (folder_path (related_emails self)));
           ("rozszerzenie_pliku", JStr (file_extension (related_emails self)))]);
   ("miesiace_wstecz_kompensaty", JInt (months_back_compensation self));
   ("miesiace_wstecz_faktury", JInt (months_back_invoices self))].

(** One template of [EmailTemplateCollection.from_dict]: the subject and
    the body of the dictionary, each with the default's in its place
    when it is absent. *)
Definition template_from (template_data : list (string * Json))
           (default : EmailTemplate) : option EmailTemplate :=
  and_then (get_str "subject" (tpl_subject default) template_data) (fun s =>
  and_then (get_str "body" (tpl_body default) template_data) (fun b =>
  Some {| tpl_subject := s; tpl_body := b |})).

(** [EmailTemplateCollection.from_dict] *)
Definition EmailTemplateCollection_from_dict (data : list (string * Json))
  : option EmailTemplateCollection :=
  let default := get_default in
  and_then (get_section "email_do_ksiegowej" data)
           (fun email_do_ksiegowej_data =>
  and_then (get_section "powiadomienie_brak_faktur_w_pdf" data)
           (fun powiadomienie_brak_data =>
  and_then (get_section "powiadomienie_czesciowo_znalezione" data)
           (fun powiadomienie_czesciowo_data =>
  and_then (template_from email_do_ksiegowej_data
                          (email_do_ksiegowej default)) (fun t1 =>
  and_then (template_from powiadomienie_brak_data
                          (powiadomienie_brak_faktur_w_pdf default)) (fun t2 =>
  and_then (template_from powiadomienie_czesciowo_data
                          (powiadomienie_czesciowo_znalezione default))
           (fun t3 =>
  Some {| email_do_ksiegowej := t1;
          powiadomienie_brak_faktur_w_pdf := t2;
          powiadomienie_czesciowo_znalezione := t3 |})))))).

Definition template_to_dict (t : EmailTemplate) : Json :=
  JDict [("subject", JStr (tpl_subject t)); ("body", JStr (tpl_body t))].

(** [EmailTemplateCollection.to_dict] *)
Definition EmailTemplateCollection_to_dict (self : EmailTemplateCollection)
  : list (string * Json) :=
  [("email_do_ksiegowej", template_to_dict (email_do_ksiegowej self));
   ("powiadomienie_brak_faktur_w_pdf",
    template_to_dict (powiadomienie_brak_faktur_w_pdf self));
   ("powiadomienie_czesciowo_znalezione",
    template_to_dict (powiadomienie_czesciowo_znalezione self))].

(** ** [config.py], [email_processor.py]: the configuration *)

(** [if s:] for an optional string *)
Definition is_given (o : option string) : bool :=
  match o with
  | Some s => Py.truthy s
  | None => false
  end.

(** [EmailProcessor.validate_configuration]; [password] is
    [config.exchange.password], which the record [AppConfig] of this
    development does not hold. *)
Definition validate_configuration (config : AppConfig)
           (password : option string) : bool * string :=
  if negb (is_given (username config))
  then (false, "Brak nazwy użytkownika Exchange")
  else if negb (is_given password)
  then (false, "Brak hasła użytkownika Exchange")
  else match get_ksiegowa_emails config with
       | [] => (false, "Brak adresów email księgowej")
       | _ => (true, "Konfiguracja poprawna")
       end.

(** [for i in range(i, i + count)] of [AppConfig._get_email_list];
    [environ] is [os.environ.get]. *)
Fixpoint email_list_from (environ : string -> option string)
         (base_key : string) (i count : nat) : list string :=
  match count with
  | 0 => []
  | S rest =>
      match environ (base_key ++ "_" ++ decimal (Z.of_nat i))%string with
      | Some email =>
          if Py.truthy email && Py.truthy (Py.strip email)
          then [Py.strip email]
          else []
      | None => []
      end ++ email_list_from environ base_key (S i) rest
  end.

(** [AppConfig._get_email_list] *)
Definition _get_email_list (environ : string -> option string)
           (base_key : string) (max_count : nat) : list string :=
  email_list_from environ base_key 1 max_count.

(** A word of [str.split]: not empty and without any blank. *)
Definition is_word (s : string) : bool :=
  Py.truthy s && all_chars (fun c => negb (Py.isspace c)) s.


(** The window of the batch search cannot be computed: its end, two
    days after the reference date, or its start is no instant of a
    [datetime], or the days back are more than a [timedelta] holds. *)
Definition invoice_window_overflows (reference_date months_back : Z) : Prop :=
  datetime_plus reference_date (days 2) = Raise OverflowError
  \/ window_start reference_date months_back = Raise OverflowError.


(** A string of ASCII characters: on these the character tables of
    [Py] and [Re], which are tables of bytes, are those of Python's
    [str] methods and of [re]. *)
Definition is_ascii (s : string) : bool :=
  all_chars (fun c => (Py.code c <? 128)%nat) s.

(** Example data: an account whose lazy reads all fail. *)
Definition offline_env (acct : Account) : Env :=
  {| stop_event := fun _ => false;
     store_fails := fun _ => false;
     fetch_fails := fun _ => true;
     account := acct;
     now := 0%Z;
     re_compile := fun _ => None;
     set_order := fun l => l;
     pdf_reader := fun _ => None;
     strftime := fun _ _ => EmptyString;
     py_format := fun _ _ => Raise ValueError;
     py_attribute_field := fun _ _ _ _ _ => Raise AttributeError |}.


(* ================================================================== *)
(** * Properties *)

Example fragment_fm : search_fragment "F/M 123-45" = "f_m_123-45".
Proof. reflexivity. Qed.

Example split_words : Py.split "  a  b c " = ["a"; "b"; "c"].
Proof. reflexivity. Qed.

Example strip_ex : Py.strip "  a b  " = "a b".
Proof. reflexivity. Qed.

Example split_path :
  Py.split_on "/" "Skrzynka odbiorcza/Faktury" = ["Skrzynka odbiorcza"; "Faktury"].
Proof. reflexivity. Qed.

(** ** The fragment *)

Lemma fragment_char_agrees (c : ascii) :
  (if Re.not_word_digit_dot_hyphen c then "_"%char else c) =
  (if Py.isalnum c || Ascii.eqb c "." || Ascii.eqb c "-" then c else "_"%char).
Proof.
  unfold Re.not_word_digit_dot_hyphen, Re.word, Re.digit.
  destruct (Py.isalnum c) eqn:Ha; simpl; [reflexivity|].
  destruct (Ascii.eqb c "_") eqn:Hu; simpl.
  - apply Ascii.eqb_eq in Hu. subst c. reflexivity.
  - assert (Hd : Py.isdigit c = false).
    { unfold Py.isalnum in Ha. apply orb_false_iff in Ha. tauto. }
    rewrite Hd. simpl.
    destruct (Ascii.eqb c "." || Ascii.eqb c "-"); reflexivity.
Qed.

Lemma map_chars_ext (f g : ascii -> ascii) (s : string) :
  (forall c, f c = g c) -> Py.map_chars f s = Py.map_chars g s.
Proof.
  intros H. induction s as [|c r IH]; simpl; [reflexivity|].
  now rewrite H, IH.
Qed.

(** C5: the fragment the code derives is the function of the identifier
    alone that the specification describes (every character that is not
    alphanumeric, a dot or a hyphen becomes an underscore, then all is
    lowercased), and "F/M 123-45" gives "f_m_123-45". *)
Theorem search_fragment_is_spec_fragment :
  (forall identifier, search_fragment identifier = spec_fragment identifier)
  /\ search_fragment "F/M 123-45" = "f_m_123-45".
Proof.
  split; [|reflexivity].
  intros identifier. unfold search_fragment, spec_fragment, Re.sub_class.
  f_equal. apply map_chars_ext. exact fragment_char_agrees.
Qed.

(** ** The monad of a run *)

Lemma poll_n_add (a b : nat) (w : World) :
  poll_n a (poll_n b w) = poll_n (a + b) w.
Proof. unfold poll_n; simpl. f_equal. lia. Qed.

Lemma poll_n_0 (w : World) : poll_n 0 w = w.
Proof. destruct w; reflexivity. Qed.

Lemma check_cancelled_eq env (w : World) :
  check_cancelled env w =
  ((if stop_event env (polls w) then Raise OperationCancelledError else Ok tt),
   poll_n 1 w).
Proof.
  unfold check_cancelled, bind, is_set, poll_n, raise, ret; simpl.
  destruct (stop_event env (polls w)); reflexivity.
Qed.

Lemma store_request_eq env (w : World) :
  store_request env w =
  ((if store_fails env (requests w) then Raise StoreError else Ok tt),
   requested w).
Proof.
  unfold store_request, requested.
  destruct (store_fails env (requests w)); reflexivity.
Qed.

Lemma fetch_eq env {A} (a : A) (w : World) :
  fetch env a w =
  ((if fetch_fails env (requests w) then Raise StoreError else Ok a), w).
Proof. unfold fetch. destruct (fetch_fails env (requests w)); reflexivity. Qed.

(** The arithmetic of a window either gives the instant or raises
    [OverflowError]. *)
Lemma datetime_plus_ok (t delta r : Z) :
  datetime_plus t delta = Ok r -> r = (t + delta)%Z.
Proof.
  unfold datetime_plus. destruct (in_datetime_range (t + delta));
    intros H; inversion H; reflexivity.
Qed.

Lemma datetime_plus_raises (t delta : Z) x :
  datetime_plus t delta = Raise x -> x = OverflowError.
Proof.
  unfold datetime_plus. destruct (in_datetime_range (t + delta));
    intros H; inversion H; reflexivity.
Qed.

Lemma window_start_ok (t months_back s : Z) :
  window_start t months_back = Ok s -> s = (t - days (months_back * 31))%Z.
Proof.
  unfold window_start, timedelta, datetime_minus.
  destruct (Z.abs (months_back * 31) <=? 999999999)%Z; [|discriminate].
  destruct (in_datetime_range _); intros H; inversion H; reflexivity.
Qed.

Lemma window_start_raises (t months_back : Z) x :
  window_start t months_back = Raise x -> x = OverflowError.
Proof.
  unfold window_start, timedelta, datetime_minus.
  destruct (Z.abs (months_back * 31) <=? 999999999)%Z.
  - destruct (in_datetime_range _); intros H; inversion H; reflexivity.
  - intros H; inversion H; reflexivity.
Qed.

Lemma bind_ok {A B} (m : M A) (k : A -> M B) (w : World) a w' :
  m w = (Ok a, w') -> bind m k w = k a w'.
Proof. intros H. unfold bind. now rewrite H. Qed.

Lemma bind_raise {A B} (m : M A) (k : A -> M B) (w : World) e w' :
  m w = (Raise e, w') -> bind m k w = (Raise e, w').
Proof. intros H. unfold bind. now rewrite H. Qed.

Ltac step_check env w :=
  unfold bind at 1; rewrite (check_cancelled_eq env w);
  destruct (stop_event env (polls w)) eqn:?.

(** ** Scanning the attachments and the messages *)

Section Scan.

Variable env : Env.
Variables frag ext : string.

Let matches := attachment_matches frag ext.

(** A scan that returns has returned the first matching attachment; it
    sent nothing to the store. *)
Lemma scan_attachments_ok atts : forall w r w',
  scan_attachments env frag ext atts w = (Ok r, w') ->
  r = find matches atts /\ requests w' = requests w /\ trace w' = trace w.
Proof.
  induction atts as [|a rest IH]; intros w r w' H; simpl in H.
  - inversion H; subst. auto.
  - revert H. step_check env w; [discriminate|].
    simpl. fold matches. destruct (matches a) eqn:Hm.
    + intros H; inversion H; subst. auto.
    + intros H. apply IH in H. exact H.
Qed.

Lemma scan_attachments_raises atts : forall w e w',
  scan_attachments env frag ext atts w = (Raise e, w') ->
  e = OperationCancelledError /\ requests w' = requests w /\ trace w' = trace w.
Proof.
  induction atts as [|a rest IH]; intros w e w' H; simpl in H.
  - inversion H.
  - revert H. step_check env w.
    + intros H; inversion H; subst. auto.
    + simpl. fold matches. destruct (matches a).
      * discriminate.
      * intros H. apply IH in H. exact H.
Qed.

Lemma scan_emails_ok emails : forall w r w',
  scan_emails env frag ext emails w = (Ok r, w') ->
  r = find matches (flat_map attachments emails)
  /\ requests w' = requests w /\ trace w' = trace w.
Proof.
  induction emails as [|m rest IH]; intros w r w' H; cbn [scan_emails] in H.
  - inversion H; subst. auto.
  - revert H. step_check env w; [discriminate|].
    simpl flat_map.
    destruct (attachments m) as [|a atts] eqn:Ha.
    + simpl. intros H. apply IH in H. exact H.
    + unfold bind at 1.
      destruct (scan_attachments env frag ext (a :: atts) (poll_n 1 w))
        as [[r0|e0] w0] eqn:Hs; [|discriminate].
      apply scan_attachments_ok in Hs. destruct Hs as (Hr & Hq & Ht).
      simpl in Hq, Ht.
      assert (Hf : find matches ((a :: atts) ++ flat_map attachments rest) =
                   match find matches (a :: atts) with
                   | Some x => Some x
                   | None => find matches (flat_map attachments rest)
                   end).
      { clear. induction (a :: atts) as [|x l IHl]; simpl; [reflexivity|].
        destruct (matches x); auto. }
      rewrite Hf, <- Hr.
      destruct r0 as [x|].
      * intros H; inversion H; subst. rewrite Hq, Ht. auto.
      * intros H. apply IH in H. rewrite Hq, Ht in H. exact H.
Qed.

Lemma scan_emails_raises emails : forall w e w',
  scan_emails env frag ext emails w = (Raise e, w') ->
  e = OperationCancelledError /\ requests w' = requests w /\ trace w' = trace w.
Proof.
  induction emails as [|m rest IH]; intros w e w' H; cbn [scan_emails] in H.
  - inversion H.
  - revert H. step_check env w.
    + intros H; inversion H; subst. auto.
    + destruct (attachments m) as [|a atts] eqn:Ha.
      * intros H. apply IH in H. exact H.
      * unfold bind at 1.
        destruct (scan_attachments env frag ext (a :: atts) (poll_n 1 w))
          as [[r0|e0] w0] eqn:Hs.
        -- apply scan_attachments_ok in Hs. destruct Hs as (_ & Hq & Ht).
           simpl in Hq, Ht. destruct r0.
           ++ discriminate.
           ++ intros H. apply IH in H. rewrite Hq, Ht in H. exact H.
        -- apply scan_attachments_raises in Hs. simpl in Hs.
           intros H; inversion H; subst. exact Hs.
Qed.

End Scan.

(** ** Newest first *)

Lemma insert_newest_in (m : Message) (l : list Message) (x : Message) :
  In x (insert_newest m l) <-> x = m \/ In x l.
Proof.
  induction l as [|y r IH]; simpl.
  - intuition congruence.
  - destruct (datetime_received y <? datetime_received m)%Z; simpl.
    + intuition congruence.
    + rewrite IH. intuition congruence.
Qed.

Lemma order_by_newest_in (l : list Message) (x : Message) :
  In x (order_by_newest l) <-> In x l.
Proof.
  induction l as [|y r IH]; simpl; [tauto|].
  rewrite insert_newest_in, IH. intuition congruence.
Qed.

Lemma insert_newest_sorted (m : Message) (l : list Message) :
  StronglySorted newer_or_same l ->
  StronglySorted newer_or_same (insert_newest m l).
Proof.
  induction 1 as [|y r Hs IH Hall]; simpl.
  - constructor; constructor.
  - destruct (Z.ltb_spec (datetime_received y) (datetime_received m)) as [Hlt|Hge].
    + constructor; [constructor; assumption|].
      constructor; [unfold newer_or_same; lia|].
      rewrite Forall_forall in Hall |- *. intros z Hz.
      specialize (Hall z Hz). unfold newer_or_same in *. lia.
    + constructor; [exact IH|].
      rewrite Forall_forall in Hall |- *. intros z Hz.
      apply insert_newest_in in Hz. destruct Hz as [->|Hz].
      * unfold newer_or_same. lia.
      * exact (Hall z Hz).
Qed.

Lemma order_by_newest_sorted (l : list Message) :
  StronglySorted newer_or_same (order_by_newest l).
Proof.
  induction l as [|m r IH]; simpl; [constructor|].
  apply insert_newest_sorted, IH.
Qed.

Lemma invoice_emails_in folder s e (m : Message) :
  In m (invoice_emails folder s e) <->
  In m (folder_items folder) /\ has_attachments m = true /\
  (s <= datetime_received m < e)%Z.
Proof.
  unfold invoice_emails. rewrite order_by_newest_in, filter_In.
  unfold in_window. rewrite !andb_true_iff, Z.leb_le, Z.ltb_lt. tauto.
Qed.

(** ** Scans that are not stopped *)

Ltac same_world :=
  rewrite ?poll_n_add; f_equal; f_equal;
  simpl; rewrite ?length_app; simpl; lia.

Section ScanRun.

Variable env : Env.
Hypothesis quiet : never_stops env.
Variables frag ext : string.

Let matches := attachment_matches frag ext.

Lemma check_cancelled_quiet (w : World) :
  check_cancelled env w = (Ok tt, poll_n 1 w).
Proof. rewrite check_cancelled_eq, quiet. reflexivity. Qed.

Lemma bind_check_quiet {A} (k : M A) (w : World) :
  (check_cancelled env ;;; k) w = k (poll_n 1 w).
Proof. unfold bind. now rewrite check_cancelled_quiet. Qed.

Lemma scan_attachments_run atts : forall w,
  (exists l1 a l2,
      atts = l1 ++ a :: l2 /\ matches a = true /\
      (forall x, In x l1 -> matches x = false) /\
      scan_attachments env frag ext atts w =
      (Ok (Some a), poll_n (length l1 + 1) w))
  \/ ((forall x, In x atts -> matches x = false) /\
      scan_attachments env frag ext atts w = (Ok None, poll_n (length atts) w)).
Proof.
  induction atts as [|a rest IH]; intros w.
  - right. split; [intros x []|]. simpl. now rewrite poll_n_0.
  - cbn [scan_attachments]. rewrite !bind_check_quiet. fold matches.
    destruct (matches a) eqn:Hm.
    + left. exists [], a, rest. repeat split; auto. intros x [].
    + destruct (IH (poll_n 1 w)) as [(l1 & b & l2 & -> & Hb & Hl1 & Hrun)|[Hall Hrun]].
      * left. exists (a :: l1), b, l2. repeat split; auto.
        -- intros x [<-|Hx]; auto.
        -- rewrite Hrun. same_world.
      * right. split.
        -- intros x [<-|Hx]; auto.
        -- rewrite Hrun. same_world.
Qed.

Lemma scan_emails_run emails : forall w,
  (exists pre m post l1 a l2,
      emails = pre ++ m :: post /\ attachments m = l1 ++ a :: l2 /\
      matches a = true /\
      (forall x, In x (flat_map attachments pre ++ l1) -> matches x = false) /\
      scan_emails env frag ext emails w =
      (Ok (Some a),
       poll_n (length pre + 1 + (length (flat_map attachments pre ++ l1) + 1)) w))
  \/ ((forall x, In x (flat_map attachments emails) -> matches x = false) /\
      exists k, scan_emails env frag ext emails w = (Ok None, poll_n k w)).
Proof.
  induction emails as [|m rest IH]; intros w.
  - right. split; [intros x []|]. exists 0. simpl. now rewrite poll_n_0.
  - cbn [scan_emails]. rewrite !bind_check_quiet.
    destruct (attachments m) as [|a0 atts0] eqn:Ha.
    + destruct (IH (poll_n 1 w))
        as [(pre & m' & post & l1 & a & l2 & -> & Hm' & Ha' & Hpre & Hrun)
           |[Hall [k Hrun]]].
      * left. exists (m :: pre), m', post, l1, a, l2.
        simpl flat_map. rewrite Ha. simpl app at 2.
        repeat split; auto.
        rewrite Hrun. same_world.
      * right. simpl flat_map. rewrite Ha. split; [exact Hall|].
        exists (k + 1). rewrite Hrun. same_world.
    + destruct (scan_attachments_run (a0 :: atts0) (poll_n 1 w))
        as [(l1 & a & l2 & Heq & Hma & Hl1 & Hrun)|[Hall Hrun]];
        rewrite !(bind_ok _ _ _ _ _ Hrun).
      * left. exists [], m, rest, l1, a, l2. simpl.
        rewrite Ha. repeat split; auto.
        unfold ret. same_world.
      * destruct (IH (poll_n (length (a0 :: atts0)) (poll_n 1 w)))
          as [(pre & m' & post & l1 & a & l2 & -> & Hm' & Ha' & Hpre & Hrun')
             |[Hall' [k Hrun']]].
        -- left. exists (m :: pre), m', post, l1, a, l2.
           simpl flat_map. rewrite Ha.
           repeat split; auto.
           ++ intros x Hx. rewrite <- app_assoc in Hx.
              apply in_app_or in Hx. destruct Hx as [Hx|Hx]; auto.
           ++ rewrite Hrun'. rewrite ?poll_n_add. f_equal. f_equal.
              rewrite <- app_assoc, !length_app. simpl. lia.
        -- right. simpl flat_map. rewrite Ha. split.
           ++ intros x Hx. apply in_app_or in Hx. destruct Hx as [Hx|Hx]; auto.
           ++ exists (k + length (a0 :: atts0) + 1). rewrite Hrun'. same_world.
Qed.

End ScanRun.

(** ** The search for one identifier *)

Section Single.

Variable env : Env.
Variable folder : Folder.
Variables (invoice_number : string) (s e : Z) (ext : string).

Let matches := attachment_matches (search_fragment invoice_number) ext.

(** A search that returns has made one request; when the store failed on
    it the result is [None], otherwise it is the first match among the
    candidates. *)
Lemma find_single_ok (w : World) r w' :
  _find_single_invoice_attachment env folder invoice_number s e ext w = (Ok r, w') ->
  r = (if store_fails env (requests w) then None
       else find matches (candidates folder s e))
  /\ requests w' = S (requests w) /\ trace w' = trace w.
Proof.
  unfold _find_single_invoice_attachment, catch. unfold bind at 1.
  rewrite store_request_eq.
  destruct (store_fails env (requests w)).
  - simpl. intros H; inversion H; subst. auto.
  - destruct (scan_emails env (search_fragment invoice_number) ext
                (invoice_emails folder s e) (requested w))
      as [[r0|e0] w0] eqn:Hs.
    + intros H; inversion H; subst.
      apply scan_emails_ok in Hs. exact Hs.
    + apply scan_emails_raises in Hs. destruct Hs as (-> & _).
      simpl. discriminate.
Qed.

(** The only exception that leaves the search is the cancellation. *)
Lemma find_single_raises (w : World) x w' :
  _find_single_invoice_attachment env folder invoice_number s e ext w = (Raise x, w') ->
  x = OperationCancelledError
  /\ requests w' = S (requests w) /\ trace w' = trace w.
Proof.
  unfold _find_single_invoice_attachment, catch. unfold bind at 1.
  rewrite store_request_eq.
  destruct (store_fails env (requests w)).
  - simpl. discriminate.
  - destruct (scan_emails env (search_fragment invoice_number) ext
                (invoice_emails folder s e) (requested w))
      as [[r0|e0] w0] eqn:Hs.
    + discriminate.
    + apply scan_emails_raises in Hs. destruct Hs as (-> & Hq & Ht).
      simpl. intros H; inversion H; subst. auto.
Qed.

(** A store failure during the search of one identifier is swallowed:
    the search returns [None]. *)
Lemma find_single_store_failure (w : World) :
  store_fails env (requests w) = true ->
  _find_single_invoice_attachment env folder invoice_number s e ext w =
  (Ok None, requested w).
Proof.
  intros Hf. unfold _find_single_invoice_attachment, catch. unfold bind at 1.
  rewrite store_request_eq, Hf. reflexivity.
Qed.

End Single.

Lemma attachment_matches_iff frag ext (a : Attachment) :
  attachment_matches frag ext a = true <->
  is_file a = true /\
  Py.endswith (Py.lower (att_name a)) ("." ++ Py.lower ext) = true /\
  Py.contains frag (Py.lower (att_name a)) = true.
Proof.
  unfold attachment_matches. rewrite !andb_true_iff. tauto.
Qed.

(** C3 (as amended): when the search is neither stopped nor failed by the
    store, it visits the messages of the window that have attachments,
    newest first, and returns the first file attachment whose lowercased
    name ends with "." plus the lowercased extension and contains the
    fragment; it polls once per visited message and once per visited
    attachment and nothing after the accepted one; it returns nothing
    when no attachment qualifies.  "INV-1001" has the fragment "inv-1001":
    it finds "inv-1001_copy.pdf" and does not find "inv_1001_copy.pdf". *)
Theorem find_single_returns_first_match :
  forall env folder invoice_number s e ext w,
    never_stops env ->
    store_fails env (requests w) = false ->
    let emails := invoice_emails folder s e in
    let frag := search_fragment invoice_number in
    let qualifies a :=
      is_file a = true /\
      Py.endswith (Py.lower (att_name a)) ("." ++ Py.lower ext) = true /\
      Py.contains frag (Py.lower (att_name a)) = true in
    StronglySorted newer_or_same emails
    /\ (forall m, In m emails <->
                  In m (folder_items folder) /\ has_attachments m = true /\
                  (s <= datetime_received m < e)%Z)
    /\ (exists r w',
          _find_single_invoice_attachment env folder invoice_number s e ext w
          = (Ok r, w') /\
          match r with
          | Some a =>
              exists pre m post l1 l2,
                emails = pre ++ m :: post /\
                attachments m = l1 ++ a :: l2 /\
                qualifies a /\
                (forall x, In x (flat_map attachments pre ++ l1) ->
                           ~ qualifies x) /\
                polls w' = polls w + (length pre + 1)
                           + (length (flat_map attachments pre ++ l1) + 1)
          | None =>
              forall m x, In m emails -> In x (attachments m) -> ~ qualifies x
          end)
    /\ fst (_find_single_invoice_attachment (quiet_env no_account)
              (folder_with ["inv-1001_copy.pdf"; "readme.txt"])
              "INV-1001" 0 10 "pdf" world0)
       = Ok (Some (FileAttachment "inv-1001_copy.pdf" ""))
    /\ fst (_find_single_invoice_attachment (quiet_env no_account)
              (folder_with ["inv_1001_copy.pdf"; "readme.txt"])
              "INV-1001" 0 10 "pdf" world0)
       = Ok None.
Proof.
  intros env folder invoice_number s e ext w Hquiet Hstore emails frag qualifies.
  assert (Hq : forall a, attachment_matches frag ext a = true <-> qualifies a)
    by (intros a; apply attachment_matches_iff).
  assert (Hnq : forall a, attachment_matches frag ext a = false -> ~ qualifies a).
  { intros a Hf Ha. apply Hq in Ha. congruence. }
  split; [apply order_by_newest_sorted|].
  split; [intros m; apply invoice_emails_in|].
  split; [|split; reflexivity].
  unfold _find_single_invoice_attachment, catch. unfold bind at 1.
  rewrite store_request_eq, Hstore. fold frag. fold emails.
  destruct (scan_emails_run env Hquiet frag ext emails (requested w))
    as [(pre & m & post & l1 & a & l2 & He & Ha & Hma & Hpre & Hrun)
       |[Hall [k Hrun]]]; rewrite Hrun.
  - exists (Some a). eexists. split; [reflexivity|].
    exists pre, m, post, l1, l2. repeat split; try (apply Hq; exact Hma); auto.
    simpl. lia.
  - exists None. eexists. split; [reflexivity|].
    intros m x Hm Hx. apply Hnq, Hall.
    apply in_flat_map. exists m. auto.
Qed.

Lemma find_single_returns_first_match_witness :
  never_stops (quiet_env no_account) /\
  StronglySorted newer_or_same
    (invoice_emails (folder_with ["inv-1001_copy.pdf"; "readme.txt"]) 0 10).
Proof.
  split.
  - intros n. reflexivity.
  - apply (find_single_returns_first_match (quiet_env no_account)
             (folder_with ["inv-1001_copy.pdf"; "readme.txt"])
             "INV-1001" 0%Z 10%Z "pdf" world0).
    + intros n. reflexivity.
    + reflexivity.
Defined.

(** C3, the example as the claim words it: the only candidate of
    "INV-1001" that ends in ".pdf" is "inv_1001_copy.pdf", and the search
    does not return it. *)
Lemma scenario_b_finds_nothing :
  fst (_find_single_invoice_attachment (quiet_env no_account)
         (folder_with ["inv_1001_copy.pdf"; "readme.txt"])
         "INV-1001" 0 10 "pdf" world0)
  <> Ok (Some (FileAttachment "inv_1001_copy.pdf" "")).
Proof. vm_compute. discriminate. Qed.

(** ** The batch *)

Section Batch.

Variable env : Env.
Variable folder : Folder.
Variables (s e : Z) (ext : string).

Lemma results_from_length req ids :
  length (results_from env folder s e ext req ids) = length ids.
Proof.
  revert req. induction ids as [|i r IH]; intros req; simpl; auto.
Qed.

Lemma somes_length {A} (l : list (option A)) : length (somes l) <= length l.
Proof.
  induction l as [|[a|] r IH]; simpl; lia.
Qed.

Lemma somes_in {A} (l : list (option A)) (a : A) :
  In a (somes l) <-> In (Some a) l.
Proof.
  induction l as [|[b|] r IH]; simpl.
  - tauto.
  - rewrite IH. intuition congruence.
  - rewrite IH. intuition congruence.
Qed.

(** A batch loop that returns has appended, in order, what the searches
    found; it wrote nothing to the store. *)
Lemma find_related_loop_ok ids : forall acc w found w',
  find_related_loop env folder s e ext ids acc w = (Ok found, w') ->
  found = acc ++ somes (results_from env folder s e ext (requests w) ids)
  /\ Forall2 (searched env folder s e ext) ids
             (results_from env folder s e ext (requests w) ids)
  /\ trace w' = trace w.
Proof.
  induction ids as [|i rest IH]; intros acc w found w' H;
    cbn [find_related_loop] in H.
  - inversion H; subst. simpl. rewrite app_nil_r. auto.
  - revert H. step_check env w; [discriminate|].
    unfold bind at 1.
    destruct (_find_single_invoice_attachment env folder i s e ext (poll_n 1 w))
      as [[r|x] w1] eqn:Hs; [|discriminate].
    pose proof (find_single_ok _ _ _ _ _ _ _ _ _ Hs) as (Hr & Hq & Ht).
    simpl in Hq, Ht.
    change (requests (poll_n 1 w)) with (requests w) in Hr.
    intros H. apply IH in H. destruct H as (Hf & Hall & Htr).
    rewrite Hq in Hf, Hall. cbn [results_from].
    rewrite <- Hr. repeat split.
    + rewrite Hf. destruct r; simpl; [rewrite <- app_assoc|]; reflexivity.
    + constructor; [|exact Hall]. exists (poll_n 1 w), w1. exact Hs.
    + congruence.
Qed.

Lemma find_related_loop_raises ids : forall acc w x w',
  find_related_loop env folder s e ext ids acc w = (Raise x, w') ->
  x = OperationCancelledError /\ trace w' = trace w.
Proof.
  induction ids as [|i rest IH]; intros acc w x w' H;
    cbn [find_related_loop] in H.
  - inversion H.
  - revert H. step_check env w.
    + intros H; inversion H; subst. auto.
    + unfold bind at 1.
      destruct (_find_single_invoice_attachment env folder i s e ext (poll_n 1 w))
        as [[r|x0] w1] eqn:Hs.
      * pose proof (find_single_ok _ _ _ _ _ _ _ _ _ Hs) as (_ & _ & Ht).
        simpl in Ht. intros H. apply IH in H. rewrite Ht in H. exact H.
      * pose proof (find_single_raises _ _ _ _ _ _ _ _ _ Hs) as (-> & _ & Ht).
        simpl in Ht. intros H; inversion H; subst. auto.
Qed.

(** Without a stop the search of one identifier returns. *)
Lemma find_single_quiet (Hquiet : never_stops env) i (w : World) :
  exists r w',
    _find_single_invoice_attachment env folder i s e ext w = (Ok r, w').
Proof.
  unfold _find_single_invoice_attachment, catch. unfold bind at 1.
  rewrite store_request_eq.
  destruct (store_fails env (requests w)).
  - exists None, (requested w). reflexivity.
  - destruct (scan_emails_run env Hquiet (search_fragment i) ext
                (invoice_emails folder s e) (requested w))
      as [(pre & m & post & l1 & a & l2 & _ & _ & _ & _ & Hrun)
         |[_ [k Hrun]]]; rewrite Hrun; eauto.
Qed.

(** Without a stop the batch loop returns. *)
Lemma find_related_loop_quiet (Hquiet : never_stops env) ids : forall acc w,
  exists found w',
    find_related_loop env folder s e ext ids acc w = (Ok found, w').
Proof.
  induction ids as [|i rest IH]; intros acc w; cbn [find_related_loop].
  - unfold ret. eauto.
  - rewrite bind_check_quiet by assumption.
    destruct (find_single_quiet Hquiet i (poll_n 1 w)) as (r & w1 & Hs).
    rewrite (bind_ok _ _ _ _ _ Hs). apply IH.
Qed.

End Batch.

(** The batch either has nothing to look for, or it resolves the folder
    and runs the loop over it. *)
Lemma find_related_invoices_ok env ids ref criteria w found w' :
  find_related_invoices env ids ref criteria w = (Ok found, w') ->
  (ids = [] /\ found = [] /\ trace w' = trace w) \/
  (ids <> [] /\
   exists folder w1,
     get_folder_by_path env (folder_path (related_emails criteria)) (poll_n 1 w)
     = (Ok folder, w1) /\
     find_related_loop env folder
       (ref - days (months_back_invoices criteria * 31))%Z (ref + days 2)%Z
       (file_extension (related_emails criteria)) ids [] w1 = (Ok found, w')).
Proof.
  unfold find_related_invoices. step_check env w; [discriminate|].
  destruct ids as [|i rest].
  - intros H; inversion H; subst. left. auto.
  - unfold bind at 1.
    destruct (get_folder_by_path env (folder_path (related_emails criteria))
                (poll_n 1 w)) as [[folder|x] w1] eqn:Hg; [|discriminate].
    unfold bind at 1.
    destruct (datetime_plus ref (days 2)) as [e|x] eqn:He; [|discriminate].
    apply datetime_plus_ok in He. subst e.
    unfold lift at 1, ret at 1. unfold bind at 1.
    destruct (window_start ref (months_back_invoices criteria)) as [s|x] eqn:Hs;
      [|discriminate].
    apply window_start_ok in Hs. subst s.
    unfold lift at 1, ret at 1.
    intros H. right. split; [discriminate|]. exists folder, w1. auto.
Qed.

(** C9: the batch appends at most one attachment per identifier: the
    list it returns is never longer than the list of identifiers. *)
Theorem found_count_le_extracted_count :
  forall env extracted reference_date criteria w found w',
    find_related_invoices env extracted reference_date criteria w
    = (Ok found, w') ->
    length found <= length extracted.
Proof.
  intros env ids ref criteria w found w' H.
  apply find_related_invoices_ok in H.
  destruct H as [(-> & -> & _)|(_ & folder & w1 & _ & Hloop)]; [simpl; lia|].
  apply find_related_loop_ok in Hloop. destruct Hloop as (-> & _ & _).
  simpl. etransitivity; [apply somes_length|].
  now rewrite results_from_length.
Qed.

Lemma found_count_le_extracted_count_witness :
  exists found w',
    find_related_invoices
      (quiet_env (account_with [folder_with ["fv-1.pdf"; "fv-2.pdf"]]))
      ["FV-1"; "FV-2"; "FV-3"] 0 default_criteria world0 = (Ok found, w')
    /\ length found <= 3.
Proof.
  eexists. eexists. split.
  - vm_compute. reflexivity.
  - eapply (found_count_le_extracted_count
              (quiet_env (account_with [folder_with ["fv-1.pdf"; "fv-2.pdf"]]))
              ["FV-1"; "FV-2"; "FV-3"] 0%Z default_criteria world0).
    vm_compute. reflexivity.
Defined.

Example batch_example :
  fst (find_related_invoices
         (quiet_env (account_with [folder_with ["fv-1.pdf"; "fv-2.pdf"]]))
         ["FV-1"; "FV-2"; "FV-3"] 0 default_criteria world0)
  = Ok [FileAttachment "fv-1.pdf" ""; FileAttachment "fv-2.pdf" ""].
Proof. vm_compute. reflexivity. Qed.

(** An exception of the folder resolution leaves the batch as it is. *)
Lemma find_related_invoices_folder_error env ids ref criteria w x w1 :
  ids <> [] ->
  stop_event env (polls w) = false ->
  get_folder_by_path env (folder_path (related_emails criteria)) (poll_n 1 w)
  = (Raise x, w1) ->
  find_related_invoices env ids ref criteria w = (Raise x, w1).
Proof.
  intros Hne Hstop Hg. unfold find_related_invoices.
  unfold bind at 1. rewrite check_cancelled_eq, Hstop.
  destruct ids as [|i rest]; [congruence|].
  now rewrite (bind_raise _ _ _ _ _ Hg).
Qed.

(** C1, at the failing input: the invoice folder "Skrzynka
    odbiorcza/Faktury" does not exist in the mailbox; the batch for the
    one identifier "INV-1001" does not return a result in which the
    identifier is missing, it raises [FolderNotFoundError]. *)
Theorem folder_failure_escapes_the_batch :
  fst (find_related_invoices (quiet_env (account_with []))
         ["INV-1001"] 0 default_criteria world0)
  = Raise FolderNotFoundError.
Proof. vm_compute. reflexivity. Qed.

(** ** Widening the window *)

Lemma insert_newest_app_left (m : Message) (A B : list Message) :
  (forall x, In x B -> (datetime_received x < datetime_received m)%Z) ->
  insert_newest m (A ++ B) = insert_newest m A ++ B.
Proof.
  intros HB. induction A as [|y A' IH]; simpl.
  - destruct B as [|x r]; simpl; [reflexivity|].
    assert (H : (datetime_received x <? datetime_received m)%Z = true)
      by (apply Z.ltb_lt, HB; left; reflexivity).
    now rewrite H.
  - destruct (datetime_received y <? datetime_received m)%Z; simpl;
      [reflexivity|]. now rewrite IH.
Qed.

Lemma insert_newest_app_right (m : Message) (A B : list Message) :
  (forall y, In y A -> (datetime_received m <= datetime_received y)%Z) ->
  insert_newest m (A ++ B) = A ++ insert_newest m B.
Proof.
  induction A as [|y A' IH]; intros HA; simpl; [reflexivity|].
  assert (H : (datetime_received y <? datetime_received m)%Z = false)
    by (apply Z.ltb_ge, HA; left; reflexivity).
  rewrite H, IH; [reflexivity|]. intros z Hz. apply HA. right. exact Hz.
Qed.

(** Messages received at or after [bound] are visited before all
    messages received before it. *)
Lemma order_by_newest_split (p q : Message -> bool) (bound : Z) items :
  (forall m, p m = true -> (bound <= datetime_received m)%Z) ->
  (forall m, q m = true -> (datetime_received m < bound)%Z) ->
  order_by_newest (filter (fun m => p m || q m) items) =
  order_by_newest (filter p items) ++ order_by_newest (filter q items).
Proof.
  intros Hp Hq. induction items as [|m r IH]; simpl; [reflexivity|].
  destruct (p m) eqn:Hpm, (q m) eqn:Hqm; simpl.
  - apply Hp in Hpm. apply Hq in Hqm. lia.
  - rewrite IH. apply insert_newest_app_left.
    intros x Hx. apply order_by_newest_in, filter_In in Hx.
    destruct Hx as [_ Hx]. apply Hq in Hx. apply Hp in Hpm. lia.
  - rewrite IH. apply insert_newest_app_right.
    intros y Hy. apply order_by_newest_in, filter_In in Hy.
    destruct Hy as [_ Hy]. apply Hp in Hy. apply Hq in Hqm. lia.
  - exact IH.
Qed.

(** The wider window lists the messages of the narrower one first, in
    the same order, and then the older ones. *)
Lemma invoice_emails_widen folder (s1 s2 e : Z) :
  (s2 <= s1)%Z ->
  exists older,
    invoice_emails folder s2 e = invoice_emails folder s1 e ++ older.
Proof.
  intros Hle. unfold invoice_emails.
  set (p := fun m => has_attachments m && in_window s1 e m).
  set (q := fun m => has_attachments m && in_window s2 e m
                     && negb (in_window s1 e m)).
  exists (order_by_newest (filter q (folder_items folder))).
  rewrite <- (order_by_newest_split p q s1).
  - f_equal. apply filter_ext. intros m. unfold p, q, in_window.
    destruct (has_attachments m); simpl; [|reflexivity].
    destruct (Z.leb_spec s1 (datetime_received m)),
             (Z.leb_spec s2 (datetime_received m)),
             (Z.ltb_spec (datetime_received m) e); simpl; try reflexivity; lia.
  - intros m. unfold p, in_window. rewrite !andb_true_iff, Z.leb_le. tauto.
  - intros m. unfold q, in_window.
    rewrite !andb_true_iff, negb_true_iff, andb_false_iff,
            Z.leb_le, Z.ltb_lt, Z.leb_gt, Z.ltb_ge. lia.
Qed.

Lemma find_app_some {A} (p : A -> bool) (l1 l2 : list A) (a : A) :
  find p l1 = Some a -> find p (l1 ++ l2) = Some a.
Proof.
  induction l1 as [|x r IH]; simpl; [discriminate|].
  destruct (p x); auto.
Qed.

(** A scan that has found its attachment does not look at what follows. *)
Lemma scan_emails_app_found env frag ext l1 l2 : forall w a w1,
  scan_emails env frag ext l1 w = (Ok (Some a), w1) ->
  scan_emails env frag ext (l1 ++ l2) w = (Ok (Some a), w1).
Proof.
  induction l1 as [|m rest IH]; intros w a w1 H; cbn [scan_emails] in H.
  - inversion H.
  - revert H. simpl app. cbn [scan_emails].
    unfold bind at 1 3. rewrite check_cancelled_eq.
    destruct (stop_event env (polls w)); [discriminate|].
    destruct (attachments m) as [|a0 atts0].
    + apply IH.
    + unfold bind.
      destruct (scan_attachments env frag ext (a0 :: atts0) (poll_n 1 w))
        as [[[x|]|x] w0]; auto.
Qed.

Section Widen.

Variable env : Env.
Variables (ref m1 m2 : Z) (ext : string).
Hypothesis Hle : (m1 <= m2)%Z.

Let end_datetime := (ref + days 2)%Z.
Let start1 := (ref - days (m1 * 31))%Z.
Let start2 := (ref - days (m2 * 31))%Z.

Lemma start_earlier : (start2 <= start1)%Z.
Proof. unfold start1, start2, days. lia. Qed.

Lemma find_single_widen folder i (w0 : World) a w1 :
  _find_single_invoice_attachment env folder i start1 end_datetime ext w0
  = (Ok (Some a), w1) ->
  _find_single_invoice_attachment env folder i start2 end_datetime ext w0
  = (Ok (Some a), w1).
Proof.
  unfold _find_single_invoice_attachment, catch. unfold bind at 1 2.
  rewrite store_request_eq.
  destruct (store_fails env (requests w0)); [simpl; discriminate|].
  destruct (invoice_emails_widen folder start1 start2 end_datetime start_earlier)
    as [older ->].
  destruct (scan_emails env (search_fragment i) ext
              (invoice_emails folder start1 end_datetime) (requested w0))
    as [[r|x] w'] eqn:Hs.
  - intros H; inversion H; subst.
    now rewrite (scan_emails_app_found _ _ _ _ _ _ _ _ Hs).
  - apply scan_emails_raises in Hs. destruct Hs as (-> & _). simpl.
    discriminate.
Qed.

Lemma results_from_widen folder req ids :
  Forall2 keeps_match
    (results_from env folder start1 end_datetime ext req ids)
    (results_from env folder start2 end_datetime ext req ids).
Proof.
  revert req. induction ids as [|i r IH]; intros req; simpl; constructor; auto.
  destruct (store_fails env req); [intros a; discriminate|].
  intros a Ha. unfold candidates.
  destruct (invoice_emails_widen folder start1 start2 end_datetime start_earlier)
    as [older ->].
  rewrite flat_map_app. now apply find_app_some.
Qed.

End Widen.

Lemma keeps_match_subseq (R1 R2 : list (option Attachment)) :
  Forall2 keeps_match R1 R2 -> Subseq (somes R1) (somes R2).
Proof.
  induction 1 as [|r1 r2 l1 l2 Hk _ IH]; simpl; [constructor|].
  destruct r1 as [a|].
  - rewrite (Hk a eq_refl). now constructor.
  - destruct r2; [constructor|]; exact IH.
Qed.

(** The batch with a window that can be computed is the loop over that
    window. *)
Lemma find_related_invoices_run env ids ref criteria w folder w1 s e :
  stop_event env (polls w) = false ->
  ids <> [] ->
  get_folder_by_path env (folder_path (related_emails criteria)) (poll_n 1 w)
  = (Ok folder, w1) ->
  datetime_plus ref (days 2) = Ok e ->
  window_start ref (months_back_invoices criteria) = Ok s ->
  find_related_invoices env ids ref criteria w
  = find_related_loop env folder s e
      (file_extension (related_emails criteria)) ids [] w1.
Proof.
  intros Hstop Hne Hg He Hs. unfold find_related_invoices.
  unfold bind at 1. rewrite check_cancelled_eq, Hstop.
  destruct ids as [|i rest]; [congruence|].
  rewrite (bind_ok _ _ _ _ _ Hg).
  unfold bind at 1. rewrite He. unfold lift at 1, ret at 1.
  unfold bind at 1. rewrite Hs. reflexivity.
Qed.

(** A batch that returns for identifiers has computed its window. *)
Lemma find_related_invoices_window env ids ref criteria w found w' :
  find_related_invoices env ids ref criteria w = (Ok found, w') ->
  ids <> [] ->
  stop_event env (polls w) = false
  /\ datetime_plus ref (days 2) = Ok (ref + days 2)%Z
  /\ window_start ref (months_back_invoices criteria)
     = Ok (ref - days (months_back_invoices criteria * 31))%Z.
Proof.
  unfold find_related_invoices. step_check env w; [discriminate|].
  destruct ids as [|i rest]; [congruence|].
  unfold bind at 1.
  destruct (get_folder_by_path env (folder_path (related_emails criteria))
              (poll_n 1 w)) as [[folder|x] w1]; [|discriminate].
  unfold bind at 1.
  destruct (datetime_plus ref (days 2)) as [e|x] eqn:He; [|discriminate].
  apply datetime_plus_ok in He. subst e.
  unfold lift at 1, ret at 1. unfold bind at 1.
  destruct (window_start ref (months_back_invoices criteria)) as [s|x] eqn:Hs;
    [|discriminate].
  apply window_start_ok in Hs. subst s. auto.
Qed.

(** C7 (as amended): with a larger [months_back_invoices] the window
    starts earlier (31 days per month) and ends at the same instant, two
    days after the reference date.  A search that found an attachment
    under the narrower window finds the same attachment under the wider
    one; two batches that return have, identifier by identifier, kept
    every match of the narrower one; and when the run is not stopped and
    the start of the wider window can be computed, the wider batch
    returns whenever the narrower one does, with every attachment of the
    narrower one. *)
Theorem widening_months_back_keeps_matches :
  forall env extracted ref criteria m1 m2 w,
    (m1 <= m2)%Z ->
    let narrow := with_months_back_invoices criteria m1 in
    let wide := with_months_back_invoices criteria m2 in
    let ext := file_extension (related_emails criteria) in
    let start1 := (ref - days (m1 * 31))%Z in
    let start2 := (ref - days (m2 * 31))%Z in
    let end_datetime := (ref + days 2)%Z in
    (start2 <= start1)%Z
    /\ (forall folder i w0 a w1,
           _find_single_invoice_attachment env folder i start1 end_datetime ext w0
           = (Ok (Some a), w1) ->
           _find_single_invoice_attachment env folder i start2 end_datetime ext w0
           = (Ok (Some a), w1))
    /\ (forall f1 w1 f2 w2,
           find_related_invoices env extracted ref narrow w = (Ok f1, w1) ->
           find_related_invoices env extracted ref wide w = (Ok f2, w2) ->
           exists folder R1 R2,
             Forall2 (searched env folder start1 end_datetime ext) extracted R1 /\
             Forall2 (searched env folder start2 end_datetime ext) extracted R2 /\
             f1 = somes R1 /\ f2 = somes R2 /\
             Forall2 keeps_match R1 R2 /\
             Subseq f1 f2)
    /\ (never_stops env ->
        window_start ref m2 = Ok start2 ->
        forall f1 w1,
          find_related_invoices env extracted ref narrow w = (Ok f1, w1) ->
          exists f2 w2,
            find_related_invoices env extracted ref wide w = (Ok f2, w2)
            /\ Subseq f1 f2).
Proof.
  intros env ids ref criteria m1 m2 w Hle narrow wide ext start1 start2 end_datetime.
  assert (Hboth : forall f1 w1 f2 w2,
             find_related_invoices env ids ref narrow w = (Ok f1, w1) ->
             find_related_invoices env ids ref wide w = (Ok f2, w2) ->
             exists folder R1 R2,
               Forall2 (searched env folder start1 end_datetime ext) ids R1 /\
               Forall2 (searched env folder start2 end_datetime ext) ids R2 /\
               f1 = somes R1 /\ f2 = somes R2 /\
               Forall2 keeps_match R1 R2 /\
               Subseq f1 f2).
  { intros f1 w1 f2 w2 H1 H2.
    apply find_related_invoices_ok in H1, H2.
    destruct H1 as [(-> & -> & _)|(Hne & folder & wf & Hg1 & Hl1)].
    + destruct H2 as [(_ & -> & _)|(Hne & _)]; [|congruence].
      exists (mkFolder "" [] []), [], [].
      repeat split; constructor.
    + destruct H2 as [(-> & _)|(_ & folder' & wf' & Hg2 & Hl2)]; [congruence|].
      simpl in Hg1, Hg2. rewrite Hg1 in Hg2. inversion Hg2; subst folder' wf'.
      simpl in Hl1, Hl2.
      apply find_related_loop_ok in Hl1, Hl2.
      destruct Hl1 as (-> & Hs1 & _), Hl2 as (-> & Hs2 & _).
      exists folder, (results_from env folder start1 end_datetime ext (requests wf) ids),
        (results_from env folder start2 end_datetime ext (requests wf) ids).
      pose proof (results_from_widen env ref m1 m2 ext Hle folder (requests wf) ids)
        as Hk.
      repeat split; auto.
      simpl. apply keeps_match_subseq, Hk. }
  split; [apply start_earlier; exact Hle|].
  split; [intros folder i w0 a w1; apply find_single_widen; exact Hle|].
  split; [exact Hboth|].
  intros Hquiet Hwin f1 w1 H1.
  assert (Hwide : exists f2 w2,
             find_related_invoices env ids ref wide w = (Ok f2, w2)).
  { destruct ids as [|i rest].
    - unfold find_related_invoices. rewrite bind_check_quiet by assumption.
      unfold ret. eauto.
    - pose proof (find_related_invoices_window _ _ _ _ _ _ _ H1
                    ltac:(discriminate)) as (_ & He & _).
      apply find_related_invoices_ok in H1.
      destruct H1 as [(Hnil & _)|(_ & folder & wf & Hg1 & _)]; [discriminate|].
      rewrite (find_related_invoices_run env (i :: rest) ref wide w folder wf
                 start2 end_datetime (Hquiet _) ltac:(discriminate) Hg1 He Hwin).
      apply find_related_loop_quiet. exact Hquiet. }
  destruct Hwide as (f2 & w2 & H2). exists f2, w2. split; [exact H2|].
  destruct (Hboth f1 w1 f2 w2 H1 H2) as (_ & _ & _ & _ & _ & _ & _ & _ & Hsub).
  exact Hsub.
Qed.

Lemma widening_months_back_keeps_matches_witness :
  (1 <= 4)%Z
  /\ never_stops (quiet_env (account_with [folder_with ["fv-1.pdf"]]))
  /\ window_start 0 4 = Ok (0 - days (4 * 31))%Z
  /\ find_related_invoices
       (quiet_env (account_with [folder_with ["fv-1.pdf"]])) ["FV-1"] 0
       (with_months_back_invoices default_criteria 1) world0
     = (Ok [FileAttachment "fv-1.pdf" EmptyString],
        snd (find_related_invoices
               (quiet_env (account_with [folder_with ["fv-1.pdf"]])) ["FV-1"] 0
               (with_months_back_invoices default_criteria 1) world0))
  /\ exists f2 w2,
       find_related_invoices
         (quiet_env (account_with [folder_with ["fv-1.pdf"]])) ["FV-1"] 0
         (with_months_back_invoices default_criteria 4) world0 = (Ok f2, w2)
       /\ Subseq [FileAttachment "fv-1.pdf" EmptyString] f2.
Proof.
  assert (Hle : (1 <= 4)%Z) by lia.
  assert (Hq : never_stops (quiet_env (account_with [folder_with ["fv-1.pdf"]])))
    by (intros n; reflexivity).
  assert (Hw : window_start 0 4 = Ok (0 - days (4 * 31))%Z) by reflexivity.
  assert (H1 : find_related_invoices
                 (quiet_env (account_with [folder_with ["fv-1.pdf"]])) ["FV-1"] 0
                 (with_months_back_invoices default_criteria 1) world0
               = (Ok [FileAttachment "fv-1.pdf" EmptyString],
                  snd (find_related_invoices
                         (quiet_env (account_with [folder_with ["fv-1.pdf"]]))
                         ["FV-1"] 0
                         (with_months_back_invoices default_criteria 1) world0)))
    by reflexivity.
  split; [exact Hle|]. split; [exact Hq|]. split; [exact Hw|].
  split; [exact H1|].
  exact (proj2 (proj2 (proj2 (widening_months_back_keeps_matches
                                (quiet_env (account_with [folder_with ["fv-1.pdf"]]))
                                ["FV-1"] 0%Z default_criteria 1%Z 4%Z world0 Hle)))
               Hq Hw _ _ H1).
Defined.

(** C7, as the claim words it: the batch for "FV-1" finds the invoice
    under a window of 4 months; under a window of 40000000 months, whose
    1240000000 days are more than a [timedelta] holds, the same batch
    raises [OverflowError] after the folder is resolved: the match of the
    narrower window is not kept. *)
Theorem widening_months_back_overflows :
  (4 <= 40000000)%Z
  /\ find_related_invoices
       (quiet_env (account_with [folder_with ["fv-1.pdf"]])) ["FV-1"] 0
       (with_months_back_invoices default_criteria 4) world0
     = (Ok [FileAttachment "fv-1.pdf" EmptyString],
        {| polls := 4; requests := 2; trace := [] |})
  /\ find_related_invoices
       (quiet_env (account_with [folder_with ["fv-1.pdf"]])) ["FV-1"] 0
       (with_months_back_invoices default_criteria 40000000) world0
     = (Raise OverflowError, {| polls := 1; requests := 1; trace := [] |}).
Proof.
  split; [lia|]. split; reflexivity.
Qed.

(** ** The missing identifiers *)

Section Missing.

Variable env : Env.
Hypothesis Hstore : never_fails env.
Variable folder : Folder.
Variables (s e : Z) (ext : string).

Let first_match (i : string) : option Attachment :=
  find (attachment_matches (search_fragment i) ext) (candidates folder s e).

Lemma results_from_map req ids :
  results_from env folder s e ext req ids = map first_match ids.
Proof.
  revert req. induction ids as [|i r IH]; intros req; simpl; [reflexivity|].
  now rewrite Hstore, IH.
Qed.

Lemma in_combine_map {A B} (f : A -> B) (l : list A) (a : A) (b : B) :
  In (a, b) (combine l (map f l)) <-> In a l /\ b = f a.
Proof.
  induction l as [|x r IH]; simpl; [tauto|].
  rewrite IH. split.
  - intros [H|H]; [inversion H; subst; auto|tauto].
  - intros [[->|H] ->]; auto.
Qed.

(** An identifier's fragment occurs in the name of a found attachment
    exactly when its own search finds an attachment. *)
Lemma fragment_in_found_names ids i :
  In i ids ->
  existsb (Py.contains (search_fragment i))
          (map (fun att => Py.lower (att_name att))
               (somes (map first_match ids))) = true
  <-> first_match i <> None.
Proof.
  intros Hi. rewrite existsb_exists. split.
  - intros (n & Hn & Hc) Hnone.
    apply in_map_iff in Hn. destruct Hn as (f & <- & Hf).
    apply somes_in, in_map_iff in Hf. destruct Hf as (j & Hj & _).
    apply find_some in Hj. destruct Hj as [Hin Hm].
    apply attachment_matches_iff in Hm. destruct Hm as (Hfile & Hend & _).
    pose proof (find_none _ _ Hnone f Hin) as Hno.
    assert (Hyes : attachment_matches (search_fragment i) ext f = true)
      by (apply attachment_matches_iff; auto).
    congruence.
  - intros Hsome. destruct (first_match i) as [a|] eqn:Ha; [|congruence].
    exists (Py.lower (att_name a)). split.
    + apply (in_map (fun att => Py.lower (att_name att))).
      apply somes_in. rewrite <- Ha. now apply in_map.
    + apply find_some in Ha. destruct Ha as [_ Hm].
      apply attachment_matches_iff in Hm. tauto.
Qed.

Lemma missing_iff_unmatched ids i :
  In i (_find_missing_invoices ids (somes (map first_match ids))) <->
  In (i, None) (combine ids (map first_match ids)).
Proof.
  unfold _find_missing_invoices. rewrite filter_In, in_combine_map.
  split.
  - intros [Hi Hn]. split; [exact Hi|].
    apply negb_true_iff in Hn.
    destruct (first_match i) eqn:Hf; [|reflexivity].
    assert (Hs : first_match i <> None) by congruence.
    apply (fragment_in_found_names ids i Hi) in Hs. congruence.
  - intros [Hi Hn]. split; [exact Hi|].
    apply negb_true_iff. apply not_true_is_false. intros Hc.
    apply (fragment_in_found_names ids i Hi) in Hc. congruence.
Qed.

End Missing.

(** C2 (as amended): when the store answers every request, the batch
    that returns has one search result per extracted identifier, the
    found attachments are the results that are attachments, and an
    identifier is reported missing exactly when it is an extracted
    identifier whose search returned nothing. *)
Theorem missing_is_extracted_minus_matched :
  forall env extracted ref criteria w found w',
    never_fails env ->
    find_related_invoices env extracted ref criteria w = (Ok found, w') ->
    exists results,
      found = somes results
      /\ ((extracted = [] /\ results = []) \/
          exists folder w0 w1,
            get_folder_by_path env (folder_path (related_emails criteria)) w0
            = (Ok folder, w1) /\
            Forall2 (searched env folder
                       (ref - days (months_back_invoices criteria * 31))%Z
                       (ref + days 2)%Z
                       (file_extension (related_emails criteria)))
                    extracted results)
      /\ forall i,
          In i (_find_missing_invoices extracted found) <->
          In (i, None) (combine extracted results).
Proof.
  intros env ids ref criteria w found w' Hstore H.
  apply find_related_invoices_ok in H.
  destruct H as [(-> & -> & _)|(Hne & folder & w1 & Hg & Hloop)].
  - exists []. split; [reflexivity|]. split; [left; auto|].
    intros i. simpl. tauto.
  - apply find_related_loop_ok in Hloop. destruct Hloop as (-> & Hall & _).
    eexists. split; [reflexivity|]. split.
    + right. exists folder, (poll_n 1 w), w1. split; [exact Hg|exact Hall].
    + intros i. cbn [app]. rewrite !(results_from_map env Hstore).
      apply missing_iff_unmatched.
Qed.

Lemma missing_is_extracted_minus_matched_witness :
  never_fails (quiet_env (account_with [folder_with ["fv-1.pdf"; "fv-2.pdf"]]))
  /\ exists results,
      [FileAttachment "fv-1.pdf" ""; FileAttachment "fv-2.pdf" ""]
      = somes results
      /\ forall i,
          In i (_find_missing_invoices ["FV-1"; "FV-2"; "FV-3"]
                  [FileAttachment "fv-1.pdf" ""; FileAttachment "fv-2.pdf" ""])
          <-> In (i, None) (combine ["FV-1"; "FV-2"; "FV-3"] results).
Proof.
  split.
  - intros n. reflexivity.
  - destruct (missing_is_extracted_minus_matched
                (quiet_env (account_with [folder_with ["fv-1.pdf"; "fv-2.pdf"]]))
                ["FV-1"; "FV-2"; "FV-3"] 0%Z default_criteria world0
                [FileAttachment "fv-1.pdf" ""; FileAttachment "fv-2.pdf" ""]
                (snd (find_related_invoices
                        (quiet_env (account_with
                                      [folder_with ["fv-1.pdf"; "fv-2.pdf"]]))
                        ["FV-1"; "FV-2"; "FV-3"] 0%Z default_criteria world0)))
      as (results & Hf & _ & Hm).
    + intros n. reflexivity.
    + vm_compute. reflexivity.
    + exists results. split; [exact Hf|exact Hm].
Defined.

(** C2, as the claim words it: the store fails on the search of "INV-1"
    (the request number 1, after the one that resolved the folder), so
    the batch matches "INV-10" alone; "INV-1" was not matched to an
    attachment and is not reported missing, because its fragment occurs
    in the name found for "INV-10". *)
Lemma unmatched_identifier_not_reported_missing :
  let env := failing_at 1 (account_with [folder_with ["inv-10.pdf"]]) in
  let found := [FileAttachment "inv-10.pdf" ""] in
  fst (find_related_invoices env ["INV-1"; "INV-10"] 0 default_criteria world0)
  = Ok found
  /\ fst (_find_single_invoice_attachment env (folder_with ["inv-10.pdf"])
            "INV-1" (0 - days (4 * 31)) (0 + days 2) "pdf"
            {| polls := 2; requests := 1; trace := [] |})
     = Ok None
  /\ In "INV-1" ["INV-1"; "INV-10"]
  /\ ~ In "INV-1" (_find_missing_invoices ["INV-1"; "INV-10"] found).
Proof.
  repeat split.
  - left. reflexivity.
  - vm_compute. tauto.
Qed.

(** ** Extraction *)

Example clean_trailing_index :
  _clean_invoice_number " F/M 123/45  12 " = "F/M 123/45".
Proof. reflexivity. Qed.

Example clean_keeps_three_digits :
  _clean_invoice_number "QN 1 123" = "QN 1 123".
Proof. reflexivity. Qed.

Example clean_one_suffix_only :
  _clean_invoice_number "QN 1 2" = "QN 1".
Proof. reflexivity. Qed.

Example extract_words :
  fst (extract_invoice_numbers (reading_env (fun l => l))
         "Invoice INV-1001  INV-1002 INV-1001" "\S+" world0)
  = Ok ["Invoice"; "INV-1001"; "INV-1002"].
Proof. vm_compute. reflexivity. Qed.

Lemma in_list_In (x : string) (l : list string) :
  in_list x l = true <-> In x l.
Proof.
  unfold in_list. rewrite existsb_exists. split.
  - intros (y & Hy & He). apply String.eqb_eq in He. now subst.
  - intros H. exists x. split; [exact H|apply String.eqb_refl].
Qed.

Lemma set_add_in (x : string) (s : list string) (y : string) :
  In y (set_add x s) <-> y = x \/ In y s.
Proof.
  unfold set_add. destruct (in_list x s) eqn:Hx.
  - apply in_list_In in Hx. intuition congruence.
  - rewrite in_app_iff. simpl. intuition congruence.
Qed.

Lemma set_add_nodup (x : string) (s : list string) :
  NoDup s -> NoDup (set_add x s).
Proof.
  intros Hs. unfold set_add. destruct (in_list x s) eqn:Hx; [exact Hs|].
  assert (Hn : ~ In x s).
  { intros H. apply in_list_In in H. congruence. }
  apply (Permutation_NoDup (Permutation_cons_append s x)).
  now constructor.
Qed.

Lemma fold_set_add_in (l s : list string) (y : string) :
  In y (fold_left (fun s x => set_add x s) l s) <-> In y l \/ In y s.
Proof.
  revert s. induction l as [|x r IH]; intros s; simpl; [tauto|].
  rewrite IH, set_add_in. intuition congruence.
Qed.

Lemma fold_set_add_nodup (l s : list string) :
  NoDup s -> NoDup (fold_left (fun s x => set_add x s) l s).
Proof.
  revert s. induction l as [|x r IH]; intros s Hs; simpl; [exact Hs|].
  apply IH, set_add_nodup, Hs.
Qed.

Lemma fold_add_cleaned_in (matches s : list string) (y : string) :
  In y (fold_left add_cleaned matches s) <->
  In y (filter Py.truthy (map _clean_invoice_number matches)) \/ In y s.
Proof.
  revert s. induction matches as [|raw r IH]; intros s; simpl; [tauto|].
  rewrite IH. unfold add_cleaned.
  destruct (Py.truthy (_clean_invoice_number raw)); simpl.
  - rewrite set_add_in. intuition congruence.
  - tauto.
Qed.

Lemma fold_add_cleaned_nodup (matches s : list string) :
  NoDup s -> NoDup (fold_left add_cleaned matches s).
Proof.
  revert s. induction matches as [|raw r IH]; intros s Hs; simpl; [exact Hs|].
  apply IH. unfold add_cleaned.
  destruct (Py.truthy (_clean_invoice_number raw)); [|exact Hs].
  apply set_add_nodup, Hs.
Qed.

Lemma keep_first_in (seen l : list string) (y : string) :
  In y (keep_first seen l) <-> In y l /\ ~ In y seen.
Proof.
  revert seen. induction l as [|x r IH]; intros seen; simpl; [tauto|].
  destruct (in_list x seen) eqn:Hx.
  - apply in_list_In in Hx. rewrite IH. intuition congruence.
  - assert (Hn : ~ In x seen) by (intros H; apply in_list_In in H; congruence).
    simpl. rewrite IH. simpl.
    destruct (string_dec x y) as [->|Hne]; intuition congruence.
Qed.

Lemma keep_first_nodup (seen l : list string) : NoDup (keep_first seen l).
Proof.
  revert seen. induction l as [|x r IH]; intros seen; simpl; [constructor|].
  destruct (in_list x seen); [apply IH|].
  constructor; [|apply IH].
  rewrite keep_first_in. simpl. tauto.
Qed.

Section ExtractProps.

Variable env : Env.
Variable regex_pattern : string.

Lemma extract_pages_ok pages : forall acc w l w',
  extract_pages env regex_pattern pages acc w = (Ok l, w') ->
  l = fold_left (pages_step env regex_pattern) pages acc.
Proof.
  induction pages as [|page rest IH]; intros acc w l w' H;
    cbn [extract_pages] in H.
  - inversion H; subst. reflexivity.
  - revert H. step_check env w; [discriminate|].
    intros H. apply IH in H. exact H.
Qed.

Lemma extract_pages_raises pages : forall acc w x w',
  extract_pages env regex_pattern pages acc w = (Raise x, w') ->
  x = OperationCancelledError.
Proof.
  induction pages as [|page rest IH]; intros acc w x w' H;
    cbn [extract_pages] in H.
  - inversion H.
  - revert H. step_check env w.
    + intros H; inversion H; subst. reflexivity.
    + intros H. apply IH in H. exact H.
Qed.

Lemma extract_pages_quiet (Hquiet : never_stops env) pages : forall acc w,
  exists w',
    extract_pages env regex_pattern pages acc w =
    (Ok (fold_left (pages_step env regex_pattern) pages acc), w').
Proof.
  induction pages as [|page rest IH]; intros acc w; cbn [extract_pages].
  - unfold ret. eauto.
  - rewrite bind_check_quiet by assumption. apply IH.
Qed.

(** An extraction that returns has read the document and returns the
    set left by the loop, as the set is iterated. *)
Lemma extract_invoice_numbers_ok pdf_content w l w' :
  extract_invoice_numbers env pdf_content regex_pattern w = (Ok l, w') ->
  exists pages,
    pdf_reader env pdf_content = Some pages /\
    l = set_order env (fold_left (pages_step env regex_pattern) pages []).
Proof.
  unfold extract_invoice_numbers. step_check env w; [discriminate|].
  destruct (Py.truthy regex_pattern); simpl; [|discriminate].
  unfold catch.
  destruct (pdf_reader env pdf_content) as [pages|]; [|simpl; discriminate].
  unfold bind at 1.
  destruct (extract_pages env regex_pattern pages [] (poll_n 1 w))
    as [[s|x] w1] eqn:Hp.
  - intros H; inversion H; subst. exists pages. split; [reflexivity|].
    f_equal. eapply extract_pages_ok, Hp.
  - apply extract_pages_raises in Hp. subst x. simpl. discriminate.
Qed.

Hypothesis Hperm : set_order_permutes env.

Lemma set_update_in (s numbers : list string) (y : string) :
  In y (set_update env s numbers) <-> In y numbers \/ In y s.
Proof.
  unfold set_update. rewrite fold_set_add_in.
  split; (intros [H|H]; [left|right; exact H]).
  - eapply Permutation_in; [apply Hperm|exact H].
  - eapply Permutation_in; [apply Permutation_sym, Hperm|exact H].
Qed.

Lemma find_in_text_in (text : string) (y : string) :
  In y (_find_invoice_numbers_in_text env text regex_pattern) <->
  In y (match re_compile env regex_pattern with
        | None => []
        | Some findall =>
            match findall text with
            | Strings matches =>
                filter Py.truthy (map _clean_invoice_number matches)
            | Tuples _ => []
            end
        end).
Proof.
  unfold _find_invoice_numbers_in_text.
  destruct (re_compile env regex_pattern) as [findall|]; [|tauto].
  destruct (findall text); [|tauto].
  rewrite fold_add_cleaned_in. simpl. tauto.
Qed.

Lemma pages_step_in (s : list string) (page : option string) (y : string) :
  In y (pages_step env regex_pattern s page) <->
  In y (page_candidates env regex_pattern page) \/ In y s.
Proof.
  unfold pages_step, page_candidates.
  destruct (Py.truthy (_extract_text_from_page page)).
  - rewrite set_update_in, find_in_text_in. tauto.
  - simpl. tauto.
Qed.

Lemma pages_step_nodup (s : list string) (page : option string) :
  NoDup s -> NoDup (pages_step env regex_pattern s page).
Proof.
  intros Hs. unfold pages_step.
  destruct (Py.truthy (_extract_text_from_page page)); [|exact Hs].
  apply fold_set_add_nodup, Hs.
Qed.

Lemma pages_fold_in pages : forall s y,
  In y (fold_left (pages_step env regex_pattern) pages s) <->
  In y (flat_map (page_candidates env regex_pattern) pages) \/ In y s.
Proof.
  induction pages as [|page rest IH]; intros s y; simpl; [tauto|].
  rewrite IH, pages_step_in, in_app_iff. tauto.
Qed.

Lemma pages_fold_nodup pages : forall s,
  NoDup s -> NoDup (fold_left (pages_step env regex_pattern) pages s).
Proof.
  induction pages as [|page rest IH]; intros s Hs; simpl; [exact Hs|].
  apply IH, pages_step_nodup, Hs.
Qed.

End ExtractProps.

Lemma insert_desc_perm (x : string) (l : list string) :
  Permutation (insert_desc x l) (x :: l).
Proof.
  induction l as [|y r IH]; simpl; [reflexivity|].
  destruct (String.ltb y x); [reflexivity|].
  rewrite IH. apply perm_swap.
Qed.

Lemma descending_perm (l : list string) : Permutation (descending l) l.
Proof.
  induction l as [|x r IH]; simpl; [reflexivity|].
  rewrite insert_desc_perm. now constructor.
Qed.

(** C6 (as amended): an extraction that returns has returned each
    distinct identifier exactly once, the same identifiers as the
    first-seen list of the document holds, in the order in which the set
    is iterated; and every other run on the same inputs returns the same
    list. *)
Theorem extraction_is_a_reproducible_set :
  forall env pdf_content regex_pattern w l w',
    set_order_permutes env ->
    extract_invoice_numbers env pdf_content regex_pattern w = (Ok l, w') ->
    exists pages,
      pdf_reader env pdf_content = Some pages
      /\ NoDup l
      /\ Permutation l (first_seen env regex_pattern pages)
      /\ forall w2 l2 w2',
          extract_invoice_numbers env pdf_content regex_pattern w2 = (Ok l2, w2') ->
          l2 = l.
Proof.
  intros env pdf_content regex_pattern w l w' Hperm H.
  apply extract_invoice_numbers_ok in H. destruct H as (pages & Hread & ->).
  exists pages. split; [exact Hread|].
  set (S := fold_left (pages_step env regex_pattern) pages []).
  assert (HS : NoDup S) by (apply pages_fold_nodup; constructor).
  assert (Hl : NoDup (set_order env S)).
  { eapply Permutation_NoDup; [apply Permutation_sym, Hperm|exact HS]. }
  split; [exact Hl|]. split.
  - apply NoDup_Permutation; [exact Hl|apply keep_first_nodup|].
    intros y. unfold first_seen. rewrite keep_first_in. split.
    + intros Hy. apply (Permutation_in _ (Hperm S)) in Hy.
      apply (pages_fold_in env regex_pattern Hperm) in Hy.
      simpl in Hy. tauto.
    + intros [Hy _]. apply (Permutation_in _ (Permutation_sym (Hperm S))).
      apply (pages_fold_in env regex_pattern Hperm). tauto.
  - intros w2 l2 w2' H2. apply extract_invoice_numbers_ok in H2.
    destruct H2 as (pages2 & Hread2 & ->).
    rewrite Hread in Hread2. inversion Hread2; subst. reflexivity.
Qed.

Lemma extraction_is_a_reproducible_set_witness :
  set_order_permutes (reading_env descending)
  /\ exists pages,
      pdf_reader (reading_env descending) "INV-1001 INV-1002 INV-1001"
      = Some pages
      /\ NoDup ["INV-1002"; "INV-1001"]
      /\ Permutation ["INV-1002"; "INV-1001"]
                     (first_seen (reading_env descending) "\S+" pages).
Proof.
  split; [intros l; apply descending_perm|].
  destruct (extraction_is_a_reproducible_set (reading_env descending)
              "INV-1001 INV-1002 INV-1001" "\S+" world0
              ["INV-1002"; "INV-1001"]
              (snd (extract_invoice_numbers (reading_env descending)
                      "INV-1001 INV-1002 INV-1001" "\S+" world0)))
    as (pages & Hr & Hn & Hp & _).
  - intros l. apply descending_perm.
  - vm_compute. reflexivity.
  - exists pages. auto.
Defined.

(** C6, as the claim words it: a set that is iterated in another order
    than the order of insertion (here: decreasing) gives the identifiers
    in that order, not in the order they are first seen. *)
Lemma extraction_order_is_not_first_seen :
  let env := reading_env descending in
  set_order_permutes env
  /\ first_seen env "\S+" [Some "INV-1001 INV-1002 INV-1001"]
     = ["INV-1001"; "INV-1002"]
  /\ fst (extract_invoice_numbers env "INV-1001 INV-1002 INV-1001" "\S+" world0)
     = Ok ["INV-1002"; "INV-1001"].
Proof.
  split; [intros l; apply descending_perm|].
  split; vm_compute; reflexivity.
Qed.

Lemma set_order_nil env : set_order_permutes env -> set_order env [] = [].
Proof.
  intros Hperm. apply Permutation_nil, Permutation_sym, Hperm.
Qed.

Lemma pages_fold_no_matcher env regex_pattern pages :
  set_order_permutes env ->
  re_compile env regex_pattern = None ->
  fold_left (pages_step env regex_pattern) pages [] = [].
Proof.
  intros Hperm Hre. induction pages as [|page rest IH]; simpl; [reflexivity|].
  assert (Hstep : pages_step env regex_pattern [] page = []).
  { unfold pages_step, _find_invoice_numbers_in_text, set_update.
    rewrite Hre, (set_order_nil env Hperm).
    destruct (Py.truthy (_extract_text_from_page page)); reflexivity. }
  rewrite Hstep. exact IH.
Qed.

(** C4 (as amended): in a run that is not stopped, extraction with the
    empty pattern raises [PDFProcessingError] for every document and
    returns nothing; with a non-empty pattern that does not compile, and
    a document that the reader can read, it raises nothing and returns
    the empty list. *)
Theorem empty_pattern_raises_malformed_pattern_yields_nothing :
  forall env pdf_content w,
    never_stops env ->
    set_order_permutes env ->
    extract_invoice_numbers env pdf_content "" w
    = (Raise PDFProcessingError, poll_n 1 w)
    /\ forall regex_pattern pages,
        regex_pattern <> "" ->
        re_compile env regex_pattern = None ->
        pdf_reader env pdf_content = Some pages ->
        exists w',
          extract_invoice_numbers env pdf_content regex_pattern w = (Ok [], w').
Proof.
  intros env pdf_content w Hquiet Hperm. split.
  - unfold extract_invoice_numbers.
    rewrite bind_check_quiet by assumption. reflexivity.
  - intros regex_pattern pages Hne Hre Hread.
    unfold extract_invoice_numbers.
    rewrite bind_check_quiet by assumption.
    destruct regex_pattern as [|c p]; [congruence|]. cbn [Py.truthy negb].
    unfold catch. rewrite Hread.
    destruct (extract_pages_quiet env (String c p) Hquiet pages [] (poll_n 1 w))
      as [w1 Hp].
    rewrite (bind_ok _ _ _ _ _ Hp).
    rewrite (pages_fold_no_matcher env (String c p) pages Hperm Hre).
    rewrite (set_order_nil env Hperm). unfold ret. eauto.
Qed.

Lemma empty_pattern_raises_malformed_pattern_yields_nothing_witness :
  never_stops (reading_env (fun l => l))
  /\ set_order_permutes (reading_env (fun l => l))
  /\ "(" <> ""
  /\ fst (extract_invoice_numbers (reading_env (fun l => l))
            "INV-1001 INV-1002" "" world0) = Raise PDFProcessingError
  /\ exists w',
      extract_invoice_numbers (reading_env (fun l => l))
        "INV-1001 INV-1002" "(" world0 = (Ok [], w').
Proof.
  assert (Hq : never_stops (reading_env (fun l => l)))
    by (intros n; reflexivity).
  assert (Hp : set_order_permutes (reading_env (fun l => l)))
    by (intros l; apply Permutation_refl).
  assert (Hne : "(" <> "") by discriminate.
  destruct (empty_pattern_raises_malformed_pattern_yields_nothing
              (reading_env (fun l => l)) "INV-1001 INV-1002" world0 Hq Hp)
    as [Hempty Hbad].
  split; [exact Hq|]. split; [exact Hp|]. split; [exact Hne|]. split.
  - rewrite Hempty. reflexivity.
  - apply (Hbad "(" [Some "INV-1001 INV-1002"] Hne); reflexivity.
Defined.

(** C4, as the claim words it: the pattern "(" is not empty and does not
    compile, the document is one that the PDF reader cannot read; the
    extraction does not return the empty list, it raises
    [PDFProcessingError], the error of the empty pattern. *)
Lemma malformed_pattern_on_unreadable_document_raises :
  let env := reading_env (fun l => l) in
  "(" <> ""
  /\ re_compile env "(" = None
  /\ pdf_reader env "" = None
  /\ fst (extract_invoice_numbers env "" "(" world0) = Raise PDFProcessingError
  /\ fst (extract_invoice_numbers env "" "(" world0) <> Ok [].
Proof.
  repeat split; try discriminate.
Qed.

(** ** Templates *)

Example format_map_plain :
  format_map (quiet_env no_account) "Kompensata {temat} ({a}/{b}) {{x}}"
             [("temat", VStr "Q1"); ("a", VInt 2); ("b", VInt 3)]
  = Ok "Kompensata Q1 (2/3) {x}".
Proof. reflexivity. Qed.

Example format_map_item :
  format_map (quiet_env no_account) "{l[1]} {s!r}"
             [("l", VList ["a"; "b'c"]); ("s", VStr "x")]
  = Ok ("b'c " ++ String quote1 ("x" ++ str1 quote1))%string.
Proof. vm_compute. reflexivity. Qed.

Example str_of_list :
  py_str (VList ["a"; "b'c"])
  = ("[" ++ String quote1 ("a" ++ String quote1 (", " ++
     String quote2 ("b'c" ++ String quote2 "]"))))%string.
Proof. vm_compute. reflexivity. Qed.

Example format_map_positional :
  format_map (quiet_env no_account) "{} {0}" [] = Raise ValueError.
Proof. reflexivity. Qed.

Example format_map_single_brace :
  format_map (quiet_env no_account) "a } b" [] = Raise ValueError.
Proof. reflexivity. Qed.

Lemma string_app_assoc (a b c : string) :
  ((a ++ b) ++ c)%string = (a ++ (b ++ c))%string.
Proof. induction a as [|x a IH]; simpl; [reflexivity|]. now rewrite IH. Qed.

Lemma string_app_nil (a : string) : (a ++ "")%string = a.
Proof. induction a as [|x a IH]; simpl; [reflexivity|]. now rewrite IH. Qed.

Lemma scan_literal (text rest : string) :
  scan SText (escape_braces text ++ rest) = mchars text (scan SText rest).
Proof.
  unfold escape_braces.
  induction text as [|c t IH]; simpl; [reflexivity|].
  destruct (Ascii.eqb c "{") eqn:Ho.
  - apply Ascii.eqb_eq in Ho. subst c. simpl. now rewrite IH.
  - destruct (Ascii.eqb c "}") eqn:Hc.
    + apply Ascii.eqb_eq in Hc. subst c. simpl. now rewrite IH.
    + simpl. rewrite Ho, Hc. now rewrite IH.
Qed.

Lemma plain_char_inv (c : ascii) :
  plain_char c = true ->
  Ascii.eqb c "{" = false /\ Ascii.eqb c "}" = false /\
  Ascii.eqb c "[" = false /\ Ascii.eqb c "." = false /\
  Ascii.eqb c "!" = false /\ Ascii.eqb c ":" = false.
Proof.
  unfold plain_char. rewrite negb_true_iff, !orb_false_iff. tauto.
Qed.

Lemma scan_name (n : string) : forall acc rest,
  all_plain n = true ->
  scan (SName acc false) (n ++ String "}" rest) =
  MField (acc ++ n) None "" (scan SText rest).
Proof.
  induction n as [|c n' IH]; intros acc rest Hp; simpl.
  - now rewrite string_app_nil.
  - simpl in Hp. apply andb_true_iff in Hp. destruct Hp as [Hc Hn].
    apply plain_char_inv in Hc.
    destruct Hc as (H1 & H2 & H3 & H4 & H5 & H6).
    unfold name_char. rewrite H1, H2, H3, H5, H6.
    rewrite IH by assumption. unfold snoc, str1.
    now rewrite string_app_assoc.
Qed.

Lemma scan_hole (n rest : string) :
  plain_name n = true ->
  scan SText (write_segment (Hole n) ++ rest) =
  MField n None "" (scan SText rest).
Proof.
  unfold plain_name. rewrite !andb_true_iff. intros [[Ht Hp] _].
  simpl. rewrite string_app_assoc. simpl.
  destruct n as [|c n']; [discriminate|].
  pose proof (scan_name (String c n') "" rest Hp) as Hs.
  simpl in Hp. apply andb_true_iff in Hp. destruct Hp as [Hc _].
  apply plain_char_inv in Hc. destruct Hc as (H1 & _).
  simpl in Hs |- *. rewrite H1 in Hs |- *. exact Hs.
Qed.

Lemma split_first_plain (n : string) :
  all_plain n = true -> split_first n = (n, EmptyString).
Proof.
  induction n as [|c n' IH]; simpl; [reflexivity|].
  rewrite andb_true_iff. intros [Hc Hn].
  apply plain_char_inv in Hc. destruct Hc as (_ & _ & H3 & H4 & _).
  rewrite H3, H4. simpl. now rewrite IH.
Qed.

Section FormatProps.

Variable env : Env.
Variable expand : string -> Res string.
Variable d : Dict.

Lemma render_field_plain (n : string) :
  plain_name n = true ->
  render_field env expand d n None "" = Ok (py_str (default_get n d)).
Proof.
  unfold plain_name. rewrite !andb_true_iff, negb_true_iff.
  intros [[Ht Hp] Hd]. unfold render_field.
  rewrite (split_first_plain n Hp), Ht, Hd. reflexivity.
Qed.

Lemma render_mchars (t : string) (m : Markup) :
  render_markup env expand d (mchars t m) =
  match render_markup env expand d m with
  | Ok u => Ok (t ++ u)%string
  | Raise e => Raise e
  end.
Proof.
  induction t as [|c t IH]; simpl.
  - destruct (render_markup env expand d m); reflexivity.
  - rewrite IH. destruct (render_markup env expand d m); reflexivity.
Qed.

Lemma render_write (segs : list Segment) :
  forallb plain segs = true ->
  render_markup env expand d (scan SText (write segs)) = Ok (fill_all d segs).
Proof.
  induction segs as [|g r IH]; simpl; [reflexivity|].
  rewrite andb_true_iff. intros [Hg Hr]. specialize (IH Hr).
  destruct g as [text|name].
  - change (write_segment (Lit text)) with (escape_braces text).
    rewrite scan_literal, render_mchars, IH. reflexivity.
  - rewrite (scan_hole name (write r) Hg). cbn [render_markup].
    rewrite (render_field_plain name Hg), IH. reflexivity.
Qed.

End FormatProps.

Lemma format_map_write env (d : Dict) (segs : list Segment) :
  forallb plain segs = true ->
  format_map env (write segs) d = Ok (fill_all d segs).
Proof. intros H. unfold format_map. simpl. now apply render_write. Qed.

Lemma computed_key_inv (n : string) :
  computed_key n = false ->
  String.eqb n "numery_faktur_z_kompensaty_lista" = false /\
  String.eqb n "brakujace_faktury_info" = false /\
  String.eqb n "nazwa_uzytkownika" = false.
Proof.
  unfold computed_key, in_list. simpl. rewrite !orb_false_iff. tauto.
Qed.

(** The computed entries are the only ones that differ from the data. *)
Lemma build_format_dict_get (kwargs fd : Dict) (n : string) :
  build_format_dict kwargs = Ok fd ->
  computed_key n = false ->
  dict_get n fd = dict_get n kwargs.
Proof.
  intros Hb Hn. apply computed_key_inv in Hn. destruct Hn as (H1 & H2 & H3).
  unfold build_format_dict in Hb.
  repeat match type of Hb with
         | context [match ?x with _ => _ end] => destruct x
         end;
    try discriminate; inversion Hb; subst; unfold dict_set; simpl;
    rewrite ?H1, ?H2, ?H3; reflexivity.
Qed.

Lemma build_format_dict_ok (kwargs : Dict) :
  data_ok kwargs = true -> exists fd, build_format_dict kwargs = Ok fd.
Proof.
  unfold data_ok, build_format_dict. rewrite andb_true_iff, orb_true_iff.
  intros [Hm Hu].
  assert (Hi : exists info,
             match dict_get "numery_brakujace" kwargs with
             | Some v =>
                 if truth v then
                   match iterate v with
                   | Ok l =>
                       Ok (nl ++ "Nie udało się odnaleźć następujących faktur:"
                              ++ nl ++ bullet_lines l)%string
                   | Raise e => Raise e
                   end
                 else Ok EmptyString
             | None => Ok EmptyString
             end = Ok info).
  { destruct (dict_get "numery_brakujace" kwargs) as [[|s|z|l]|]; simpl; eauto.
    - destruct (Py.truthy s); eauto.
    - rewrite Hm. simpl. eauto.
    - destruct l; eauto. }
  destruct Hi as [info ->].
  match goal with
  | |- context [dict_has "nazwa_uzytkownika" ?fd0] =>
      assert (Hsame : dict_has "nazwa_uzytkownika" fd0
                      = dict_has "nazwa_uzytkownika" kwargs)
  end.
  { unfold dict_has, dict_set.
    destruct (dict_get "numery_faktur_z_kompensaty" kwargs) as [[| | |]|];
      reflexivity. }
  rewrite Hsame.
  destruct (dict_has "nazwa_uzytkownika" kwargs) eqn:Hnu; simpl; eauto.
  destruct Hu as [Hu|Hu]; [discriminate|].
  unfold dict_has, default_get.
  destruct (dict_get "exchange_username" kwargs) as [[|s|z|l]|];
    simpl; eauto; try discriminate.
  apply negb_true_iff in Hu. rewrite Hu. eauto.
Qed.

(** C10 (as amended): for every data map whose computed entries can be
    computed, and every subject and body made of literal text and
    placeholders that are plain names, [EmailTemplate.format] raises
    nothing and returns a template; in it a placeholder that is not in
    the map (and is not one of the three computed entries) stands for the
    empty string, and a placeholder of the map stands for the text of its
    value. *)
Theorem format_renders_unknown_placeholders_empty :
  forall env subject_segs body_segs kwargs,
    forallb plain subject_segs = true ->
    forallb plain body_segs = true ->
    data_ok kwargs = true ->
    exists format_dict,
      EmailTemplate_format env
        {| tpl_subject := write subject_segs; tpl_body := write body_segs |}
        kwargs
      = Ok {| tpl_subject := fill_all format_dict subject_segs;
              tpl_body := fill_all format_dict body_segs |}
      /\ (forall name,
             computed_key name = false ->
             dict_get name kwargs = None ->
             fill format_dict (Hole name) = "")
      /\ (forall name v,
             computed_key name = false ->
             dict_get name kwargs = Some v ->
             fill format_dict (Hole name) = py_str v).
Proof.
  intros env subject_segs body_segs kwargs Hs Hb Hd.
  destruct (build_format_dict_ok kwargs Hd) as [fd Hfd].
  exists fd. split; [|split].
  - unfold EmailTemplate_format. rewrite Hfd. simpl.
    now rewrite (format_map_write env fd subject_segs Hs),
                (format_map_write env fd body_segs Hb).
  - intros name Hc Hn. simpl. unfold default_get.
    now rewrite (build_format_dict_get kwargs fd name Hfd Hc), Hn.
  - intros name v Hc Hn. simpl. unfold default_get.
    now rewrite (build_format_dict_get kwargs fd name Hfd Hc), Hn.
Qed.

Lemma format_renders_unknown_placeholders_empty_witness :
  exists format_dict,
    EmailTemplate_format (quiet_env no_account)
      {| tpl_subject := "Kompensata {temat_kompensaty}{nieznane}";
         tpl_body := "Witaj {nazwa_uzytkownika}, {{ok}}" |}
      [("temat_kompensaty", VStr "Q1");
       ("exchange_username", VStr "jan@example.com")]
    = Ok {| tpl_subject :=
              fill_all format_dict
                [Lit "Kompensata "; Hole "temat_kompensaty"; Hole "nieznane"];
            tpl_body :=
              fill_all format_dict
                [Lit "Witaj "; Hole "nazwa_uzytkownika"; Lit ", {ok}"] |}
    /\ fill format_dict (Hole "nieznane") = "".
Proof.
  destruct (format_renders_unknown_placeholders_empty (quiet_env no_account)
              [Lit "Kompensata "; Hole "temat_kompensaty"; Hole "nieznane"]
              [Lit "Witaj "; Hole "nazwa_uzytkownika"; Lit ", {ok}"]
              [("temat_kompensaty", VStr "Q1");
               ("exchange_username", VStr "jan@example.com")]
              eq_refl eq_refl eq_refl)
    as (fd & Hok & Habsent & _).
  exists fd. split; [exact Hok|].
  apply Habsent; reflexivity.
Defined.

Example format_default_template :
  EmailTemplate_format (quiet_env no_account)
    {| tpl_subject := "Kompensata {temat_kompensaty}{nieznane}";
       tpl_body := "Witaj {nazwa_uzytkownika}, {{ok}}" |}
    [("temat_kompensaty", VStr "Q1");
     ("exchange_username", VStr "jan@example.com")]
  = Ok {| tpl_subject := "Kompensata Q1"; tpl_body := "Witaj jan, {ok}" |}.
Proof. vm_compute. reflexivity. Qed.

(** C10, as the claim words it: the placeholder "{temat[0]}" names a key
    that is not in the map; it does not stand for the empty string, the
    formatting raises [IndexError] (the default value is the empty
    string, which has no first character). *)
Lemma unknown_placeholder_with_index_raises :
  dict_get "temat" [] = None
  /\ EmailTemplate_format (quiet_env no_account)
       {| tpl_subject := "Kompensata {temat[0]}"; tpl_body := "" |} []
     = Raise IndexError.
Proof. split; reflexivity. Qed.

(** ** What a run writes to the store *)

Lemma sends_only_refl (w : World) : sends_only w w.
Proof. exists []. split; [now rewrite app_nil_r|constructor]. Qed.

Lemma sends_only_trans (w1 w2 w3 : World) :
  sends_only w1 w2 -> sends_only w2 w3 -> sends_only w1 w3.
Proof.
  intros (o1 & H1 & F1) (o2 & H2 & F2). exists (o1 ++ o2). split.
  - now rewrite H2, H1, app_assoc.
  - apply Forall_app. auto.
Qed.

Lemma sends_only_same_trace (w w' : World) :
  trace w' = trace w -> sends_only w w'.
Proof. intros H. exists []. split; [now rewrite app_nil_r|constructor]. Qed.

Lemma only_sends_ret {A} (a : A) : only_sends (ret a).
Proof. intros w r w' H. inversion H; subst. apply sends_only_refl. Qed.

Lemma only_sends_raise {A} (e : Exn) : only_sends (@raise A e).
Proof. intros w r w' H. inversion H; subst. apply sends_only_refl. Qed.

Lemma only_sends_lift {A} (x : Res A) : only_sends (lift x).
Proof. destruct x; [apply only_sends_ret|apply only_sends_raise]. Qed.

Lemma only_sends_bind {A B} (m : M A) (k : A -> M B) :
  only_sends m -> (forall a, only_sends (k a)) -> only_sends (bind m k).
Proof.
  intros Hm Hk w r w' H. unfold bind in H.
  destruct (m w) as [[a|e] w1] eqn:Hmw.
  - eapply sends_only_trans; [eapply Hm, Hmw|eapply Hk, H].
  - inversion H; subst. eapply Hm, Hmw.
Qed.

Lemma only_sends_catch {A} (m : M A) (h : Exn -> M A) :
  only_sends m -> (forall e, only_sends (h e)) -> only_sends (catch m h).
Proof.
  intros Hm Hh w r w' H. unfold catch in H.
  destruct (m w) as [[a|e] w1] eqn:Hmw.
  - inversion H; subst. eapply Hm, Hmw.
  - eapply sends_only_trans; [eapply Hm, Hmw|eapply Hh, H].
Qed.

Lemma only_sends_check env : only_sends (check_cancelled env).
Proof.
  intros w r w' H. rewrite check_cancelled_eq in H. inversion H; subst.
  now apply sends_only_same_trace.
Qed.

Lemma only_sends_request env : only_sends (store_request env).
Proof.
  intros w r w' H. rewrite store_request_eq in H. inversion H; subst.
  now apply sends_only_same_trace.
Qed.

Lemma only_sends_fetch env {A} (a : A) : only_sends (fetch env a).
Proof.
  intros w r w' H. rewrite fetch_eq in H. inversion H; subst.
  apply sends_only_refl.
Qed.

Lemma only_sends_send env recipients subj body atts :
  only_sends (store_write env (OpSend recipients subj body atts)).
Proof.
  unfold store_write. apply only_sends_bind; [apply only_sends_request|].
  intros _ w r w' H. inversion H; subst. simpl.
  exists [OpSend recipients subj body atts]. split; [reflexivity|].
  repeat constructor.
Qed.

Create HintDb sends.

Ltac sends :=
  repeat first
    [ solve [auto 2 with sends nocore]
    | apply only_sends_ret
    | apply only_sends_raise
    | apply only_sends_lift
    | apply only_sends_check
    | apply only_sends_request
    | apply only_sends_fetch
    | apply only_sends_send
    | apply only_sends_bind; [|intros ?]
    | apply only_sends_catch; [|intros ?]
    | match goal with
      | |- only_sends (if ?b then _ else _) => destruct b
      | |- only_sends (match ?x with _ => _ end) => destruct x
      end ].

Section Writes.

Variable env : Env.
Variable config : AppConfig.
Variable templates : EmailTemplateCollection.

Lemma only_sends_navigate parts : forall folder,
  only_sends (navigate env folder parts).
Proof.
  induction parts as [|part rest IH]; intros folder; cbn [navigate]; sends.
Qed.
Hint Resolve only_sends_navigate : sends.

Lemma only_sends_get_folder path : only_sends (get_folder_by_path env path).
Proof.
  unfold get_folder_by_path.
  destruct (negb (Py.truthy path)); [sends|].
  destruct (in_list _ _); [|destruct (in_list _ _)]; sends.
Qed.
Hint Resolve only_sends_get_folder : sends.

Lemma only_sends_scan_attachments frag ext atts :
  only_sends (scan_attachments env frag ext atts).
Proof. induction atts as [|a r IH]; cbn [scan_attachments]; sends. Qed.
Hint Resolve only_sends_scan_attachments : sends.

Lemma only_sends_scan_emails frag ext emails :
  only_sends (scan_emails env frag ext emails).
Proof. induction emails as [|m r IH]; cbn [scan_emails]; sends. Qed.
Hint Resolve only_sends_scan_emails : sends.

Lemma only_sends_find_single folder i s e ext :
  only_sends (_find_single_invoice_attachment env folder i s e ext).
Proof. unfold _find_single_invoice_attachment. sends. Qed.
Hint Resolve only_sends_find_single : sends.

Lemma only_sends_find_related_loop folder s e ext ids : forall acc,
  only_sends (find_related_loop env folder s e ext ids acc).
Proof.
  induction ids as [|i r IH]; intros acc; cbn [find_related_loop]; sends.
Qed.
Hint Resolve only_sends_find_related_loop : sends.

Lemma only_sends_find_related ids ref criteria :
  only_sends (find_related_invoices env ids ref criteria).
Proof. unfold find_related_invoices. sends. Qed.
Hint Resolve only_sends_find_related : sends.

Lemma only_sends_extract_pages pattern pages : forall acc,
  only_sends (extract_pages env pattern pages acc).
Proof.
  induction pages as [|p r IH]; intros acc; cbn [extract_pages]; sends.
Qed.
Hint Resolve only_sends_extract_pages : sends.

Lemma only_sends_extract content pattern :
  only_sends (extract_invoice_numbers env content pattern).
Proof. unfold extract_invoice_numbers. sends. Qed.
Hint Resolve only_sends_extract : sends.

Lemma only_sends_scan_main_attachments criteria email atts :
  only_sends (scan_main_attachments env criteria email atts).
Proof. induction atts as [|a r IH]; cbn [scan_main_attachments]; sends. Qed.
Hint Resolve only_sends_scan_main_attachments : sends.

Lemma only_sends_scan_main_emails criteria emails :
  only_sends (scan_main_emails env criteria emails).
Proof. induction emails as [|m r IH]; cbn [scan_main_emails]; sends. Qed.
Hint Resolve only_sends_scan_main_emails : sends.

Lemma only_sends_find_compensation criteria :
  only_sends (find_compensation_email env criteria).
Proof. unfold find_compensation_email. sends. Qed.
Hint Resolve only_sends_find_compensation : sends.

Lemma only_sends_send_email recipients subj body atts :
  only_sends (send_email env recipients subj body atts).
Proof. unfold send_email. sends. Qed.
Hint Resolve only_sends_send_email : sends.

Lemma only_sends_attach found : forall atts names,
  only_sends (attach_invoices env found atts names).
Proof.
  induction found as [|a r IH]; intros atts names; cbn [attach_invoices];
    sends.
Qed.
Hint Resolve only_sends_attach : sends.

Lemma only_sends_accounting pdf found extracted email :
  only_sends (send_compensation_email_to_accounting env config templates
                pdf found extracted email).
Proof. unfold send_compensation_email_to_accounting. sends. Qed.
Hint Resolve only_sends_accounting : sends.

Lemma only_sends_partial email extracted found :
  only_sends (send_partial_results_notification env config templates
                email extracted found).
Proof. unfold send_partial_results_notification. sends. Qed.
Hint Resolve only_sends_partial : sends.

(** A run that gets to the delivery has written nothing but sends, and
    the outcome of the delivery is what the email to accounting
    returned. *)
Lemma process_emails_delivery_stage criteria w email pdf extracted found
      sent w1 :
  process_emails_delivery env config templates criteria w
  = (Ok (Delivery email pdf extracted found sent), w1) ->
  sends_only w w1 /\
  exists w0,
    send_compensation_email_to_accounting env config templates
      pdf found extracted email w0 = (Ok sent, w1).
Proof.
  unfold process_emails_delivery. intros H.
  unfold bind at 1 in H.
  destruct (check_cancelled env w) as [[[]|x] wa] eqn:E1; [|discriminate].
  unfold bind at 1 in H.
  destruct (find_compensation_email env criteria wa)
    as [[[[m a]|]|x] wb] eqn:E2; try discriminate.
  unfold bind at 1 in H. rewrite fetch_eq in H.
  destruct (fetch_fails env (requests wb)); [discriminate|].
  unfold bind at 1 in H.
  destruct (extract_invoice_numbers env (att_content a)
              (regex_pattern criteria) wb) as [[ex|x] wc] eqn:E3;
    [|discriminate].
  destruct ex as [|i rest].
  - unfold bind in H.
    destruct (_handle_no_data_extracted env config templates m a wc)
      as [[r|x] wd]; discriminate.
  - unfold bind at 1 in H.
    destruct (find_related_invoices env (i :: rest) (datetime_received m)
                criteria wc) as [[fi|x] wd] eqn:E4; [|discriminate].
    unfold bind at 1 in H.
    match type of H with
    | context [match ?c wd with _ => _ end] =>
        destruct (c wd) as [[[]|x] we] eqn:E5; [|discriminate]
    end.
    unfold bind at 1 in H.
    destruct (send_compensation_email_to_accounting env config templates
                a fi (i :: rest) m we) as [[es|x] wf] eqn:E6; [|discriminate].
    assert (S5 : sends_only wd we).
    { revert E5. destruct (length fi <? length (i :: rest))%nat.
      - intros E5. revert E5. apply only_sends_bind.
        + apply only_sends_partial.
        + intros ?. apply only_sends_ret.
      - intros E5. inversion E5; subst. apply sends_only_refl. }
    inversion H; subst. split; [|exists we; exact E6].
    apply only_sends_check in E1.
    apply only_sends_find_compensation in E2.
    apply only_sends_extract in E3.
    apply only_sends_find_related in E4.
    apply only_sends_accounting in E6.
    repeat (eapply sends_only_trans; [eassumption|]).
    apply sends_only_refl.
Qed.

End Writes.

Lemma sends_only_no_move (w w' : World) :
  sends_only w w' ->
  forall op, In op (trace w') -> In op (trace w) \/ is_send op.
Proof.
  intros (ops & -> & Hall) op Hin. apply in_app_or in Hin.
  destruct Hin as [Hin|Hin]; [left; exact Hin|right].
  rewrite Forall_forall in Hall. now apply Hall.
Qed.

(** C8: when the email to accounting returns false, the run ends there:
    its result is a failure with the message of the failed delivery, and
    between the start of the run and its end nothing was written to the
    store but sends: no message was moved, none was marked as read. *)
Theorem failed_delivery_leaves_source_message_untouched :
  forall env config templates criteria w email pdf extracted found w1,
    process_emails_delivery env config templates criteria w
    = (Ok (Delivery email pdf extracted found false), w1) ->
    (exists w0,
        send_compensation_email_to_accounting env config templates
          pdf found extracted email w0 = (Ok false, w1))
    /\ (exists r,
           process_emails env config templates criteria w = (Ok r, w1)
           /\ success r = false
           /\ message r = MsgSendFailed)
    /\ sends_only w w1
    /\ (forall item destination,
           In (OpMove item destination) (trace w1) ->
           In (OpMove item destination) (trace w))
    /\ (forall item,
           In (OpMarkRead item) (trace w1) -> In (OpMarkRead item) (trace w)).
Proof.
  intros env config templates criteria w email pdf extracted found w1 H.
  destruct (process_emails_delivery_stage env config templates criteria w
              email pdf extracted found false w1 H) as [Hs Hcall].
  split; [exact Hcall|]. split.
  - eexists. split.
    + unfold process_emails, catch.
      rewrite (bind_ok _ _ _ _ _ H). reflexivity.
    + split; reflexivity.
  - split; [exact Hs|]. split.
    + intros item destination Hin.
      destruct (sends_only_no_move w w1 Hs _ Hin) as [Hold|[]]. exact Hold.
    + intros item Hin.
      destruct (sends_only_no_move w w1 Hs _ Hin) as [Hold|[]]. exact Hold.
Qed.

Lemma failed_delivery_leaves_source_message_untouched_witness :
  exists r w1,
    process_emails (pipeline_env 4 example_account) example_config
      example_templates default_criteria world0 = (Ok r, w1)
    /\ success r = false
    /\ message r = MsgSendFailed
    /\ sends_only world0 w1.
Proof.
  edestruct (failed_delivery_leaves_source_message_untouched
               (pipeline_env 4 example_account) example_config
               example_templates default_criteria world0)
    as (_ & (r & Hrun & Hs & Hm) & Honly & _).
  - vm_compute. reflexivity.
  - exists r. eexists. repeat split; eassumption.
Defined.

Example successful_run :
  let out := process_emails (pipeline_env 99 example_account) example_config
               example_templates default_criteria world0 in
  message (match fst out with Ok r => r | Raise _ => result false MsgCancelled end)
  = MsgDone 1 1
  /\ trace (snd out)
     = [OpSend ["crypto@woox.pl"] "Kompensata Kompensata 05 - faktury (1/1)"
               "  - FV-1"
               [FileAttachment "Kompensata_05.pdf" "FV-1";
                FileAttachment "fv-1.pdf" ""];
        OpMove 7 "Skrzynka odbiorcza/Kompensaty Quadra/Wyslane do weryfikacji"].
Proof. vm_compute. split; reflexivity. Qed.

(* ================================================================== *)
(** * Further properties of the code *)

(** ** The fragment, continued *)

Lemma map_chars_length (f : ascii -> ascii) (s : string) :
  String.length (Py.map_chars f s) = String.length s.
Proof. induction s as [|c r IH]; simpl; congruence. Qed.

Lemma map_chars_compose (f g : ascii -> ascii) (s : string) :
  Py.map_chars f (Py.map_chars g s) = Py.map_chars (fun c => f (g c)) s.
Proof. induction s as [|c r IH]; simpl; congruence. Qed.

Lemma map_chars_all (p : ascii -> bool) (f : ascii -> ascii) (s : string) :
  (forall c, p (f c) = true) -> all_chars p (Py.map_chars f s) = true.
Proof.
  intros H. induction s as [|c r IH]; simpl; [reflexivity|].
  now rewrite H, IH.
Qed.

Lemma fragment_char_shape (c : ascii) :
  fragment_char_ok
    (Py.lower_char (if Re.not_word_digit_dot_hyphen c then "_"%char else c))
  = true.
Proof. destruct c as [[] [] [] [] [] [] [] []]; reflexivity. Qed.

Lemma fragment_char_fixed (c : ascii) :
  let f := fun x => Py.lower_char
                      (if Re.not_word_digit_dot_hyphen x then "_"%char else x) in
  f (f c) = f c.
Proof. destruct c as [[] [] [] [] [] [] [] []]; reflexivity. Qed.

Lemma fragment_char_ascii (c : ascii) :
  (Py.code
     (Py.lower_char (if Re.not_word_digit_dot_hyphen c then "_"%char else c))
   <? 128)%nat = true.
Proof. destruct c as [[] [] [] [] [] [] [] []]; reflexivity. Qed.

(** X1: for an identifier of ASCII characters, the fragment has the
    length of the identifier, it is a string of ASCII characters made of
    lower-case letters, digits, underscores, dots and hyphens, and the
    fragment of the fragment is the fragment itself.  (Outside ASCII the
    lower-casing of Python can change the length of a string, and its
    [\w] keeps letters that the tables of bytes do not know.) *)
Theorem search_fragment_shape :
  forall invoice_number,
    is_ascii invoice_number = true ->
    String.length (search_fragment invoice_number)
    = String.length invoice_number
    /\ is_ascii (search_fragment invoice_number) = true
    /\ all_chars fragment_char_ok (search_fragment invoice_number) = true
    /\ search_fragment (search_fragment invoice_number)
       = search_fragment invoice_number.
Proof.
  intros i _. unfold is_ascii, search_fragment, Py.lower, Re.sub_class.
  rewrite !map_chars_length, !map_chars_compose.
  split; [reflexivity|]. split; [|split].
  - apply map_chars_all. exact fragment_char_ascii.
  - apply map_chars_all. exact fragment_char_shape.
  - apply map_chars_ext. intros c. apply (fragment_char_fixed c).
Qed.

Lemma search_fragment_shape_witness :
  is_ascii "F/M 123-45" = true
  /\ String.length (search_fragment "F/M 123-45") = 10
  /\ search_fragment (search_fragment "F/M 123-45")
     = search_fragment "F/M 123-45".
Proof.
  assert (Ha : is_ascii "F/M 123-45" = true) by reflexivity.
  destruct (search_fragment_shape "F/M 123-45" Ha) as (Hl & _ & _ & Hi).
  split; [exact Ha|]. split; [exact Hl|exact Hi].
Defined.

(** ** Cleaning an invoice number *)

Lemma lstrip_fixed (s : string) : Py.lstrip (Py.lstrip s) = Py.lstrip s.
Proof.
  induction s as [|c r IH]; simpl; [reflexivity|].
  destruct (Py.isspace c) eqn:Hc; [exact IH|]. simpl. now rewrite Hc.
Qed.

Lemma rstrip_fixed (s : string) : Py.rstrip (Py.rstrip s) = Py.rstrip s.
Proof.
  induction s as [|c r IH]; simpl; [reflexivity|].
  destruct (Py.rstrip r) as [|d t] eqn:Hr.
  - destruct (Py.isspace c) eqn:Hc; simpl; [reflexivity|]. now rewrite Hc.
  - simpl in IH |- *. simpl. rewrite IH. reflexivity.
Qed.

(** Stripping on the right leaves the first character in place. *)
Lemma lstrip_rstrip (s : string) :
  Py.lstrip s = s -> Py.lstrip (Py.rstrip s) = Py.rstrip s.
Proof.
  destruct s as [|c r]; simpl; [reflexivity|].
  destruct (Py.isspace c) eqn:Hc.
  - intros H. exfalso.
    assert (Hl : forall t, String.length (Py.lstrip t) <= String.length t).
    { clear. induction t as [|x t IH]; simpl; [lia|].
      destruct (Py.isspace x); simpl; lia. }
    specialize (Hl r). rewrite H in Hl. simpl in Hl. lia.
  - intros _. destruct (Py.rstrip r); simpl; now rewrite Hc.
Qed.

Lemma strip_no_blank_at_ends (s : string) : no_blank_at_ends (Py.strip s).
Proof.
  unfold no_blank_at_ends, Py.strip. split.
  - apply lstrip_rstrip, lstrip_fixed.
  - apply rstrip_fixed.
Qed.

Lemma rstrip_is_prefix (s : string) :
  exists r, s = (Py.rstrip s ++ r)%string.
Proof.
  induction s as [|c t [r IH]]; simpl; [exists ""; reflexivity|].
  destruct (Py.rstrip t) as [|d u] eqn:Ht.
  - destruct (Py.isspace c).
    + exists (String c t). reflexivity.
    + exists r. simpl. simpl in IH. now rewrite <- IH.
  - exists r. simpl. now rewrite IH at 1.
Qed.

Lemma lstrip_substring (s : string) (k : nat) :
  Py.lstrip s = s -> Py.lstrip (substring 0 k s) = substring 0 k s.
Proof.
  destruct s as [|c r], k as [|k]; simpl; try reflexivity.
  destruct (Py.isspace c) eqn:Hc; [|intros _; reflexivity].
  intros H. exfalso.
  assert (Hl : forall t, String.length (Py.lstrip t) <= String.length t).
  { clear. induction t as [|x t IH]; simpl; [lia|].
    destruct (Py.isspace x); simpl; lia. }
  specialize (Hl r). rewrite H in Hl. simpl in Hl. lia.
Qed.

Lemma substring_is_prefix (s : string) (k : nat) :
  exists r, s = (substring 0 k s ++ r)%string.
Proof.
  revert k. induction s as [|c t IH]; intros k.
  - exists "". destruct k; reflexivity.
  - destruct k as [|k]; simpl; [exists (String c t); reflexivity|].
    destruct (IH k) as [r Hr]. exists r. now rewrite Hr at 1.
Qed.

Lemma no_blank_strip (s : string) :
  all_chars (fun c => negb (Py.isspace c)) s = true -> Py.strip s = s.
Proof.
  intros H. unfold Py.strip.
  assert (Hl : Py.lstrip s = s).
  { destruct s as [|c r]; simpl in *; [reflexivity|].
    apply andb_true_iff in H. destruct H as [Hc _].
    apply negb_true_iff in Hc. now rewrite Hc. }
  rewrite Hl. induction s as [|c r IH]; simpl in *; [reflexivity|].
  apply andb_true_iff in H. destruct H as [Hc Hr].
  apply negb_true_iff in Hc.
  assert (Hlr : Py.lstrip r = r).
  { destruct r as [|d t]; simpl in *; [reflexivity|].
    apply andb_true_iff in Hr. destruct Hr as [Hd _].
    apply negb_true_iff in Hd. now rewrite Hd. }
  rewrite (IH Hr Hlr). destruct r; [now rewrite Hc|reflexivity].
Qed.

Lemma no_blank_no_ending (s : string) :
  all_chars (fun c => negb (Py.isspace c)) s = true -> search_ending s = None.
Proof.
  induction s as [|c r IH]; simpl; [reflexivity|].
  rewrite andb_true_iff, negb_true_iff. intros [Hc Hr].
  unfold Re.space. rewrite Hc. simpl. exact (IH Hr).
Qed.

(** X2: a cleaned invoice number has no blank at either end and is the
    beginning of the stripped raw number; a raw number without any blank
    is returned as it is. *)
Theorem clean_invoice_number_shape :
  forall raw_number,
    no_blank_at_ends (_clean_invoice_number raw_number)
    /\ (exists rest,
           Py.strip raw_number
           = (_clean_invoice_number raw_number ++ rest)%string)
    /\ (all_chars (fun c => negb (Py.isspace c)) raw_number = true ->
        _clean_invoice_number raw_number = raw_number).
Proof.
  intros raw. unfold _clean_invoice_number.
  split; [apply strip_no_blank_at_ends|]. split.
  - set (t := Py.strip raw).
    assert (Ht : Py.lstrip t = t) by apply strip_no_blank_at_ends.
    destruct (search_ending t) as [n|].
    + unfold Py.strip.
      rewrite (lstrip_substring t _ Ht).
      destruct (substring_is_prefix t (String.length t - n)) as [r1 Hr1].
      destruct (rstrip_is_prefix (substring 0 (String.length t - n) t))
        as [r2 Hr2].
      exists (r2 ++ r1)%string.
      rewrite <- string_app_assoc, <- Hr2. exact Hr1.
    + unfold Py.strip. rewrite Ht.
      destruct (rstrip_is_prefix t) as [r Hr]. exists r. exact Hr.
  - intros Hnb. rewrite (no_blank_strip raw Hnb).
    rewrite (no_blank_no_ending raw Hnb). apply no_blank_strip, Hnb.
Qed.

Lemma clean_invoice_number_shape_witness :
  all_chars (fun c => negb (Py.isspace c)) "F/M/123/2024" = true
  /\ _clean_invoice_number "F/M/123/2024" = "F/M/123/2024".
Proof.
  split; [reflexivity|].
  apply (clean_invoice_number_shape "F/M/123/2024"). reflexivity.
Defined.

(** ** The missing identifiers, continued *)

Lemma filter_subseq {A} (p : A -> bool) (l : list A) : Subseq (filter p l) l.
Proof.
  induction l as [|x r IH]; simpl; [constructor|].
  destruct (p x); now constructor.
Qed.

(** X3: the missing identifiers are extracted identifiers in their
    order; with nothing found every identifier is missing; and an
    identifier that is missing for a list of found attachments is
    missing for every list that holds no other attachments. *)
Theorem find_missing_invoices_bounds :
  forall extracted,
    _find_missing_invoices extracted [] = extracted
    /\ (forall found, Subseq (_find_missing_invoices extracted found) extracted)
    /\ (forall found found' i,
           incl found found' ->
           In i (_find_missing_invoices extracted found') ->
           In i (_find_missing_invoices extracted found)).
Proof.
  intros ids. split; [|split].
  - unfold _find_missing_invoices. simpl.
    induction ids as [|i r IH]; simpl; congruence.
  - intros found. apply filter_subseq.
  - intros found found' i Hincl. unfold _find_missing_invoices.
    rewrite !filter_In, !negb_true_iff. intros [Hi Hn]. split; [exact Hi|].
    apply not_true_is_false. intros Hc. apply existsb_exists in Hc.
    destruct Hc as (n & Hn' & Hcn). apply in_map_iff in Hn'.
    destruct Hn' as (a & <- & Ha).
    assert (Hex : existsb (Py.contains (search_fragment i))
                    (map (fun att => Py.lower (att_name att)) found') = true).
    { apply existsb_exists. exists (Py.lower (att_name a)). split; [|exact Hcn].
      apply (in_map (fun att => Py.lower (att_name att))), Hincl, Ha. }
    congruence.
Qed.

Lemma find_missing_invoices_bounds_witness :
  incl [FileAttachment "fv-1.pdf" "a"]
       [FileAttachment "fv-1.pdf" "a"; FileAttachment "fv-2.pdf" "b"]
  /\ In "FV-3" (_find_missing_invoices ["FV-1"; "FV-2"; "FV-3"]
                  [FileAttachment "fv-1.pdf" "a"]).
Proof.
  assert (Hincl : incl [FileAttachment "fv-1.pdf" "a"]
                       [FileAttachment "fv-1.pdf" "a";
                        FileAttachment "fv-2.pdf" "b"]).
  { intros x [<-|[]]. left. reflexivity. }
  split; [exact Hincl|].
  apply (proj2 (proj2 (find_missing_invoices_bounds ["FV-1"; "FV-2"; "FV-3"]))
           _ _ "FV-3" Hincl).
  simpl. auto.
Defined.

(** ** Extraction, continued *)

Lemma page_candidates_in env pattern page x :
  In x (page_candidates env pattern page) ->
  exists findall matches raw,
    re_compile env pattern = Some findall /\
    findall (_extract_text_from_page page) = Strings matches /\
    In raw matches /\
    x = _clean_invoice_number raw /\
    x <> "".
Proof.
  unfold page_candidates.
  destruct (Py.truthy (_extract_text_from_page page)); [|intros []].
  destruct (re_compile env pattern) as [findall|]; [|intros []].
  destruct (findall (_extract_text_from_page page)) as [matches|n] eqn:Hf;
    [|intros []].
  rewrite filter_In, in_map_iff. intros [(raw & <- & Hraw) Ht].
  exists findall, matches, raw. repeat split; auto.
  intros He. rewrite He in Ht. discriminate.
Qed.

(** X4: every identifier that an extraction returns is the cleaned form
    of a match of the pattern in the text of a page of the document; it
    is not empty and has no blank at either end. *)
Theorem extracted_numbers_are_cleaned_matches :
  forall env pdf_content regex_pattern w l w',
    set_order_permutes env ->
    extract_invoice_numbers env pdf_content regex_pattern w = (Ok l, w') ->
    forall x, In x l ->
      x <> "" /\ no_blank_at_ends x /\
      exists pages page findall matches raw,
        pdf_reader env pdf_content = Some pages /\
        In page pages /\
        re_compile env regex_pattern = Some findall /\
        findall (_extract_text_from_page page) = Strings matches /\
        In raw matches /\
        x = _clean_invoice_number raw.
Proof.
  intros env content pattern w l w' Hperm H x Hx.
  apply extract_invoice_numbers_ok in H. destruct H as (pages & Hread & ->).
  apply (Permutation_in _ (Hperm _)) in Hx.
  apply (pages_fold_in env pattern Hperm) in Hx.
  destruct Hx as [Hx|[]].
  apply in_flat_map in Hx. destruct Hx as (page & Hpage & Hx).
  apply page_candidates_in in Hx.
  destruct Hx as (findall & matches & raw & Hre & Hf & Hraw & -> & Hne).
  split; [exact Hne|]. split.
  - unfold _clean_invoice_number. apply strip_no_blank_at_ends.
  - exists pages, page, findall, matches, raw. repeat split; assumption.
Qed.

Lemma extracted_numbers_are_cleaned_matches_witness :
  set_order_permutes (reading_env descending)
  /\ "INV-1002" <> "" /\ no_blank_at_ends "INV-1002".
Proof.
  assert (Hp : set_order_permutes (reading_env descending))
    by (intros l; apply descending_perm).
  split; [exact Hp|].
  destruct (extracted_numbers_are_cleaned_matches (reading_env descending)
              "INV-1001 INV-1002 INV-1001" "\S+" world0
              ["INV-1002"; "INV-1001"]
              (snd (extract_invoice_numbers (reading_env descending)
                      "INV-1001 INV-1002 INV-1001" "\S+" world0))
              Hp eq_refl "INV-1002" (or_introl eq_refl))
    as (Hne & Hb & _).
  split; assumption.
Defined.

(** X5: the only exceptions that leave an extraction are the
    cancellation and [PDFProcessingError]; an extraction sends nothing
    to the store; and when it is not cancelled on entry, a document that
    the reader cannot read gives [PDFProcessingError] for every pattern
    that is not empty. *)
Theorem extract_invoice_numbers_errors :
  forall env pdf_content regex_pattern w,
    (forall x w',
        extract_invoice_numbers env pdf_content regex_pattern w = (Raise x, w') ->
        x = OperationCancelledError \/ x = PDFProcessingError)
    /\ (forall r w',
           extract_invoice_numbers env pdf_content regex_pattern w = (r, w') ->
           requests w' = requests w /\ trace w' = trace w)
    /\ (stop_event env (polls w) = false ->
        regex_pattern <> "" ->
        pdf_reader env pdf_content = None ->
        extract_invoice_numbers env pdf_content regex_pattern w
        = (Raise PDFProcessingError, poll_n 1 w)).
Proof.
  intros env content pattern w.
  assert (Hpages : forall pages acc w0 r w1,
             extract_pages env pattern pages acc w0 = (r, w1) ->
             requests w1 = requests w0 /\ trace w1 = trace w0).
  { induction pages as [|p rest IH]; intros acc w0 r w1 H;
      cbn [extract_pages] in H.
    - inversion H; subst. auto.
    - revert H. unfold bind at 1. rewrite check_cancelled_eq.
      destruct (stop_event env (polls w0)).
      + intros H; inversion H; subst. auto.
      + intros H. apply IH in H. exact H. }
  split; [|split].
  - intros x w'. unfold extract_invoice_numbers.
    unfold bind at 1. rewrite check_cancelled_eq.
    destruct (stop_event env (polls w)).
    { intros H; inversion H; subst. auto. }
    destruct (Py.truthy pattern); simpl.
    2:{ intros H; inversion H; subst. auto. }
    unfold catch.
    destruct (pdf_reader env content) as [pages|]; simpl.
    2:{ intros H; inversion H; subst. auto. }
    unfold bind at 1.
    destruct (extract_pages env pattern pages [] (poll_n 1 w))
      as [[s|e] w1] eqn:Hp.
    + discriminate.
    + apply extract_pages_raises in Hp. subst e. simpl.
      intros H; inversion H; subst. auto.
  - intros r w'. unfold extract_invoice_numbers.
    unfold bind at 1. rewrite check_cancelled_eq.
    destruct (stop_event env (polls w)).
    { intros H; inversion H; subst. auto. }
    destruct (Py.truthy pattern); simpl.
    2:{ intros H; inversion H; subst. auto. }
    unfold catch.
    destruct (pdf_reader env content) as [pages|]; simpl.
    2:{ intros H; inversion H; subst. auto. }
    unfold bind at 1.
    destruct (extract_pages env pattern pages [] (poll_n 1 w))
      as [[s|e] w1] eqn:Hp; apply Hpages in Hp; simpl in Hp.
    + intros H; inversion H; subst. exact Hp.
    + destruct (is_cancelled e); intros H; inversion H; subst; exact Hp.
  - intros Hstop Hne Hread. unfold extract_invoice_numbers.
    unfold bind at 1. rewrite check_cancelled_eq, Hstop.
    destruct pattern as [|c p]; [congruence|]. cbn [Py.truthy negb].
    unfold catch. rewrite Hread. reflexivity.
Qed.

Lemma extract_invoice_numbers_errors_witness :
  stop_event (reading_env (fun l => l)) (polls world0) = false
  /\ "\S+" <> ""
  /\ pdf_reader (reading_env (fun l => l)) "" = None
  /\ extract_invoice_numbers (reading_env (fun l => l)) "" "\S+" world0
     = (Raise PDFProcessingError, poll_n 1 world0).
Proof.
  assert (Hne : "\S+" <> "") by discriminate.
  split; [reflexivity|]. split; [exact Hne|]. split; [reflexivity|].
  apply (extract_invoice_numbers_errors (reading_env (fun l => l))
           "" "\S+" world0); [reflexivity|exact Hne|reflexivity].
Defined.

(** X6: an extraction that returns identifiers has read a document that
    [validate_pdf_content] accepts: for a content that it does not
    accept, an extraction returns no identifier. *)
Theorem extracted_numbers_need_valid_pdf :
  forall env pdf_content regex_pattern w l w',
    set_order_permutes env ->
    extract_invoice_numbers env pdf_content regex_pattern w = (Ok l, w') ->
    l <> [] ->
    validate_pdf_content env pdf_content = true.
Proof.
  intros env content pattern w l w' Hperm H Hne.
  apply extract_invoice_numbers_ok in H. destruct H as (pages & Hread & ->).
  unfold validate_pdf_content. rewrite Hread.
  destruct pages as [|p rest]; [|reflexivity].
  simpl in Hne. rewrite (set_order_nil env Hperm) in Hne. congruence.
Qed.

Lemma extracted_numbers_need_valid_pdf_witness :
  set_order_permutes (reading_env (fun l => l))
  /\ validate_pdf_content (reading_env (fun l => l)) "INV-1001 INV-1002" = true.
Proof.
  assert (Hp : set_order_permutes (reading_env (fun l => l)))
    by (intros l; apply Permutation_refl).
  split; [exact Hp|].
  apply (extracted_numbers_need_valid_pdf (reading_env (fun l => l))
           "INV-1001 INV-1002" "\S+" world0 ["INV-1001"; "INV-1002"]
           (snd (extract_invoice_numbers (reading_env (fun l => l))
                   "INV-1001 INV-1002" "\S+" world0)) Hp eq_refl).
  discriminate.
Defined.

(** ** Resolving a folder path *)

Section FolderPath.

Variable env : Env.

(** The navigation polls nothing and writes nothing, and only
    [FolderNotFoundError] leaves it. *)
Lemma navigate_outcome parts : forall folder w r w',
  navigate env folder parts w = (r, w') ->
  polls w' = polls w /\ trace w' = trace w /\
  forall x, r = Raise x -> x = FolderNotFoundError.
Proof.
  induction parts as [|part rest IH]; intros folder w r w' H;
    cbn [navigate] in H.
  - inversion H; subst. repeat split; auto. discriminate.
  - destruct (negb (Py.truthy part)); [eapply IH, H|].
    revert H. unfold bind at 1, catch. unfold bind at 1.
    rewrite store_request_eq.
    destruct (store_fails env (requests w)).
    { intros H; inversion H; subst. repeat split; auto.
      intros x Hx; inversion Hx; reflexivity. }
    destruct (find _ (folder_children folder)) as [next|].
    + intros H. apply IH in H. exact H.
    + unfold bind at 1. rewrite store_request_eq.
      destruct (store_fails env (requests (requested w)));
        intros H; inversion H; subst; repeat split; auto;
        intros x Hx; inversion Hx; reflexivity.
Qed.

Lemma get_folder_by_path_outcome path w r w' :
  get_folder_by_path env path w = (r, w') ->
  polls w' = polls w /\ trace w' = trace w /\
  forall x, r = Raise x ->
    x = FolderNotFoundError
    \/ (x = StoreError /\ fetch_fails env (requests w) = true /\ w' = w).
Proof.
  unfold get_folder_by_path.
  destruct (negb (Py.truthy path)).
  { intros H; inversion H; subst. repeat split; auto.
    intros x Hx; inversion Hx; auto. }
  assert (Hstart : forall (well_known : option Folder) parts,
             (current_folder <- fetch env well_known ;;
              match current_folder with
              | None => raise FolderNotFoundError
              | Some current_folder => navigate env current_folder parts
              end) w = (r, w') ->
             polls w' = polls w /\ trace w' = trace w /\
             forall x, r = Raise x ->
               x = FolderNotFoundError
               \/ (x = StoreError /\ fetch_fails env (requests w) = true
                   /\ w' = w)).
  { intros well_known parts. unfold bind at 1. rewrite fetch_eq.
    destruct (fetch_fails env (requests w)).
    - intros H; inversion H; subst. repeat split; auto.
      intros x Hx; inversion Hx; auto.
    - destruct well_known as [folder|].
      + intros H. apply navigate_outcome in H.
        destruct H as (Hp & Ht & Hx). repeat split; auto.
      + intros H; inversion H; subst. repeat split; auto.
        intros x Hx; inversion Hx; auto. }
  destruct (in_list _ _); [|destruct (in_list _ _)]; apply Hstart.
Qed.

End FolderPath.

(** X7: resolving a folder path polls nothing and writes nothing.  Two
    exceptions can leave it: [FolderNotFoundError], which also stands
    for every failure of the store during the navigation, and the error
    of the server when the read of the well-known folder
    ([account.inbox], [account.sent], [account.root]) fails; this read
    stands before the [try], and its error leaves the function as it is,
    before any request of the navigation.  It never returns without a
    folder, and the empty path raises [FolderNotFoundError] before
    anything is read. *)
Theorem get_folder_by_path_errors :
  forall env folder_path w,
    (forall r w',
        get_folder_by_path env folder_path w = (r, w') ->
        polls w' = polls w /\ trace w' = trace w /\
        forall x, r = Raise x ->
          x = FolderNotFoundError
          \/ (x = StoreError /\ fetch_fails env (requests w) = true
              /\ w' = w))
    /\ (folder_path <> "" ->
        fetch_fails env (requests w) = true ->
        get_folder_by_path env folder_path w = (Raise StoreError, w))
    /\ get_folder_by_path env "" w = (Raise FolderNotFoundError, w).
Proof.
  intros env path w. split; [|split; [|reflexivity]].
  - intros r w'. apply get_folder_by_path_outcome.
  - intros Hne Hf. unfold get_folder_by_path.
    destruct path as [|c p]; [congruence|]. cbn [Py.truthy negb].
    destruct (in_list _ _); [|destruct (in_list _ _)];
      unfold bind; rewrite fetch_eq, Hf; reflexivity.
Qed.

Lemma get_folder_by_path_errors_witness :
  get_folder_by_path (quiet_env example_account)
    "Skrzynka odbiorcza/Archiwum" world0
  = (Raise FolderNotFoundError,
     snd (get_folder_by_path (quiet_env example_account)
            "Skrzynka odbiorcza/Archiwum" world0))
  /\ trace (snd (get_folder_by_path (quiet_env example_account)
                   "Skrzynka odbiorcza/Archiwum" world0)) = trace world0
  /\ "Skrzynka odbiorcza/Faktury" <> ""
  /\ fetch_fails (offline_env example_account) (requests world0) = true
  /\ get_folder_by_path (offline_env example_account)
       "Skrzynka odbiorcza/Faktury" world0 = (Raise StoreError, world0).
Proof.
  assert (H : get_folder_by_path (quiet_env example_account)
                "Skrzynka odbiorcza/Archiwum" world0
              = (Raise FolderNotFoundError,
                 snd (get_folder_by_path (quiet_env example_account)
                        "Skrzynka odbiorcza/Archiwum" world0)))
    by reflexivity.
  assert (Hne : "Skrzynka odbiorcza/Faktury" <> "") by discriminate.
  assert (Hf : fetch_fails (offline_env example_account) (requests world0)
               = true) by reflexivity.
  split; [exact H|]. split.
  - exact (proj1 (proj2 (proj1 (get_folder_by_path_errors
                                  (quiet_env example_account)
                                  "Skrzynka odbiorcza/Archiwum" world0)
                           _ _ H))).
  - split; [exact Hne|]. split; [exact Hf|].
    exact (proj1 (proj2 (get_folder_by_path_errors
                           (offline_env example_account)
                           "Skrzynka odbiorcza/Faktury" world0)) Hne Hf).
Defined.

Lemma bind_ext {A B} (m : M A) (k1 k2 : A -> M B) w :
  (forall a w1, k1 a w1 = k2 a w1) -> bind m k1 w = bind m k2 w.
Proof.
  intros H. unfold bind. destruct (m w) as [[a|x] w1]; [apply H|reflexivity].
Qed.

Lemma lower_char_fixed (c : ascii) :
  Py.lower_char (Py.lower_char c) = Py.lower_char c.
Proof. destruct c as [[] [] [] [] [] [] [] []]; reflexivity. Qed.

Lemma lower_char_slash (c : ascii) :
  Ascii.eqb (Py.lower_char c) "/" = Ascii.eqb c "/".
Proof. destruct c as [[] [] [] [] [] [] [] []]; reflexivity. Qed.

Lemma lower_fixed (s : string) : Py.lower (Py.lower s) = Py.lower s.
Proof.
  unfold Py.lower. rewrite map_chars_compose.
  apply map_chars_ext, lower_char_fixed.
Qed.

Lemma lower_truthy (s : string) : Py.truthy (Py.lower s) = Py.truthy s.
Proof. destruct s; reflexivity. Qed.

Lemma split_on_lower (s : string) :
  Py.split_on "/" (Py.lower s) = map Py.lower (Py.split_on "/" s).
Proof.
  induction s as [|c r IH]; [reflexivity|].
  change (Py.lower (String c r)) with (String (Py.lower_char c) (Py.lower r)).
  cbn [Py.split_on]. rewrite lower_char_slash, IH.
  destruct (Ascii.eqb c "/"); [reflexivity|].
  destruct (Py.split_on "/" r); reflexivity.
Qed.

Lemma navigate_lower env parts : forall folder w,
  navigate env folder (map Py.lower parts) w = navigate env folder parts w.
Proof.
  induction parts as [|part rest IH]; intros folder w; [reflexivity|].
  cbn [map navigate]. rewrite lower_truthy, lower_fixed.
  destruct (negb (Py.truthy part)); [apply IH|].
  apply bind_ext. intros next w1. apply IH.
Qed.

Lemma get_folder_by_path_lower env path w :
  get_folder_by_path env (Py.lower path) w = get_folder_by_path env path w.
Proof.
  unfold get_folder_by_path. rewrite lower_truthy, split_on_lower.
  destruct (negb (Py.truthy path)); [reflexivity|].
  assert (Hhd : Py.lower (hd "" (map Py.lower (Py.split_on "/" path)))
                = Py.lower (hd "" (Py.split_on "/" path))).
  { destruct (Py.split_on "/" path); simpl; [reflexivity|apply lower_fixed]. }
  rewrite Hhd.
  assert (Htl : tl (map Py.lower (Py.split_on "/" path))
                = map Py.lower (tl (Py.split_on "/" path))).
  { destruct (Py.split_on "/" path); reflexivity. }
  rewrite Htl.
  destruct (in_list _ _); [|destruct (in_list _ _)];
    apply bind_ext; intros [folder|] w1; try reflexivity; apply navigate_lower.
Qed.

Lemma split_on_not_nil (s : string) : Py.split_on "/" s <> [].
Proof.
  destruct s as [|c r]; [discriminate|]. cbn [Py.split_on].
  destruct (Ascii.eqb c "/"); [discriminate|].
  destruct (Py.split_on "/" r); discriminate.
Qed.

Lemma split_on_trailing (s : string) :
  Py.split_on "/" (s ++ "/") = Py.split_on "/" s ++ [""].
Proof.
  induction s as [|c r IH]; [reflexivity|].
  cbn [append Py.split_on]. rewrite IH.
  destruct (Ascii.eqb c "/"); [reflexivity|].
  pose proof (split_on_not_nil r) as Hnn.
  destruct (Py.split_on "/" r); [congruence|reflexivity].
Qed.

Lemma navigate_trailing env parts : forall folder w,
  navigate env folder (parts ++ [""]) w = navigate env folder parts w.
Proof.
  induction parts as [|part rest IH]; intros folder w; [reflexivity|].
  cbn [app navigate].
  destruct (negb (Py.truthy part)); [apply IH|].
  apply bind_ext. intros next w1. apply IH.
Qed.

(** X8: a folder path is read without regard to case and to a slash at
    its end: two paths that differ in the case of their letters only
    resolve alike, and so do a path that is not empty and the same path
    followed by a slash. *)
Theorem get_folder_by_path_ignores_case_and_trailing_slash :
  forall env w,
    (forall path1 path2,
        Py.lower path1 = Py.lower path2 ->
        get_folder_by_path env path1 w = get_folder_by_path env path2 w)
    /\ (forall path,
           path <> "" ->
           get_folder_by_path env (path ++ "/") w
           = get_folder_by_path env path w).
Proof.
  intros env w. split.
  - intros p1 p2 H.
    rewrite <- (get_folder_by_path_lower env p1),
            <- (get_folder_by_path_lower env p2), H. reflexivity.
  - intros path Hne. unfold get_folder_by_path.
    destruct path as [|c r]; [congruence|].
    cbn [append Py.truthy negb].
    change (String c (r ++ "/"))%string with (String c r ++ "/")%string.
    rewrite split_on_trailing.
    pose proof (split_on_not_nil (String c r)) as Hnn.
    destruct (Py.split_on "/" (String c r)) as [|h t]; [congruence|].
    cbn [app hd tl].
    destruct (in_list _ _); [|destruct (in_list _ _)];
      apply bind_ext; intros [folder|] w1; try reflexivity;
      try apply navigate_trailing;
      apply (navigate_trailing env (h :: t)).
Qed.

Lemma get_folder_by_path_ignores_case_and_trailing_slash_witness :
  Py.lower "SKRZYNKA ODBIORCZA/faktury" = Py.lower "Skrzynka odbiorcza/Faktury"
  /\ "Skrzynka odbiorcza/Faktury" <> ""
  /\ get_folder_by_path (quiet_env example_account)
       "SKRZYNKA ODBIORCZA/faktury" world0
     = get_folder_by_path (quiet_env example_account)
         "Skrzynka odbiorcza/Faktury" world0
  /\ get_folder_by_path (quiet_env example_account)
       "Skrzynka odbiorcza/Faktury/" world0
     = get_folder_by_path (quiet_env example_account)
         "Skrzynka odbiorcza/Faktury" world0.
Proof.
  assert (H1 : Py.lower "SKRZYNKA ODBIORCZA/faktury"
               = Py.lower "Skrzynka odbiorcza/Faktury") by reflexivity.
  assert (H2 : "Skrzynka odbiorcza/Faktury" <> "") by discriminate.
  split; [exact H1|]. split; [exact H2|].
  destruct (get_folder_by_path_ignores_case_and_trailing_slash
              (quiet_env example_account) world0) as [Hcase Hslash].
  split.
  - exact (Hcase _ _ H1).
  - exact (Hslash "Skrzynka odbiorcza/Faktury" H2).
Defined.

(** ** The search for the compensation message *)

Section MainSearch.

Variable env : Env.
Variable criteria : SearchCriteria.

Lemma scan_main_attachments_ok email atts : forall w r w',
  scan_main_attachments env criteria email atts w = (Ok r, w') ->
  r = option_map (pair email) (find (main_attachment_ok criteria) atts)
  /\ requests w' = requests w /\ trace w' = trace w.
Proof.
  induction atts as [|a rest IH]; intros w r w' H;
    cbn [scan_main_attachments] in H.
  - inversion H; subst. auto.
  - revert H. step_check env w; [discriminate|].
    cbn [find]. unfold main_attachment_ok at 1.
    destruct (is_file a && _ a _).
    + intros H; inversion H; subst. auto.
    + intros H. apply IH in H. exact H.
Qed.

Lemma scan_main_attachments_raises email atts : forall w e w',
  scan_main_attachments env criteria email atts w = (Raise e, w') ->
  e = OperationCancelledError /\ requests w' = requests w /\ trace w' = trace w.
Proof.
  induction atts as [|a rest IH]; intros w e w' H;
    cbn [scan_main_attachments] in H.
  - inversion H.
  - revert H. step_check env w.
    + intros H; inversion H; subst. auto.
    + destruct (is_file a && _ a _); [discriminate|].
      intros H. apply IH in H. exact H.
Qed.

Lemma scan_main_emails_ok emails : forall w r w',
  scan_main_emails env criteria emails w = (Ok r, w') ->
  r = first_compensation criteria emails
  /\ requests w' = requests w /\ trace w' = trace w.
Proof.
  induction emails as [|m rest IH]; intros w r w' H;
    cbn [scan_main_emails] in H.
  - inversion H; subst. auto.
  - revert H. step_check env w; [discriminate|].
    cbn [first_compensation]. unfold main_email_ok. cbv zeta.
    destruct (Py.truthy (subject_contains _) && negb _).
    { cbn [negb andb]. intros H. apply IH in H. exact H. }
    destruct (Py.truthy (sender_contains _) && negb _).
    { cbn [negb andb]. intros H. apply IH in H. exact H. }
    cbn [negb andb].
    destruct (attachments m) as [|a atts] eqn:Ha.
    { cbn [find]. intros H. apply IH in H. exact H. }
    unfold bind at 1.
    destruct (scan_main_attachments env criteria m (a :: atts) (poll_n 1 w))
      as [[r0|e0] w0] eqn:Hs; [|discriminate].
    apply scan_main_attachments_ok in Hs. destruct Hs as (Hr & Hq & Ht).
    simpl in Hq, Ht.
    destruct (find (main_attachment_ok criteria) (a :: atts)) as [x|];
      simpl in Hr; subst r0.
    + intros H; inversion H; subst. rewrite Hq, Ht. auto.
    + intros H. apply IH in H. rewrite Hq, Ht in H. exact H.
Qed.

Lemma scan_main_emails_raises emails : forall w e w',
  scan_main_emails env criteria emails w = (Raise e, w') ->
  e = OperationCancelledError /\ requests w' = requests w /\ trace w' = trace w.
Proof.
  induction emails as [|m rest IH]; intros w e w' H;
    cbn [scan_main_emails] in H.
  - inversion H.
  - revert H. step_check env w.
    { intros H; inversion H; subst. auto. }
    cbv zeta.
    destruct (Py.truthy (subject_contains _) && negb _).
    { intros H. apply IH in H. exact H. }
    destruct (Py.truthy (sender_contains _) && negb _).
    { intros H. apply IH in H. exact H. }
    destruct (attachments m) as [|a atts] eqn:Ha.
    { intros H. apply IH in H. exact H. }
    unfold bind at 1.
    destruct (scan_main_attachments env criteria m (a :: atts) (poll_n 1 w))
      as [[r0|e0] w0] eqn:Hs.
    + apply scan_main_attachments_ok in Hs. destruct Hs as (_ & Hq & Ht).
      simpl in Hq, Ht. destruct r0; [discriminate|].
      intros H. apply IH in H. rewrite Hq, Ht in H. exact H.
    + apply scan_main_attachments_raises in Hs. simpl in Hs.
      intros H; inversion H; subst. exact Hs.
Qed.

(** The first qualifying message of a list, and what stands before it. *)
Lemma first_compensation_some emails : forall email att,
  first_compensation criteria emails = Some (email, att) ->
  exists pre post,
    emails = pre ++ email :: post
    /\ main_email_ok criteria email = true
    /\ find (main_attachment_ok criteria) (attachments email) = Some att
    /\ forall m, In m pre ->
                 main_email_ok criteria m = true ->
                 existsb (main_attachment_ok criteria) (attachments m) = false.
Proof.
  induction emails as [|m rest IH]; intros email att H;
    cbn [first_compensation] in H; [discriminate|].
  destruct (main_email_ok criteria m) eqn:Hm.
  - destruct (find (main_attachment_ok criteria) (attachments m)) as [a|] eqn:Hf.
    + inversion H; subst. exists [], rest. repeat split; auto.
      intros m0 [].
    + destruct (IH _ _ H) as (pre & post & -> & H1 & H2 & H3).
      exists (m :: pre), post. repeat split; auto.
      intros m0 [<-|Hin] Hok; [|exact (H3 m0 Hin Hok)].
      destruct (existsb _ (attachments m)) eqn:He; [|reflexivity].
      apply existsb_exists in He. destruct He as (x & Hx & Hq).
      rewrite (find_none _ _ Hf x Hx) in Hq. discriminate.
  - destruct (IH _ _ H) as (pre & post & -> & H1 & H2 & H3).
    exists (m :: pre), post. repeat split; auto.
    intros m0 [<-|Hin] Hok; [congruence|exact (H3 m0 Hin Hok)].
Qed.

Lemma first_compensation_none emails :
  first_compensation criteria emails = None ->
  forall m, In m emails ->
            main_email_ok criteria m = true ->
            existsb (main_attachment_ok criteria) (attachments m) = false.
Proof.
  induction emails as [|m rest IH]; intros H m0 Hin Hok; [destruct Hin|].
  cbn [first_compensation] in H.
  destruct Hin as [<-|Hin].
  - rewrite Hok in H.
    destruct (find (main_attachment_ok criteria) (attachments m)) eqn:Hf;
      [discriminate|].
    destruct (existsb _ (attachments m)) eqn:He; [|reflexivity].
    apply existsb_exists in He. destruct He as (x & Hx & Hq).
    rewrite (find_none _ _ Hf x Hx) in Hq. discriminate.
  - apply IH; auto.
    destruct (main_email_ok criteria m); [|exact H].
    destruct (find _ (attachments m)); [discriminate|exact H].
Qed.

(** The run of [find_compensation_email], step by step. *)
Lemma find_compensation_email_ok w r w' :
  find_compensation_email env criteria w = (Ok r, w') ->
  exists folder w1,
    stop_event env (polls w) = false
    /\ get_folder_by_path env (main_folder_path (main_email criteria))
         (poll_n 1 w) = (Ok folder, w1)
    /\ trace w' = trace w
    /\ ((store_fails env (requests w1) = true /\ r = None)
        \/ (store_fails env (requests w1) = false
            /\ r = first_compensation criteria
                     (order_by_newest
                        (filter (main_filter criteria
                                   (now env - days (months_back_compensation criteria * 31))
                                   (now env))
                                (folder_items folder))))).
Proof.
  unfold find_compensation_email.
  step_check env w; [discriminate|].
  unfold bind at 1.
  destruct (get_folder_by_path env _ (poll_n 1 w)) as [[folder|x] w1] eqn:Hg;
    [|discriminate].
  destruct (get_folder_by_path_outcome env _ _ _ _ Hg) as (_ & Htr & _).
  cbv zeta. unfold bind at 1.
  destruct (window_start (now env) (months_back_compensation criteria))
    as [start|x] eqn:Hw; [|discriminate].
  apply window_start_ok in Hw. subst start. unfold lift at 1, ret at 1.
  unfold catch, bind at 1. rewrite store_request_eq.
  intros H. exists folder, w1. split; [reflexivity|]. split; [reflexivity|].
  destruct (store_fails env (requests w1)).
  - cbn [is_cancelled] in H. inversion H; subst. split; [exact Htr|].
    left. auto.
  - destruct (scan_main_emails env criteria _ (requested w1))
      as [[r0|e0] w2] eqn:Hs.
    + inversion H; subst. apply scan_main_emails_ok in Hs.
      destruct Hs as (Hr & _ & Ht). split; [rewrite Ht; exact Htr|].
      right. auto.
    + apply scan_main_emails_raises in Hs. destruct Hs as (-> & _ & _).
      discriminate.
Qed.

(** A search that returns has computed its window. *)
Lemma find_compensation_email_window w r w' :
  find_compensation_email env criteria w = (Ok r, w') ->
  window_start (now env) (months_back_compensation criteria)
  = Ok (now env - days (months_back_compensation criteria * 31))%Z.
Proof.
  unfold find_compensation_email.
  step_check env w; [discriminate|].
  unfold bind at 1.
  destruct (get_folder_by_path env _ (poll_n 1 w)) as [[folder|x] w1];
    [|discriminate].
  cbv zeta. unfold bind at 1.
  destruct (window_start (now env) (months_back_compensation criteria))
    as [start|x] eqn:Hw; [|discriminate].
  apply window_start_ok in Hw. subst start. reflexivity.
Qed.

(** The exceptions of [find_compensation_email] and where each comes
    from. *)
Lemma find_compensation_email_raises w x w' :
  find_compensation_email env criteria w = (Raise x, w') ->
  (x = OperationCancelledError
   \/ x = FolderNotFoundError
   \/ (x = StoreError /\ fetch_fails env (requests w) = true)
   \/ (x = OverflowError
       /\ window_start (now env) (months_back_compensation criteria)
          = Raise OverflowError))
  /\ trace w' = trace w.
Proof.
  unfold find_compensation_email.
  step_check env w.
  { intros H; inversion H; subst. auto. }
  unfold bind at 1.
  destruct (get_folder_by_path env _ (poll_n 1 w)) as [[folder|y] w1] eqn:Hg.
  - destruct (get_folder_by_path_outcome env _ _ _ _ Hg) as (_ & Htr & _).
    cbv zeta. unfold bind at 1.
    destruct (window_start (now env) (months_back_compensation criteria))
      as [start|y] eqn:Hw.
    + unfold lift at 1, ret at 1.
      unfold catch, bind at 1. rewrite store_request_eq.
      destruct (store_fails env (requests w1)); [discriminate|].
      destruct (scan_main_emails env criteria _ (requested w1))
        as [[r0|e0] w2] eqn:Hs; [discriminate|].
      apply scan_main_emails_raises in Hs. destruct Hs as (-> & _ & Ht).
      cbn [is_cancelled]. intros H; inversion H; subst.
      split; [auto|]. rewrite Ht. exact Htr.
    + pose proof (window_start_raises _ _ _ Hw) as ->.
      unfold lift at 1, raise at 1.
      intros H; inversion H; subst. split; [|exact Htr].
      right. right. right. auto.
  - destruct (get_folder_by_path_outcome env _ _ _ _ Hg) as (_ & Htr & Hx).
    intros H; inversion H; subst. split; [|exact Htr].
    destruct (Hx x eq_refl) as [->|(-> & Hf & _)]; [auto|].
    right. right. left. split; [reflexivity|exact Hf].
Qed.

End MainSearch.

Lemma sorted_split_newer (pre post : list Message) (x m : Message) :
  StronglySorted newer_or_same (pre ++ x :: post) ->
  In m (x :: post) -> newer_or_same x m.
Proof.
  induction pre as [|p pre IH]; cbn [app]; intros Hs Hin.
  - destruct Hin as [<-|Hin]; [unfold newer_or_same; lia|].
    inversion Hs as [|? ? _ Hall]; subst.
    rewrite Forall_forall in Hall. exact (Hall m Hin).
  - inversion Hs; subst. apply IH; assumption.
Qed.

(** X9: the message and the attachment that [find_compensation_email]
    returns satisfy every criterion of the search: the message lies in
    the folder of the criteria, was received in the window of
    [months_back_compensation * 31] days before now, has attachments and
    is unread where the criteria ask for it, contains the subject and
    sender texts of the criteria without regard to case, and the
    attachment is the first file attachment of the message that matches
    the attachment criteria.  No qualifying message of the folder is
    newer. *)
Theorem find_compensation_email_sound :
  forall env criteria w email att w',
    find_compensation_email env criteria w = (Ok (Some (email, att)), w') ->
    exists folder w1,
      get_folder_by_path env (main_folder_path (main_email criteria))
        (poll_n 1 w) = (Ok folder, w1)
      /\ In email (folder_items folder)
      /\ (now env - days (months_back_compensation criteria * 31)
          <= datetime_received email < now env)%Z
      /\ (require_attachments (main_email criteria) = true ->
          has_attachments email = true)
      /\ (only_unread (main_email criteria) = true -> is_read email = false)
      /\ (subject_contains (main_email criteria) <> "" ->
          Py.contains (Py.lower (subject_contains (main_email criteria)))
                      (Py.lower (subject email)) = true)
      /\ (sender_contains (main_email criteria) <> "" ->
          Py.contains (Py.lower (sender_contains (main_email criteria)))
                      (Py.lower (sender email)) = true)
      /\ find (main_attachment_ok criteria) (attachments email) = Some att
      /\ In att (attachments email)
      /\ is_file att = true
      /\ _attachment_matches_criteria att (main_attachment criteria) = true
      /\ (forall m,
             In m (folder_items folder) ->
             main_filter criteria
               (now env - days (months_back_compensation criteria * 31))
               (now env) m = true ->
             main_email_ok criteria m = true ->
             existsb (main_attachment_ok criteria) (attachments m) = true ->
             (datetime_received m <= datetime_received email)%Z).
Proof.
  intros env criteria w email att w' H.
  apply find_compensation_email_ok in H.
  destruct H as (folder & w1 & _ & Hg & _ & [[_ Hr]|[_ Hr]]); [discriminate|].
  exists folder, w1. split; [exact Hg|].
  symmetry in Hr. apply first_compensation_some in Hr.
  destruct Hr as (pre & post & Hl & Hok & Hf & Hpre).
  assert (Hin : In email (order_by_newest
                            (filter (main_filter criteria
                               (now env - days (months_back_compensation criteria * 31))
                               (now env)) (folder_items folder)))).
  { rewrite Hl. apply in_or_app. right. left. reflexivity. }
  apply order_by_newest_in, filter_In in Hin. destruct Hin as (Hin & Hflt).
  unfold main_filter, in_window in Hflt.
  rewrite !andb_true_iff, Z.leb_le, Z.ltb_lt in Hflt.
  destruct Hflt as (((Hlo & Hhi) & Hatt) & Hunread).
  unfold main_email_ok in Hok. cbv zeta in Hok.
  rewrite andb_true_iff, !negb_true_iff, !andb_false_iff, !negb_false_iff in Hok.
  destruct Hok as (Hsub & Hsnd).
  destruct (find_some _ _ Hf) as (Hain & Haq).
  unfold main_attachment_ok in Haq. apply andb_true_iff in Haq.
  destruct Haq as (Hfile & Hmatch).
  split; [exact Hin|]. split; [lia|].
  split. { intros Hreq. rewrite Hreq in Hatt. exact Hatt. }
  split. { intros Hun. rewrite Hun in Hunread.
           apply negb_true_iff in Hunread. exact Hunread. }
  split. { intros Hne. destruct Hsub as [Hs|Hs]; [|exact Hs].
           destruct (subject_contains (main_email criteria));
             [congruence|discriminate]. }
  split. { intros Hne. destruct Hsnd as [Hs|Hs]; [|exact Hs].
           destruct (sender_contains (main_email criteria));
             [congruence|discriminate]. }
  split; [exact Hf|]. split; [exact Hain|]. split; [exact Hfile|].
  split; [exact Hmatch|].
  intros m Hm Hmf Hmok Hmq.
  assert (Hml : In m (pre ++ email :: post)).
  { rewrite <- Hl. apply order_by_newest_in, filter_In. auto. }
  apply in_app_or in Hml. destruct Hml as [Hml|Hml].
  - rewrite (Hpre m Hml Hmok) in Hmq. discriminate.
  - apply (sorted_split_newer pre post email m); [|exact Hml].
    rewrite <- Hl. apply order_by_newest_sorted.
Qed.

Lemma find_compensation_email_sound_witness :
  find_compensation_email (quiet_env example_account) default_criteria world0
  = (Ok (Some (compensation_message,
               FileAttachment "Kompensata_05.pdf" "FV-1")),
     snd (find_compensation_email (quiet_env example_account)
            default_criteria world0))
  /\ exists folder,
       In compensation_message (folder_items folder)
       /\ is_read compensation_message = false.
Proof.
  assert (H : find_compensation_email (quiet_env example_account)
                default_criteria world0
              = (Ok (Some (compensation_message,
                           FileAttachment "Kompensata_05.pdf" "FV-1")),
                 snd (find_compensation_email (quiet_env example_account)
                        default_criteria world0))) by reflexivity.
  split; [exact H|].
  destruct (find_compensation_email_sound _ _ _ _ _ _ H)
    as (folder & w1 & _ & Hin & _ & _ & Hun & _).
  exists folder. split; [exact Hin|]. apply Hun. reflexivity.
Defined.

(** X10: [find_compensation_email] writes nothing to the store.  Four
    exceptions can leave it, all raised before its [try]:
    [OperationCancelledError]; [FolderNotFoundError]; the error of the
    server, only when the read of the well-known folder fails; and
    [OverflowError], only when the start of the window cannot be
    computed (more than 999999999 days back, or an instant before the
    year 1).  When the folder is found, a window that cannot be computed
    raises [OverflowError]; with the window computed, a failure of the
    store on the query for the messages gives no message instead of an
    exception. *)
Theorem find_compensation_email_errors :
  forall env criteria w r w',
    find_compensation_email env criteria w = (r, w') ->
    trace w' = trace w
    /\ (forall x, r = Raise x ->
          x = OperationCancelledError
          \/ x = FolderNotFoundError
          \/ (x = StoreError /\ fetch_fails env (requests w) = true)
          \/ (x = OverflowError
              /\ window_start (now env) (months_back_compensation criteria)
                 = Raise OverflowError))
    /\ (forall folder w1,
           stop_event env (polls w) = false ->
           get_folder_by_path env (main_folder_path (main_email criteria))
             (poll_n 1 w) = (Ok folder, w1) ->
           (window_start (now env) (months_back_compensation criteria)
            = Raise OverflowError ->
            r = Raise OverflowError /\ w' = w1)
           /\ (forall start,
                  window_start (now env) (months_back_compensation criteria)
                  = Ok start ->
                  store_fails env (requests w1) = true ->
                  r = Ok None)).
Proof.
  intros env criteria w r w' H. split; [|split].
  - destruct r as [r|x].
    + apply find_compensation_email_ok in H.
      destruct H as (_ & _ & _ & _ & Ht & _). exact Ht.
    + apply find_compensation_email_raises in H. apply H.
  - intros x ->. apply find_compensation_email_raises in H. apply H.
  - intros folder w1 Hstop Hg. revert H.
    unfold find_compensation_email.
    unfold bind at 1. rewrite check_cancelled_eq, Hstop.
    unfold bind at 1. rewrite Hg. cbv zeta. unfold bind at 1.
    intros H. split.
    + intros Hw. rewrite Hw in H. unfold lift, raise in H.
      inversion H; auto.
    + intros start Hw Hfail. rewrite Hw in H.
      unfold lift at 1, ret at 1 in H.
      unfold catch, bind at 1 in H. rewrite store_request_eq, Hfail in H.
      cbn [is_cancelled] in H. inversion H; reflexivity.
Qed.

Lemma find_compensation_email_errors_witness :
  find_compensation_email (failing_at 1 example_account) default_criteria world0
  = (Ok None, snd (find_compensation_email (failing_at 1 example_account)
                     default_criteria world0))
  /\ trace (snd (find_compensation_email (failing_at 1 example_account)
                   default_criteria world0)) = trace world0.
Proof.
  assert (H : find_compensation_email (failing_at 1 example_account)
                default_criteria world0
              = (Ok None,
                 snd (find_compensation_email (failing_at 1 example_account)
                        default_criteria world0))) by reflexivity.
  split; [exact H|].
  exact (proj1 (find_compensation_email_errors _ _ _ _ _ H)).
Defined.

(** ** What the batch search returns *)

Lemma results_from_in env folder s e ext (a : Attachment) ids : forall req,
  In (Some a) (results_from env folder s e ext req ids) ->
  exists i, In i ids /\
            find (attachment_matches (search_fragment i) ext)
                 (candidates folder s e) = Some a.
Proof.
  induction ids as [|i rest IH]; intros req H; cbn [results_from] in H.
  - destruct H.
  - destruct H as [H|H].
    + destruct (store_fails env req); [discriminate|].
      exists i. split; [left; reflexivity|exact H].
    + destruct (IH _ H) as (j & Hj & Hf). exists j. split; [right|]; auto.
Qed.

Lemma find_related_invoices_raises env ids ref criteria w x w' :
  find_related_invoices env ids ref criteria w = (Raise x, w') ->
  (x = OperationCancelledError
   \/ x = FolderNotFoundError
   \/ (x = StoreError /\ fetch_fails env (requests w) = true)
   \/ (x = OverflowError
       /\ invoice_window_overflows ref (months_back_invoices criteria)))
  /\ trace w' = trace w.
Proof.
  unfold find_related_invoices. step_check env w.
  { intros H; inversion H; subst. auto. }
  destruct ids as [|i rest]; [discriminate|].
  unfold bind at 1.
  destruct (get_folder_by_path env _ (poll_n 1 w)) as [[folder|y] w1] eqn:Hg.
  - destruct (get_folder_by_path_outcome env _ _ _ _ Hg) as (_ & Htr & _).
    unfold bind at 1.
    destruct (datetime_plus ref (days 2)) as [e|y] eqn:He.
    + unfold lift at 1, ret at 1. unfold bind at 1.
      destruct (window_start ref (months_back_invoices criteria))
        as [s|y] eqn:Hs.
      * unfold lift at 1, ret at 1.
        intros H. apply find_related_loop_raises in H.
        destruct H as (-> & Ht). split; [auto|]. rewrite Ht. exact Htr.
      * pose proof (window_start_raises _ _ _ Hs) as ->.
        unfold lift at 1, raise at 1.
        intros H; inversion H; subst. split; [|exact Htr].
        right. right. right. split; [reflexivity|]. right. exact Hs.
    + pose proof (datetime_plus_raises _ _ _ He) as ->.
      unfold lift at 1, raise at 1.
      intros H; inversion H; subst. split; [|exact Htr].
      right. right. right. split; [reflexivity|]. left. exact He.
  - destruct (get_folder_by_path_outcome env _ _ _ _ Hg) as (_ & Htr & Hx).
    intros H; inversion H; subst. split; [|exact Htr].
    destruct (Hx x eq_refl) as [->|(-> & Hf & _)]; [auto|].
    right. right. left. split; [reflexivity|exact Hf].
Qed.

(** X11: every attachment that [find_related_invoices] returns is a file
    attachment of a message of the invoice folder that has attachments
    and was received in the window from [months_back_invoices * 31] days
    before the reference date to two days after it; its lowercased name
    ends with "." and the lowercased extension of the criteria and
    contains the fragment of one of the extracted identifiers. *)
Theorem found_invoices_are_matches :
  forall env extracted reference_date criteria w found w',
    find_related_invoices env extracted reference_date criteria w
    = (Ok found, w') ->
    forall a, In a found ->
      is_file a = true
      /\ Py.endswith (Py.lower (att_name a))
           ("." ++ Py.lower (file_extension (related_emails criteria))) = true
      /\ (exists invoice_number,
             In invoice_number extracted
             /\ Py.contains (search_fragment invoice_number)
                            (Py.lower (att_name a)) = true)
      /\ exists folder w1 m,
           get_folder_by_path env (folder_path (related_emails criteria))
             (poll_n 1 w) = (Ok folder, w1)
           /\ In m (folder_items folder)
           /\ has_attachments m = true
           /\ (reference_date - days (months_back_invoices criteria * 31)
               <= datetime_received m < reference_date + days 2)%Z
           /\ In a (attachments m).
Proof.
  intros env ids ref criteria w found w' H a Ha.
  apply find_related_invoices_ok in H.
  destruct H as [(_ & -> & _)|(_ & folder & w1 & Hg & Hloop)]; [destruct Ha|].
  apply find_related_loop_ok in Hloop. destruct Hloop as (-> & _ & _).
  cbn [app] in Ha. apply somes_in, results_from_in in Ha.
  destruct Ha as (i & Hi & Hf).
  apply find_some in Hf. destruct Hf as (Hc & Hm).
  apply attachment_matches_iff in Hm. destruct Hm as (Hfile & Hend & Hcont).
  unfold candidates in Hc. apply in_flat_map in Hc.
  destruct Hc as (m & Hm & Hin). apply invoice_emails_in in Hm.
  destruct Hm as (Hitem & Hatt & Hwin).
  split; [exact Hfile|]. split; [exact Hend|]. split.
  - exists i. auto.
  - exists folder, w1, m. auto.
Qed.

Lemma found_invoices_are_matches_witness :
  find_related_invoices
    (quiet_env (account_with [folder_with ["fv-1.pdf"; "fv-2.pdf"]]))
    ["FV-1"; "FV-2"; "FV-3"] 0 default_criteria world0
  = (Ok [FileAttachment "fv-1.pdf" ""; FileAttachment "fv-2.pdf" ""],
     snd (find_related_invoices
            (quiet_env (account_with [folder_with ["fv-1.pdf"; "fv-2.pdf"]]))
            ["FV-1"; "FV-2"; "FV-3"] 0 default_criteria world0))
  /\ exists invoice_number,
       In invoice_number ["FV-1"; "FV-2"; "FV-3"]
       /\ Py.contains (search_fragment invoice_number) "fv-2.pdf" = true.
Proof.
  assert (H : find_related_invoices
                (quiet_env (account_with [folder_with ["fv-1.pdf"; "fv-2.pdf"]]))
                ["FV-1"; "FV-2"; "FV-3"] 0 default_criteria world0
              = (Ok [FileAttachment "fv-1.pdf" ""; FileAttachment "fv-2.pdf" ""],
                 snd (find_related_invoices
                        (quiet_env (account_with
                                      [folder_with ["fv-1.pdf"; "fv-2.pdf"]]))
                        ["FV-1"; "FV-2"; "FV-3"] 0 default_criteria world0)))
    by reflexivity.
  split; [exact H|].
  destruct (found_invoices_are_matches _ _ _ _ _ _ _ H
              (FileAttachment "fv-2.pdf" "") (or_intror (or_introl eq_refl)))
    as (_ & _ & Hex & _).
  exact Hex.
Defined.

(** X12: [find_related_invoices] writes nothing to the store.  Four
    exceptions can leave it: [OperationCancelledError];
    [FolderNotFoundError]; the error of the server, only when the read
    of the well-known folder fails; and [OverflowError], only when the
    window cannot be computed.  A failure of the store during the
    navigation or during a search never leaves it.  For an empty list of
    identifiers it returns the empty list without resolving the folder
    or any other request to the store; and once the folder is resolved,
    a window that cannot be computed raises [OverflowError] before any
    search. *)
Theorem find_related_invoices_errors :
  forall env extracted reference_date criteria w r w',
    find_related_invoices env extracted reference_date criteria w = (r, w') ->
    trace w' = trace w
    /\ (forall x, r = Raise x ->
          x = OperationCancelledError
          \/ x = FolderNotFoundError
          \/ (x = StoreError /\ fetch_fails env (requests w) = true)
          \/ (x = OverflowError
              /\ invoice_window_overflows reference_date
                   (months_back_invoices criteria)))
    /\ (extracted = [] -> stop_event env (polls w) = false ->
        r = Ok [] /\ w' = poll_n 1 w)
    /\ (forall folder w1,
           extracted <> [] ->
           stop_event env (polls w) = false ->
           get_folder_by_path env (folder_path (related_emails criteria))
             (poll_n 1 w) = (Ok folder, w1) ->
           invoice_window_overflows reference_date
             (months_back_invoices criteria) ->
           r = Raise OverflowError /\ w' = w1).
Proof.
  intros env ids ref criteria w r w' H. split; [|split; [|split]].
  - destruct r as [found|x].
    + apply find_related_invoices_ok in H.
      destruct H as [(_ & _ & Ht)|(_ & folder & w1 & Hg & Hloop)];
        [exact Ht|].
      destruct (get_folder_by_path_outcome env _ _ _ _ Hg) as (_ & Htr & _).
      apply find_related_loop_ok in Hloop. destruct Hloop as (_ & _ & Ht).
      rewrite Ht. exact Htr.
    + apply find_related_invoices_raises in H. apply H.
  - intros x ->. apply find_related_invoices_raises in H. apply H.
  - intros -> Hstop. revert H. unfold find_related_invoices.
    unfold bind at 1. rewrite check_cancelled_eq, Hstop.
    intros H; inversion H; subst. auto.
  - intros folder w1 Hne Hstop Hg Hover. revert H.
    unfold find_related_invoices.
    unfold bind at 1. rewrite check_cancelled_eq, Hstop.
    destruct ids as [|i rest]; [congruence|].
    rewrite (bind_ok _ _ _ _ _ Hg). unfold bind at 1.
    destruct (datetime_plus ref (days 2)) as [e|y] eqn:He.
    + destruct Hover as [Hover|Hover]; [congruence|].
      unfold lift at 1, ret at 1. unfold bind at 1. rewrite Hover.
      intros H; inversion H; auto.
    + pose proof (datetime_plus_raises _ _ _ He) as ->.
      intros H; inversion H; auto.
Qed.

Lemma find_related_invoices_errors_witness :
  find_related_invoices (failing_at 1 (account_with [folder_with ["fv-1.pdf"]]))
    ["FV-1"] 0 default_criteria world0
  = (Ok [], snd (find_related_invoices
                   (failing_at 1 (account_with [folder_with ["fv-1.pdf"]]))
                   ["FV-1"] 0 default_criteria world0))
  /\ trace (snd (find_related_invoices
                   (failing_at 1 (account_with [folder_with ["fv-1.pdf"]]))
                   ["FV-1"] 0 default_criteria world0)) = trace world0.
Proof.
  assert (H : find_related_invoices
                (failing_at 1 (account_with [folder_with ["fv-1.pdf"]]))
                ["FV-1"] 0 default_criteria world0
              = (Ok [], snd (find_related_invoices
                   (failing_at 1 (account_with [folder_with ["fv-1.pdf"]]))
                   ["FV-1"] 0 default_criteria world0))) by reflexivity.
  split; [exact H|].
  exact (proj1 (find_related_invoices_errors _ _ _ _ _ _ _ H)).
Defined.

(** ** Writes to the store *)

Lemma store_write_eq env op (w : World) :
  store_write env op w =
  if store_fails env (requests w) then (Raise StoreError, requested w)
  else (Ok tt, {| polls := polls w; requests := S (requests w);
                  trace := trace w ++ [op] |}).
Proof.
  unfold store_write, bind. rewrite store_request_eq.
  destruct (store_fails env (requests w)); reflexivity.
Qed.

Section StoreOps.

Variable env : Env.

(** [send_email] never raises: it returns [True] when the one send went
    through and [False] with nothing written otherwise. *)
Lemma send_email_outcome recipients subj body atts w r w' :
  send_email env recipients subj body atts w = (r, w') ->
  polls w' = polls w /\
  ((r = Ok true /\ recipients <> []
    /\ trace w' = trace w ++ [OpSend recipients subj body atts])
   \/ (r = Ok false /\ trace w' = trace w)).
Proof.
  unfold send_email. destruct recipients as [|a l].
  - intros H; inversion H; subst. auto.
  - unfold catch, bind. rewrite store_write_eq.
    destruct (store_fails env (requests w)); intros H; inversion H; subst;
      split; try reflexivity.
    + right. auto.
    + left. split; [reflexivity|]. split; [discriminate|reflexivity].
Qed.

Lemma mark_as_read_outcome email w r w' :
  mark_as_read env email w = (r, w') ->
  polls w' = polls w /\
  exists b, r = Ok b /\
    (trace w' = trace w
     \/ (is_read email = false /\ b = true
         /\ trace w' = trace w ++ [OpMarkRead (item_id email)])).
Proof.
  unfold mark_as_read, catch, bind. destruct (is_read email).
  - intros H; inversion H; subst. split; [reflexivity|]. exists true. auto.
  - rewrite store_write_eq.
    destruct (store_fails env (requests w)); intros H; inversion H; subst;
      (split; [reflexivity|]).
    + exists false. auto.
    + exists true. split; [reflexivity|]. right. auto.
Qed.

Lemma move_email_outcome email destination w r w' :
  move_email env email destination w = (r, w') ->
  polls w' = polls w /\
  ((r = Ok true
    /\ trace w' = trace w ++ [OpMove (item_id email) destination])
   \/ (r = Ok false /\ trace w' = trace w)).
Proof.
  unfold move_email, catch. unfold bind at 1.
  destruct (get_folder_by_path env destination w) as [[folder|x] w1] eqn:Hg;
    destruct (get_folder_by_path_outcome env _ _ _ _ Hg) as (Hp & Ht & _).
  - unfold bind. rewrite store_write_eq.
    destruct (store_fails env (requests w1)); intros H; inversion H; subst;
      cbn [polls trace requested]; rewrite ?Hp, ?Ht; auto.
  - intros H; inversion H; subst. auto.
Qed.

Variable config : AppConfig.

Lemma move_email_to_processed_folder_result email w r w' :
  move_email_to_processed_folder env config email w = (r, w') ->
  polls w' = polls w /\
  ((r = Ok true
    /\ trace w' = trace w ++ [OpMove (item_id email) (przetworzone config)])
   \/ (r = Ok false
       /\ (trace w' = trace w
           \/ (is_read email = false
               /\ trace w' = trace w ++ [OpMarkRead (item_id email)])))).
Proof.
  unfold move_email_to_processed_folder, catch. unfold bind at 1.
  destruct (move_email env email (przetworzone config) w)
    as [[b|x] w1] eqn:Hm;
    destruct (move_email_outcome _ _ _ _ _ Hm) as (Hp & [(Hr & Ht)|(Hr & Ht)]);
    try discriminate; inversion Hr; subst b.
  - intros H; inversion H; subst. auto.
  - unfold bind.
    destruct (mark_as_read env email w1) as [[b|x] w2] eqn:Hk;
      destruct (mark_as_read_outcome _ _ _ _ Hk) as (Hp2 & b' & Hb & Hcase);
      [|discriminate].
    intros H; inversion H; subst. split; [congruence|]. right.
    split; [reflexivity|].
    destruct Hcase as [Ht2|(Hread & _ & Ht2)]; rewrite Ht2, Ht; auto.
Qed.

End StoreOps.

(** X13: [move_email_to_processed_folder] never raises and never polls
    the stop event.  It returns [True] exactly when it has moved the
    message to the folder of processed messages, and this is then its
    only write; when it returns [False] it has written nothing, or has
    marked as read a message that was unread, and nothing else.  When the
    destination folder cannot be resolved, the message is unread and the
    store accepts the next request, the message is marked as read. *)
Theorem move_email_to_processed_folder_outcome :
  forall env config email w r w',
    move_email_to_processed_folder env config email w = (r, w') ->
    polls w' = polls w
    /\ ((r = Ok true
         /\ trace w' = trace w ++ [OpMove (item_id email) (przetworzone config)])
        \/ (r = Ok false
            /\ (trace w' = trace w
                \/ (is_read email = false
                    /\ trace w' = trace w ++ [OpMarkRead (item_id email)]))))
    /\ (forall x w1,
           get_folder_by_path env (przetworzone config) w = (Raise x, w1) ->
           is_read email = false ->
           store_fails env (requests w1) = false ->
           r = Ok false
           /\ trace w' = trace w ++ [OpMarkRead (item_id email)]).
Proof.
  intros env config email w r w' H.
  destruct (move_email_to_processed_folder_result _ _ _ _ _ _ H) as (Hp & Hc).
  split; [exact Hp|]. split; [exact Hc|].
  intros x w1 Hg Hread Hstore. revert H.
  destruct (get_folder_by_path_outcome env _ _ _ _ Hg) as (_ & Ht & _).
  unfold move_email_to_processed_folder, catch. unfold bind at 1.
  unfold move_email, catch. unfold bind at 1. rewrite Hg.
  unfold ret at 1. unfold bind at 1.
  unfold mark_as_read, catch. rewrite Hread. unfold bind at 1.
  rewrite store_write_eq, Hstore. unfold ret.
  intros H; inversion H; subst. cbn [trace]. rewrite Ht. auto.
Qed.

Lemma move_email_to_processed_folder_outcome_witness :
  move_email_to_processed_folder (quiet_env example_account) example_config
    compensation_message world0
  = (Ok true,
     snd (move_email_to_processed_folder (quiet_env example_account)
            example_config compensation_message world0))
  /\ polls (snd (move_email_to_processed_folder (quiet_env example_account)
                   example_config compensation_message world0)) = 0.
Proof.
  assert (H : move_email_to_processed_folder (quiet_env example_account)
                example_config compensation_message world0
              = (Ok true,
                 snd (move_email_to_processed_folder
                        (quiet_env example_account) example_config
                        compensation_message world0))) by reflexivity.
  split; [exact H|].
  exact (proj1 (move_email_to_processed_folder_outcome _ _ _ _ _ _ H)).
Defined.

(** ** The email to accounting *)

Section Accounting.

Variable env : Env.

Let lname (a : Attachment) : string := Py.lower (att_name a).

Lemma attach_invoices_outcome found : forall atts names w r w',
  attach_invoices env found atts names w = (r, w') ->
  requests w' = requests w /\ trace w' = trace w
  /\ forall x, r = Raise x -> x = OperationCancelledError.
Proof.
  induction found as [|a rest IH]; intros atts names w r w' H;
    cbn [attach_invoices] in H.
  - inversion H; subst. repeat split; auto. discriminate.
  - revert H. step_check env w.
    + intros H; inversion H; subst. repeat split; auto.
      intros x Hx; inversion Hx; reflexivity.
    + cbv zeta. destruct (in_list _ names); intros H; apply IH in H; exact H.
Qed.

Lemma attach_invoices_ok found : forall atts names w out w',
  attach_invoices env found atts names w = (Ok out, w') ->
  exists added,
    out = atts ++ added
    /\ Subseq added found
    /\ ((forall n, In n names <-> In n (map lname atts)) ->
        NoDup (map lname atts) ->
        NoDup (map lname out)
        /\ forall a, In a found -> In (lname a) (map lname out)).
Proof.
  induction found as [|a rest IH]; intros atts names w out w' H;
    cbn [attach_invoices] in H.
  - inversion H; subst. exists []. rewrite app_nil_r.
    split; [reflexivity|]. split; [constructor|].
    intros _ Hnd. split; [exact Hnd|]. intros a [].
  - revert H. step_check env w; [discriminate|].
    cbv zeta. fold (lname a). destruct (in_list (lname a) names) eqn:Hin.
    + intros H. apply IH in H. destruct H as (added & -> & Hsub & Hinv).
      exists added. split; [reflexivity|]. split; [now constructor|].
      intros Hnames Hnd. destruct (Hinv Hnames Hnd) as (Hnd' & Hall).
      split; [exact Hnd'|]. intros b [<-|Hb]; [|exact (Hall b Hb)].
      rewrite map_app. apply in_or_app. left.
      apply Hnames, in_list_In, Hin.
    + intros H. apply IH in H. destruct H as (added & -> & Hsub & Hinv).
      exists (a :: added). rewrite <- app_assoc. split; [reflexivity|].
      split; [now constructor|].
      intros Hnames Hnd.
      assert (Hnot : ~ In (lname a) (map lname atts)).
      { intros Hc. apply Hnames, in_list_In in Hc. congruence. }
      destruct Hinv as (Hnd' & Hall).
      * intros n. rewrite set_add_in, map_app, in_app_iff, Hnames.
        cbn [map In]. intuition congruence.
      * rewrite map_app. cbn [map].
        apply (Permutation_NoDup (Permutation_cons_append _ _)).
        constructor; assumption.
      * rewrite <- app_assoc in Hnd', Hall. cbn [app] in Hnd', Hall.
        split; [exact Hnd'|]. intros b [<-|Hb]; [|exact (Hall b Hb)].
        rewrite map_app. apply in_or_app. right. left. reflexivity.
Qed.

Variable config : AppConfig.
Variable templates : EmailTemplateCollection.

Lemma accounting_outcome pdf found extracted email w r w' :
  send_compensation_email_to_accounting env config templates
    pdf found extracted email w = (r, w') ->
  (r = Raise OperationCancelledError /\ trace w' = trace w)
  \/ (r = Ok false /\ trace w' = trace w)
  \/ (r = Ok true /\
      exists subj body atts w0 w1,
        attach_invoices env found [pdf] [lname pdf] w0 = (Ok atts, w1)
        /\ trace w' = trace w
                      ++ [OpSend (get_ksiegowa_emails config) subj body atts]).
Proof.
  unfold send_compensation_email_to_accounting.
  step_check env w.
  { intros H; inversion H; subst. auto. }
  unfold get_ksiegowa_emails at 1. cbv zeta. unfold catch.
  match goal with
  | |- context [lift ?x] => destruct x as [ft|e]
  end.
  - unfold lift, bind at 1, ret at 1. unfold bind at 1.
    destruct (attach_invoices env found [pdf] _ (poll_n 1 w))
      as [[atts|x] w1] eqn:Ha;
      destruct (attach_invoices_outcome _ _ _ _ _ _ Ha) as (_ & Ht & Hx).
    + destruct (send_email env _ (tpl_subject ft) (tpl_body ft) atts w1)
        as [r0 w2] eqn:Hs.
      destruct (send_email_outcome _ _ _ _ _ _ _ _ Hs)
        as (_ & [(-> & _ & Ht2)|(-> & Ht2)]).
      * intros H; inversion H; subst. right. right. split; [reflexivity|].
        exists (tpl_subject ft), (tpl_body ft), atts, (poll_n 1 w), w1.
        split; [exact Ha|]. rewrite Ht2, Ht. reflexivity.
      * intros H; inversion H; subst. right. left. rewrite Ht2, Ht. auto.
    + rewrite (Hx x eq_refl). cbn [is_cancelled].
      intros H; inversion H; subst. left. auto.
  - unfold lift, bind at 1, raise at 1.
    destruct e; cbn [is_cancelled]; intros H; inversion H; subst; auto.
Qed.

End Accounting.

(** X14: when [send_compensation_email_to_accounting] returns [True] it
    has written exactly one send, addressed to the accounting addresses
    of the configuration; its attachments are the compensation PDF
    followed by found invoices in the order they were found, no two
    attachments have the same lowercased name, and the lowercased name of
    every found invoice is the name of an attachment.  When it returns
    [False] it has written nothing, and the only exception that leaves
    it is [OperationCancelledError], with nothing written. *)
Theorem accounting_email_attachments :
  forall env config templates original_pdf found_invoices extracted
         original_email w r w',
    send_compensation_email_to_accounting env config templates
      original_pdf found_invoices extracted original_email w = (r, w') ->
    (r = Ok true ->
     exists subj body invoices,
       trace w' = trace w
                  ++ [OpSend (get_ksiegowa_emails config) subj body
                             (original_pdf :: invoices)]
       /\ Subseq invoices found_invoices
       /\ NoDup (map (fun a => Py.lower (att_name a))
                     (original_pdf :: invoices))
       /\ forall a, In a found_invoices ->
                    In (Py.lower (att_name a))
                       (map (fun a => Py.lower (att_name a))
                            (original_pdf :: invoices)))
    /\ (r = Ok false -> trace w' = trace w)
    /\ (forall x, r = Raise x ->
                  x = OperationCancelledError /\ trace w' = trace w).
Proof.
  intros env config templates pdf found extracted email w r w' H.
  apply accounting_outcome in H.
  destruct H as [(-> & Ht)|[(-> & Ht)|(-> & Hs)]].
  - split; [discriminate|]. split; [discriminate|].
    intros x Hx; inversion Hx; subst. auto.
  - split; [discriminate|]. split; [auto|]. discriminate.
  - split; [|split; discriminate]. intros _.
    destruct Hs as (subj & body & atts & w0 & w1 & Ha & Ht).
    apply attach_invoices_ok in Ha.
    destruct Ha as (added & -> & Hsub & Hinv).
    exists subj, body, added. split; [exact Ht|]. split; [exact Hsub|].
    apply Hinv.
    + intros n. cbn [map In]. tauto.
    + cbn [map]. constructor; [intros []|constructor].
Qed.

Lemma accounting_email_attachments_witness :
  send_compensation_email_to_accounting (pipeline_env 99 example_account)
    example_config example_templates
    (FileAttachment "Kompensata_05.pdf" "FV-1")
    [FileAttachment "fv-1.pdf" ""; FileAttachment "FV-1.PDF" ""]
    ["FV-1"; "FV-2"] compensation_message world0
  = (Ok true,
     snd (send_compensation_email_to_accounting
            (pipeline_env 99 example_account) example_config example_templates
            (FileAttachment "Kompensata_05.pdf" "FV-1")
            [FileAttachment "fv-1.pdf" ""; FileAttachment "FV-1.PDF" ""]
            ["FV-1"; "FV-2"] compensation_message world0))
  /\ exists subj body invoices,
       trace (snd (send_compensation_email_to_accounting
                     (pipeline_env 99 example_account) example_config
                     example_templates
                     (FileAttachment "Kompensata_05.pdf" "FV-1")
                     [FileAttachment "fv-1.pdf" ""; FileAttachment "FV-1.PDF" ""]
                     ["FV-1"; "FV-2"] compensation_message world0))
       = trace world0
         ++ [OpSend (get_ksiegowa_emails example_config) subj body
               (FileAttachment "Kompensata_05.pdf" "FV-1" :: invoices)]
       /\ Subseq invoices
            [FileAttachment "fv-1.pdf" ""; FileAttachment "FV-1.PDF" ""].
Proof.
  assert (H : send_compensation_email_to_accounting
                (pipeline_env 99 example_account)
                example_config example_templates
                (FileAttachment "Kompensata_05.pdf" "FV-1")
                [FileAttachment "fv-1.pdf" ""; FileAttachment "FV-1.PDF" ""]
                ["FV-1"; "FV-2"] compensation_message world0
              = (Ok true,
                 snd (send_compensation_email_to_accounting
                        (pipeline_env 99 example_account) example_config
                        example_templates
                        (FileAttachment "Kompensata_05.pdf" "FV-1")
                        [FileAttachment "fv-1.pdf" "";
                         FileAttachment "FV-1.PDF" ""]
                        ["FV-1"; "FV-2"] compensation_message world0)))
    by (vm_compute; reflexivity).
  split; [exact H|].
  destruct (proj1 (accounting_email_attachments _ _ _ _ _ _ _ _ _ _ H) eq_refl)
    as (subj & body & invoices & Ht & Hsub & _).
  exists subj, body, invoices. split; [exact Ht|exact Hsub].
Defined.

(** ** The notifications *)

Section Notifications.

Variable env : Env.
Variable config : AppConfig.
Variable templates : EmailTemplateCollection.

(** What a notification does, given its recipients and its rendered
    template: the common part of the two senders. *)
Lemma notify_outcome (recipients : list string) (rendered : Res EmailTemplate)
      w r w' :
  catch
    (formatted_template <- lift rendered ;;
     send_email env recipients (tpl_subject formatted_template)
                (tpl_body formatted_template) [])
    (fun e => if is_cancelled e then raise e else ret false) w = (r, w') ->
  polls w' = polls w /\
  ((r = Raise OperationCancelledError /\ trace w' = trace w)
   \/ (r = Ok false /\ trace w' = trace w)
   \/ (r = Ok true /\ recipients <> [] /\
       exists subj body,
         trace w' = trace w ++ [OpSend recipients subj body []])).
Proof.
  unfold catch. destruct rendered as [ft|e].
  - unfold lift, bind at 1, ret at 1.
    destruct (send_email env recipients (tpl_subject ft) (tpl_body ft) [] w)
      as [r0 w1] eqn:Hs.
    destruct (send_email_outcome _ _ _ _ _ _ _ _ Hs)
      as (Hp & [(-> & Hne & Ht)|(-> & Ht)]);
      intros H; inversion H; subst; (split; [exact Hp|]).
    + right. right. split; [reflexivity|]. split; [exact Hne|]. eauto.
    + right. left. auto.
  - unfold lift, bind at 1, raise at 1.
    destruct e; cbn [is_cancelled]; intros H; inversion H; subst; auto.
Qed.

Lemma missing_pdf_notification_outcome email pdf_filename w r w' :
  send_missing_pdf_notification env config templates email pdf_filename w
  = (r, w') ->
  (r = Raise OperationCancelledError /\ trace w' = trace w)
  \/ (r = Ok false /\ trace w' = trace w)
  \/ (r = Ok true /\
      get_notification_emails_for_missing_pdf config <> [] /\
      exists subj body,
        trace w' = trace w
                   ++ [OpSend (get_notification_emails_for_missing_pdf config)
                              subj body []]).
Proof.
  unfold send_missing_pdf_notification. step_check env w.
  { intros H; inversion H; subst. auto. }
  destruct (get_notification_emails_for_missing_pdf config) as [|a l].
  { intros H; inversion H; subst. auto. }
  cbv zeta. intros H. apply notify_outcome in H. apply H.
Qed.

Lemma partial_results_notification_outcome email extracted found w r w' :
  send_partial_results_notification env config templates email extracted found w
  = (r, w') ->
  (r = Raise OperationCancelledError /\ trace w' = trace w)
  \/ (r = Ok false /\ trace w' = trace w)
  \/ (r = Ok true /\
      get_notification_emails_for_partial_results config <> [] /\
      exists subj body,
        trace w' = trace w
                   ++ [OpSend (get_notification_emails_for_partial_results config)
                              subj body []]).
Proof.
  unfold send_partial_results_notification. step_check env w.
  { intros H; inversion H; subst. auto. }
  destruct (get_notification_emails_for_partial_results config) as [|a l].
  { intros H; inversion H; subst. auto. }
  cbv zeta. intros H. apply notify_outcome in H. apply H.
Qed.

End Notifications.

(** X15: each of the two notifications
    ([send_missing_pdf_notification], [send_partial_results_notification])
    either raises [OperationCancelledError], or returns [False], in both
    cases with nothing written to the store, or returns [True] after
    exactly one write: a send without attachments to its notification
    addresses, which are the addresses configured for it or, when none is
    configured, the Exchange user name alone.  Without any address and
    without a user name it returns [False]. *)
Theorem notifications_outcome :
  forall env config templates original_email w,
    (forall pdf_filename r w',
        send_missing_pdf_notification env config templates
          original_email pdf_filename w = (r, w') ->
        (r = Raise OperationCancelledError /\ trace w' = trace w)
        \/ (r = Ok false /\ trace w' = trace w)
        \/ (r = Ok true /\
            exists subj body,
              trace w' = trace w
                ++ [OpSend (match powiadomienia_brak_pdf config with
                            | [] => if_set (username config)
                            | l => l
                            end) subj body []]))
    /\ (forall extracted found_attachments r w',
           send_partial_results_notification env config templates
             original_email extracted found_attachments w = (r, w') ->
           (r = Raise OperationCancelledError /\ trace w' = trace w)
           \/ (r = Ok false /\ trace w' = trace w)
           \/ (r = Ok true /\
               exists subj body,
                 trace w' = trace w
                   ++ [OpSend (match powiadomienia_czesciowe config with
                               | [] => if_set (username config)
                               | l => l
                               end) subj body []]))
    /\ (powiadomienia_brak_pdf config = [] ->
        powiadomienia_czesciowe config = [] ->
        username config = None ->
        stop_event env (polls w) = false ->
        forall pdf_filename extracted found_attachments,
          send_missing_pdf_notification env config templates
            original_email pdf_filename w = (Ok false, poll_n 1 w)
          /\ send_partial_results_notification env config templates
               original_email extracted found_attachments w
             = (Ok false, poll_n 1 w)).
Proof.
  intros env config templates email w. split; [|split].
  - intros pdf_filename r w' H.
    apply missing_pdf_notification_outcome in H.
    destruct H as [H|[H|(Hr & _ & Hs)]]; auto.
  - intros extracted found r w' H.
    apply partial_results_notification_outcome in H.
    destruct H as [H|[H|(Hr & _ & Hs)]]; auto.
  - intros H1 H2 Hu Hstop pdf_filename extracted found.
    unfold send_missing_pdf_notification, send_partial_results_notification,
      get_notification_emails_for_missing_pdf,
      get_notification_emails_for_partial_results.
    rewrite H1, H2, Hu. cbn [if_set].
    unfold bind. rewrite check_cancelled_eq, Hstop. auto.
Qed.

Lemma notifications_outcome_witness :
  powiadomienia_brak_pdf
    {| username := None; ksiegowa_glowny := "crypto@woox.pl";
       ksiegowa_2 := None; ksiegowa_3 := None;
       powiadomienia_brak_pdf := []; powiadomienia_czesciowe := [];
       przetworzone := "Inbox" |} = []
  /\ send_missing_pdf_notification (quiet_env example_account)
       {| username := None; ksiegowa_glowny := "crypto@woox.pl";
          ksiegowa_2 := None; ksiegowa_3 := None;
          powiadomienia_brak_pdf := []; powiadomienia_czesciowe := [];
          przetworzone := "Inbox" |}
       example_templates compensation_message "Kompensata_05.pdf" world0
     = (Ok false, poll_n 1 world0).
Proof.
  split; [reflexivity|].
  apply (proj2 (proj2 (notifications_outcome (quiet_env example_account)
           {| username := None; ksiegowa_glowny := "crypto@woox.pl";
              ksiegowa_2 := None; ksiegowa_3 := None;
              powiadomienia_brak_pdf := []; powiadomienia_czesciowe := [];
              przetworzone := "Inbox" |}
           example_templates compensation_message world0))
           eq_refl eq_refl eq_refl eq_refl "Kompensata_05.pdf" [] []).
Defined.

(** ** The whole run *)

Section WholeRun.

Variable env : Env.
Variable config : AppConfig.
Variable templates : EmailTemplateCollection.

Lemma archive_outcome email w r w' :
  move_email_to_processed_folder env config email w = (r, w') ->
  exists b ops,
    r = Ok b /\ trace w' = trace w ++ ops /\ archive_ops config email ops.
Proof.
  intros H. apply move_email_to_processed_folder_result in H.
  destruct H as (_ & [(-> & Ht)|(-> & [Ht|(Hread & Ht)])]).
  - exists true. eexists. split; [reflexivity|]. split; [exact Ht|].
    right. left. reflexivity.
  - exists false, []. split; [reflexivity|]. rewrite app_nil_r.
    split; [exact Ht|]. left. reflexivity.
  - exists false. eexists. split; [reflexivity|]. split; [exact Ht|].
    right. right. auto.
Qed.

Lemma handle_no_data_outcome email pdf w r w' :
  _handle_no_data_extracted env config templates email pdf w = (r, w') ->
  (r = Raise OperationCancelledError /\ trace w' = trace w)
  \/ (r = Ok {| success := false; message := MsgNoData;
                email_subject := Some (subject email);
                extracted_data := []; found_attachments_count := 0;
                missing_invoices := [] |}
      /\ exists notice archive,
           trace w' = trace w ++ notice ++ archive
           /\ notice_ops (get_notification_emails_for_missing_pdf config) notice
           /\ archive_ops config email archive).
Proof.
  unfold _handle_no_data_extracted. unfold bind at 1.
  destruct (send_missing_pdf_notification env config templates email
              (att_name pdf) w) as [[b|x] w1] eqn:Hn;
    apply missing_pdf_notification_outcome in Hn.
  - assert (Hnotice : exists notice,
               trace w1 = trace w ++ notice /\
               notice_ops (get_notification_emails_for_missing_pdf config)
                          notice).
    { destruct Hn as [(Hr & _)|[(_ & Ht)|(_ & _ & subj & body & Ht)]];
        [discriminate| |].
      - exists []. rewrite app_nil_r. split; [exact Ht|]. left. reflexivity.
      - eexists. split; [exact Ht|]. right. eauto. }
    destruct Hnotice as (notice & Ht1 & Hno).
    unfold bind at 1.
    destruct (move_email_to_processed_folder env config email w1)
      as [r2 w2] eqn:Hm.
    destruct (archive_outcome _ _ _ _ Hm) as (b2 & ops & -> & Ht2 & Hao).
    intros H; inversion H; subst. right. split; [reflexivity|].
    exists notice, ops. split; [|auto].
    rewrite Ht2, Ht1, app_assoc. reflexivity.
  - destruct Hn as [(Hr & Ht)|[(Hr & _)|(Hr & _)]]; try discriminate.
    inversion Hr; subst. intros H; inversion H; subst. auto.
Qed.

(** A delivery stage that returns, step by step. *)
Lemma delivery_ok criteria w st w1 :
  process_emails_delivery env config templates criteria w = (Ok st, w1) ->
  stop_event env (polls w) = false /\
  exists found_email wb,
    find_compensation_email env criteria (poll_n 1 w) = (Ok found_email, wb)
    /\ match found_email with
       | None => st = Finished (result false MsgNotFound) /\ w1 = wb
       | Some (email, pdf) =>
           exists extracted wc,
             extract_invoice_numbers env (att_content pdf)
               (regex_pattern criteria) wb = (Ok extracted, wc)
             /\ ((extracted = [] /\
                  exists r,
                    _handle_no_data_extracted env config templates email pdf wc
                    = (Ok r, w1) /\ st = Finished r)
                 \/ (extracted <> [] /\
                     exists found wd notice we sent,
                       find_related_invoices env extracted
                         (datetime_received email) criteria wc = (Ok found, wd)
                       /\ trace we = trace wd ++ notice
                       /\ notice_ops
                            (get_notification_emails_for_partial_results config)
                            notice
                       /\ (length extracted <= length found -> notice = [])
                       /\ send_compensation_email_to_accounting env config
                            templates pdf found extracted email we
                          = (Ok sent, w1)
                       /\ st = Delivery email pdf extracted found sent))
       end.
Proof.
  unfold process_emails_delivery. step_check env w; [discriminate|].
  split; [reflexivity|].
  unfold bind at 1 in H.
  destruct (find_compensation_email env criteria (poll_n 1 w))
    as [[[[m a]|]|x] wb] eqn:E2; try discriminate.
  2:{ inversion H; subst. exists None, w1. auto. }
  exists (Some (m, a)), wb. split; [reflexivity|].
  unfold bind at 1 in H. rewrite fetch_eq in H.
  destruct (fetch_fails env (requests wb)); [discriminate|].
  unfold bind at 1 in H.
  destruct (extract_invoice_numbers env (att_content a)
              (regex_pattern criteria) wb) as [[ex|x] wc] eqn:E3;
    [|discriminate].
  exists ex, wc. split; [reflexivity|].
  destruct ex as [|i rest].
  - left. split; [reflexivity|]. unfold bind in H.
    destruct (_handle_no_data_extracted env config templates m a wc)
      as [[r|x] wd]; [|discriminate].
    inversion H; subst. eauto.
  - right. split; [discriminate|].
    unfold bind at 1 in H.
    destruct (find_related_invoices env (i :: rest) (datetime_received m)
                criteria wc) as [[fi|x] wd] eqn:E4; [|discriminate].
    unfold bind at 1 in H.
    match type of H with
    | context [match ?c wd with _ => _ end] =>
        destruct (c wd) as [[[]|x] we] eqn:E5; [|discriminate]
    end.
    unfold bind at 1 in H.
    destruct (send_compensation_email_to_accounting env config templates
                a fi (i :: rest) m we) as [[es|x] wf] eqn:E6; [|discriminate].
    inversion H; subst.
    assert (Hn : exists notice,
               trace we = trace wd ++ notice
               /\ notice_ops
                    (get_notification_emails_for_partial_results config) notice
               /\ (length (i :: rest) <= length fi -> notice = [])).
    { revert E5. destruct (Nat.ltb_spec (length fi) (length (i :: rest))).
      - unfold bind.
        destruct (send_partial_results_notification env config templates
                    m (i :: rest) fi wd) as [[b|x] w2] eqn:Hp; [|discriminate].
        apply partial_results_notification_outcome in Hp.
        intros E5; inversion E5; subst.
        destruct Hp as [(Hr & _)|[(_ & Ht)|(_ & _ & subj & body & Ht)]];
          [discriminate| |].
        + exists []. rewrite app_nil_r. split; [exact Ht|].
          split; [left; reflexivity|reflexivity].
        + eexists. split; [exact Ht|]. split; [right; eauto|]. intros; lia.
      - intros E5; inversion E5; subst. exists []. rewrite app_nil_r.
        split; [reflexivity|]. split; [left; reflexivity|reflexivity]. }
    destruct Hn as (notice & Hn1 & Hn2 & Hn3).
    exists fi, wd, notice, we, es. auto 10.
Qed.

Lemma extract_invoice_numbers_raises content pattern w x w' :
  extract_invoice_numbers env content pattern w = (Raise x, w') ->
  x = OperationCancelledError \/ x = PDFProcessingError.
Proof.
  unfold extract_invoice_numbers. step_check env w.
  { intros H; inversion H; subst. auto. }
  destruct (negb (Py.truthy pattern)).
  { intros H; inversion H; subst. auto. }
  unfold catch.
  match goal with
  | |- (match ?m ?w0 with _ => _ end) = _ -> _ =>
      destruct (m w0) as [[r0|e] w1]
  end; [discriminate|].
  destruct e; cbn [is_cancelled]; intros H; inversion H; subst; auto.
Qed.

Lemma delivery_raises criteria w x w1 :
  process_emails_delivery env config templates criteria w = (Raise x, w1) ->
  run_exception x
  /\ (stop_event env (polls w) = true ->
      x = OperationCancelledError /\ w1 = poll_n 1 w).
Proof.
  unfold process_emails_delivery, run_exception. step_check env w.
  { intros H; inversion H; subst. auto. }
  intros H. split; [|discriminate]. revert H.
  unfold bind at 1.
  destruct (find_compensation_email env criteria (poll_n 1 w))
    as [[[[m a]|]|x0] wb] eqn:E2.
  3:{ apply find_compensation_email_raises in E2.
      intros H; inversion H; subst. tauto. }
  2:{ discriminate. }
  unfold bind at 1. rewrite fetch_eq.
  destruct (fetch_fails env (requests wb)).
  { intros H; inversion H; subst. auto. }
  unfold bind at 1.
  destruct (extract_invoice_numbers env (att_content a)
              (regex_pattern criteria) wb) as [[ex|x0] wc] eqn:E3.
  2:{ apply extract_invoice_numbers_raises in E3.
      intros H; inversion H; subst. tauto. }
  destruct ex as [|i rest].
  - unfold bind.
    destruct (_handle_no_data_extracted env config templates m a wc)
      as [[r|x0] wd] eqn:E4; [discriminate|].
    apply handle_no_data_outcome in E4.
    destruct E4 as [(Hr & _)|(Hr & _)]; [|discriminate].
    inversion Hr; subst. intros H; inversion H; subst. auto.
  - unfold bind at 1.
    destruct (find_related_invoices env (i :: rest) (datetime_received m)
                criteria wc) as [[fi|x0] wd] eqn:E4.
    2:{ apply find_related_invoices_raises in E4.
        intros H; inversion H; subst. tauto. }
    unfold bind at 1.
    match goal with
    | |- context [match ?c wd with _ => _ end] =>
        destruct (c wd) as [[[]|x0] we] eqn:E5
    end.
    + unfold bind at 1.
      destruct (send_compensation_email_to_accounting env config templates
                  a fi (i :: rest) m we) as [[es|x0] wf] eqn:E6;
        [discriminate|].
      apply accounting_outcome in E6.
      destruct E6 as [(Hr & _)|[(Hr & _)|(Hr & _)]]; try discriminate.
      inversion Hr; subst. intros H; inversion H; subst. auto.
    + revert E5. destruct (length fi <? length (i :: rest))%nat.
      * unfold bind.
        destruct (send_partial_results_notification env config templates
                    m (i :: rest) fi wd) as [[b|x1] w2] eqn:Hp; [discriminate|].
        apply partial_results_notification_outcome in Hp.
        destruct Hp as [(Hr & _)|[(Hr & _)|(Hr & _)]]; try discriminate.
        inversion Hr; subst.
        intros E5 H; inversion E5; inversion H; subst. auto.
      * discriminate.
Qed.

(** Step 6 never raises. *)
Lemma process_emails_archive_outcome st w r w' :
  process_emails_archive env config st w = (r, w') ->
  match st with
  | Finished r0 => r = Ok r0 /\ w' = w
  | Delivery email pdf extracted found sent =>
      exists archive,
        r = Ok {| success := sent;
                  message := if sent
                             then MsgDone (length found) (length extracted)
                             else MsgSendFailed;
                  email_subject := Some (subject email);
                  extracted_data := extracted;
                  found_attachments_count := length found;
                  missing_invoices := _find_missing_invoices extracted found |}
        /\ trace w' = trace w ++ archive
        /\ archive_ops config email archive
        /\ (sent = false -> archive = [])
  end.
Proof.
  destruct st as [r0|email pdf extracted found sent];
    cbn [process_emails_archive].
  - intros H; inversion H; subst. auto.
  - destruct sent.
    + unfold bind at 1. unfold bind at 1.
      destruct (move_email_to_processed_folder env config email w)
        as [r2 w2] eqn:Hm.
      destruct (archive_outcome _ _ _ _ Hm) as (b2 & ops & -> & Ht2 & Hao).
      intros H; inversion H; subst. exists ops.
      split; [reflexivity|]. split; [exact Ht2|]. split; [exact Hao|].
      discriminate.
    + intros H; inversion H; subst. exists []. rewrite app_nil_r.
      split; [reflexivity|]. split; [reflexivity|].
      split; [left; reflexivity|reflexivity].
Qed.

End WholeRun.

(** Extraction and the batch search write nothing. *)
Lemma extract_pages_trace env pattern pages : forall acc w r w',
  extract_pages env pattern pages acc w = (r, w') -> trace w' = trace w.
Proof.
  induction pages as [|p rest IH]; intros acc w r w' H;
    cbn [extract_pages] in H.
  - inversion H; subst. reflexivity.
  - revert H. step_check env w.
    + intros H; inversion H; subst. reflexivity.
    + intros H. apply IH in H. exact H.
Qed.

Lemma extract_invoice_numbers_trace env content pattern w r w' :
  extract_invoice_numbers env content pattern w = (r, w') ->
  trace w' = trace w.
Proof.
  unfold extract_invoice_numbers. step_check env w.
  { intros H; inversion H; subst. reflexivity. }
  destruct (negb (Py.truthy pattern)).
  { intros H; inversion H; subst. reflexivity. }
  unfold catch. destruct (pdf_reader env content) as [pages|].
  - unfold bind at 1.
    destruct (extract_pages env pattern pages [] (poll_n 1 w))
      as [[l|e] w1] eqn:Hp; apply extract_pages_trace in Hp.
    + intros H; inversion H; subst. exact Hp.
    + destruct (is_cancelled e); intros H; inversion H; subst; exact Hp.
  - cbn [is_cancelled]. intros H; inversion H; subst. reflexivity.
Qed.

Lemma find_related_invoices_trace env ids ref criteria w r w' :
  find_related_invoices env ids ref criteria w = (r, w') ->
  trace w' = trace w.
Proof.
  intros H. destruct r as [found|x].
  - apply find_related_invoices_ok in H.
    destruct H as [(_ & _ & Ht)|(_ & folder & w1 & Hg & Hloop)]; [exact Ht|].
    destruct (get_folder_by_path_outcome env _ _ _ _ Hg) as (_ & Htr & _).
    apply find_related_loop_ok in Hloop. destruct Hloop as (_ & _ & Ht).
    rewrite Ht. exact Htr.
  - apply find_related_invoices_raises in H. apply H.
Qed.

(** X16: [process_emails] never raises: every run returns a result.
    The result is a success exactly when its message is the one of a
    finished processing.  A critical-error result reports one of four
    exceptions and never the cancellation: [FolderNotFoundError],
    [PDFProcessingError], [OverflowError] (a window that cannot be
    computed) or the error of the server on a lazy read (a well-known
    folder of the account, the content of the compensation attachment);
    every other failure of the store is swallowed by the step it occurs
    in.  A run that is cancelled at its start returns the cancellation
    result after this single poll, without any request to the store. *)
Theorem process_emails_always_reports :
  forall env config templates search_criteria w,
  exists r w',
    process_emails env config templates search_criteria w = (Ok r, w')
    /\ (success r = true <-> exists found total, message r = MsgDone found total)
    /\ (forall e, message r = MsgCritical e ->
                  e = FolderNotFoundError \/ e = PDFProcessingError
                  \/ e = StoreError \/ e = OverflowError)
    /\ (stop_event env (polls w) = true ->
        r = result false MsgCancelled /\ w' = poll_n 1 w).
Proof.
  intros env config templates criteria w.
  unfold process_emails, catch. unfold bind at 1.
  destruct (process_emails_delivery env config templates criteria w)
    as [[st|x] w1] eqn:Hd.
  - destruct (process_emails_archive env config st w1) as [r w2] eqn:Ha.
    apply process_emails_archive_outcome in Ha.
    destruct (delivery_ok _ _ _ _ _ _ _ Hd) as (Hstop & fe & wb & Hf & Hst).
    destruct st as [r0|email pdf extracted found sent].
    + destruct Ha as (-> & ->). exists r0, w1. split; [reflexivity|].
      assert (Hr0 : success r0 = false /\
                    (message r0 = MsgNotFound \/ message r0 = MsgNoData)).
      { destruct fe as [[m a]|].
        - destruct Hst as (ex & wc & _ & [(_ & r & Hh & Hr)|(_ & Hr)]).
          + inversion Hr; subst r0.
            apply handle_no_data_outcome in Hh.
            destruct Hh as [(Hx & _)|(Hx & _)]; [discriminate|].
            inversion Hx; subst. auto.
          + destruct Hr as (? & ? & ? & ? & ? & _ & _ & _ & _ & _ & Hr).
            discriminate.
        - destruct Hst as (Hr & _). inversion Hr; subst. auto. }
      destruct Hr0 as (Hs & Hm). split; [|split].
      * rewrite Hs. split; [discriminate|].
        intros (f & t & Hmsg). destruct Hm as [Hm|Hm]; congruence.
      * intros e He. destruct Hm as [Hm|Hm]; congruence.
      * congruence.
    + destruct Ha as (archive & -> & _ & _ & _). eexists. exists w2.
      split; [reflexivity|]. cbn [success message]. split; [|split].
      * destruct sent; split; try discriminate; eauto.
        intros (f & t & Hmsg). discriminate.
      * intros e He. destruct sent; discriminate.
      * congruence.
  - destruct (delivery_raises _ _ _ _ _ _ _ Hd) as (Hx & Hstop).
    destruct (is_cancelled x) eqn:Hc.
    + exists (result false MsgCancelled), w1. split; [reflexivity|].
      cbn [result success message]. split; [|split].
      * split; [discriminate|]. intros (f & t & Hmsg). discriminate.
      * discriminate.
      * intros Hs. split; [reflexivity|]. apply Hstop, Hs.
    + exists (result false (MsgCritical x)), w1. split; [reflexivity|].
      cbn [result success message]. split; [|split].
      * split; [discriminate|]. intros (f & t & Hmsg). discriminate.
      * intros e He. inversion He; subst e.
        destruct Hx as [->|[->|[->|[->| ->]]]]; [discriminate|auto..].
      * intros Hs. destruct (Hstop Hs) as (-> & _). discriminate.
Qed.

Lemma process_emails_always_reports_witness :
  exists r w',
    process_emails (working_env example_account) example_config
      example_templates default_criteria world0 = (Ok r, w')
    /\ (success r = true <-> exists found total, message r = MsgDone found total).
Proof.
  destruct (process_emails_always_reports (working_env example_account)
              example_config example_templates default_criteria world0)
    as (r & w' & Hrun & Hiff & _).
  exists r, w'. split; [exact Hrun|exact Hiff].
Defined.

(** The two failures that stand before any [try] reach the result as
    critical errors. *)
Example run_reports_overflow :
  fst (process_emails (working_env example_account) example_config
         example_templates
         (with_months_back_invoices default_criteria 40000000) world0)
  = Ok (result false (MsgCritical OverflowError)).
Proof. vm_compute. reflexivity. Qed.

Example run_reports_failed_read :
  fst (process_emails (offline_env example_account) example_config
         example_templates default_criteria world0)
  = Ok (result false (MsgCritical StoreError)).
Proof. vm_compute. reflexivity. Qed.

(** X17: a run that ends in success has found a message and its
    attachment with [find_compensation_email], has extracted at least
    one identifier from it, and has found at most as many invoices; its
    result reports these counts, the subject of the message and the
    missing identifiers.  What the run wrote to the store is, in this
    order: at most one notification of partial results, sent only when
    fewer invoices than identifiers were found; the email to accounting,
    whose first attachment is the compensation document and whose other
    attachments are found invoices; and at most one write on the
    compensation message, its move to the folder of processed messages
    or its mark as read. *)
Theorem successful_run_writes :
  forall env config templates search_criteria w r w',
    process_emails env config templates search_criteria w = (Ok r, w') ->
    success r = true ->
    exists email pdf found wb notice subj body invoices archive,
      find_compensation_email env search_criteria (poll_n 1 w)
      = (Ok (Some (email, pdf)), wb)
      /\ extracted_data r <> []
      /\ length found <= length (extracted_data r)
      /\ message r = MsgDone (length found) (length (extracted_data r))
      /\ found_attachments_count r = length found
      /\ email_subject r = Some (subject email)
      /\ missing_invoices r = _find_missing_invoices (extracted_data r) found
      /\ trace w'
         = trace w ++ notice
           ++ [OpSend (get_ksiegowa_emails config) subj body (pdf :: invoices)]
           ++ archive
      /\ notice_ops (get_notification_emails_for_partial_results config) notice
      /\ (length found = length (extracted_data r) -> notice = [])
      /\ Subseq invoices found
      /\ archive_ops config email archive.
Proof.
  intros env config templates criteria w r w' H Hsucc.
  unfold process_emails, catch in H. unfold bind at 1 in H.
  destruct (process_emails_delivery env config templates criteria w)
    as [[st|x] w1] eqn:Hd.
  2:{ destruct (is_cancelled x); inversion H; subst; discriminate. }
  destruct (process_emails_archive env config st w1) as [r2 w2] eqn:Ha.
  apply process_emails_archive_outcome in Ha.
  destruct (delivery_ok _ _ _ _ _ _ _ Hd) as (Hstop & fe & wb & Hf & Hst).
  destruct st as [r0|email pdf extracted found sent].
  { destruct Ha as (-> & ->). inversion H; subst r0 w'.
    destruct fe as [[m a]|].
    - destruct Hst as (ex & wc & _ & [(_ & r0 & Hh & Hr)|(_ & Hr)]).
      + inversion Hr; subst r0.
        apply handle_no_data_outcome in Hh.
        destruct Hh as [(Hx & _)|(Hx & _)]; [discriminate|].
        inversion Hx; subst. discriminate.
      + destruct Hr as (? & ? & ? & ? & ? & _ & _ & _ & _ & _ & Hr).
        discriminate.
    - destruct Hst as (Hr & _). inversion Hr; subst. discriminate. }
  destruct Ha as (archive & -> & Hta & Hao & _).
  inversion H; subst r w'. cbn [success] in Hsucc. subst sent.
  cbn [extracted_data message found_attachments_count email_subject
       missing_invoices].
  destruct fe as [[m a]|]; [|destruct Hst; discriminate].
  destruct Hst as (ex & wc & He & [(_ & r0 & _ & Hr)|(Hne & Hr)]);
    [discriminate|].
  destruct Hr as (fi & wd & notice & we & es & Hfr & Htn & Hno & Hnil & Hacc & Hst).
  inversion Hst; subst m a ex fi es.
  pose proof Hfr as Hlen.
  apply find_related_invoices_ok in Hlen.
  assert (Hle : length found <= length extracted).
  { destruct Hlen as [(-> & -> & _)|(_ & folder & w3 & _ & Hloop)];
      [simpl; lia|].
    apply find_related_loop_ok in Hloop. destruct Hloop as (-> & _ & _).
    simpl. etransitivity; [apply somes_length|].
    now rewrite results_from_length. }
  assert (Htd : trace wd = trace w).
  { apply find_compensation_email_ok in Hf.
    destruct Hf as (_ & _ & _ & _ & Ht1 & _).
    apply extract_invoice_numbers_trace in He.
    apply find_related_invoices_trace in Hfr.
    rewrite Hfr, He, Ht1. reflexivity. }
  apply accounting_outcome in Hacc.
  destruct Hacc as [(Hr & _)|[(Hr & _)|(_ & Hs)]]; try discriminate.
  destruct Hs as (subj & body & atts & w3 & w4 & Hatt & Hts).
  apply attach_invoices_ok in Hatt.
  destruct Hatt as (added & -> & Hsub & _).
  exists email, pdf, found, wb, notice, subj, body, added, archive.
  split; [exact Hf|]. split; [exact Hne|]. split; [exact Hle|].
  split; [reflexivity|]. split; [reflexivity|]. split; [reflexivity|].
  split; [reflexivity|]. split.
  { rewrite Hta, Hts, Htn, Htd. cbn [app]. rewrite <- !app_assoc.
    reflexivity. }
  split; [exact Hno|]. split; [intros Heq; apply Hnil; lia|].
  split; [exact Hsub|exact Hao].
Qed.

Lemma successful_run_writes_witness :
  exists r w',
    process_emails (pipeline_env 99 example_account) example_config
      example_templates default_criteria world0 = (Ok r, w')
    /\ success r = true
    /\ exists subj body invoices archive,
         trace w'
         = [OpSend (get_ksiegowa_emails example_config) subj body
              (FileAttachment "Kompensata_05.pdf" "FV-1" :: invoices)]
           ++ archive.
Proof.
  assert (H : process_emails (pipeline_env 99 example_account) example_config
                example_templates default_criteria world0
              = (Ok {| success := true; message := MsgDone 1 1;
                       email_subject := Some "Kompensata 05";
                       extracted_data := ["FV-1"];
                       found_attachments_count := 1;
                       missing_invoices := [] |},
                 snd (process_emails (pipeline_env 99 example_account)
                        example_config example_templates default_criteria
                        world0)))
    by (vm_compute; reflexivity).
  eexists. eexists. split; [exact H|]. split; [reflexivity|].
  destruct (successful_run_writes _ _ _ _ _ _ _ H eq_refl)
    as (email & pdf & found & wb & notice & subj & body & invoices & archive
        & Hf & _ & _ & _ & Hcount & _ & _ & Ht & _ & Hnil & _).
  assert (Hpdf : pdf = FileAttachment "Kompensata_05.pdf" "FV-1").
  { vm_compute in Hf. inversion Hf. reflexivity. }
  subst pdf. cbn [found_attachments_count extracted_data] in Hcount, Hnil.
  rewrite Hnil in Ht by (rewrite <- Hcount; reflexivity).
  exists subj, body, invoices, archive. exact Ht.
Defined.

(** X18: a run that finds no compensation message returns the
    not-found result and has written nothing to the store.  A run in
    which the extraction returns no identifier returns the no-data
    result with the subject of the message, and has written at most one
    notification, a send without attachments to the addresses for a
    document without invoices, followed by at most one write on the
    compensation message, its move to the folder of processed messages
    or its mark as read; nothing was sent to accounting unless it is one
    of those addresses. *)
Theorem run_without_data_writes :
  forall env config templates search_criteria w r w',
    process_emails env config templates search_criteria w = (Ok r, w') ->
    (message r = MsgNotFound ->
     r = result false MsgNotFound /\ trace w' = trace w
     /\ exists wb,
          find_compensation_email env search_criteria (poll_n 1 w)
          = (Ok None, wb))
    /\ (message r = MsgNoData ->
        exists email pdf wb wc notice archive,
          find_compensation_email env search_criteria (poll_n 1 w)
          = (Ok (Some (email, pdf)), wb)
          /\ extract_invoice_numbers env (att_content pdf)
               (regex_pattern search_criteria) wb = (Ok [], wc)
          /\ success r = false
          /\ email_subject r = Some (subject email)
          /\ trace w' = trace w ++ notice ++ archive
          /\ notice_ops (get_notification_emails_for_missing_pdf config) notice
          /\ archive_ops config email archive).
Proof.
  intros env config templates criteria w r w' H.
  unfold process_emails, catch in H. unfold bind at 1 in H.
  destruct (process_emails_delivery env config templates criteria w)
    as [[st|x] w1] eqn:Hd.
  2:{ destruct (is_cancelled x); inversion H; subst;
        split; discriminate. }
  destruct (process_emails_archive env config st w1) as [r2 w2] eqn:Ha.
  apply process_emails_archive_outcome in Ha.
  destruct (delivery_ok _ _ _ _ _ _ _ Hd) as (Hstop & fe & wb & Hf & Hst).
  destruct st as [r0|email pdf extracted found sent].
  2:{ destruct Ha as (archive & -> & _). inversion H; subst.
      cbn [message]. destruct sent; split; discriminate. }
  destruct Ha as (-> & ->). inversion H; subst r0 w'.
  destruct fe as [[m a]|].
  - destruct Hst as (ex & wc & He & [(-> & r0 & Hh & Hr)|(_ & Hr)]).
    2:{ destruct Hr as (? & ? & ? & ? & ? & _ & _ & _ & _ & _ & Hr).
        discriminate. }
    inversion Hr; subst r0.
    apply handle_no_data_outcome in Hh.
    destruct Hh as [(Hx & _)|(Hx & notice & archive & Ht & Hno & Hao)];
      [discriminate|].
    inversion Hx; subst r. cbn [message success email_subject].
    split; [discriminate|]. intros _.
    exists m, a, wb, wc, notice, archive.
    split; [exact Hf|]. split; [exact He|]. split; [reflexivity|].
    split; [reflexivity|]. split; [|auto].
    rewrite Ht. apply find_compensation_email_ok in Hf.
    destruct Hf as (_ & _ & _ & _ & Ht1 & _).
    apply extract_invoice_numbers_trace in He.
    rewrite He, Ht1. reflexivity.
  - destruct Hst as (Hr & ->). inversion Hr; subst r.
    cbn [result message]. split; [|discriminate]. intros _.
    split; [reflexivity|]. split; [|eauto].
    apply find_compensation_email_ok in Hf.
    destruct Hf as (_ & _ & _ & _ & Ht1 & _). exact Ht1.
Qed.

Lemma run_without_data_writes_witness :
  exists r w',
    process_emails (pipeline_env 99 (account_with [mkFolder "Kompensaty Quadra" [] []]))
      example_config example_templates default_criteria world0 = (Ok r, w')
    /\ r = result false MsgNotFound /\ trace w' = trace world0.
Proof.
  assert (H : process_emails
                (pipeline_env 99
                   (account_with [mkFolder "Kompensaty Quadra" [] []]))
                example_config example_templates default_criteria world0
              = (Ok (result false MsgNotFound),
                 snd (process_emails
                        (pipeline_env 99
                           (account_with [mkFolder "Kompensaty Quadra" [] []]))
                        example_config example_templates default_criteria
                        world0)))
    by (vm_compute; reflexivity).
  eexists. eexists. split; [exact H|].
  destruct (proj1 (run_without_data_writes _ _ _ _ _ _ _ H) eq_refl)
    as (Hr & Ht & _).
  split; [exact Hr|exact Ht].
Defined.

(** ** The default templates *)

Lemma get_default_segments :
  get_default
  = {| email_do_ksiegowej :=
         {| tpl_subject := write default_email_do_ksiegowej_subject;
            tpl_body := write default_email_do_ksiegowej_body |};
       powiadomienie_brak_faktur_w_pdf :=
         {| tpl_subject := write default_powiadomienie_brak_faktur_w_pdf_subject;
            tpl_body := write default_powiadomienie_brak_faktur_w_pdf_body |};
       powiadomienie_czesciowo_znalezione :=
         {| tpl_subject :=
              write default_powiadomienie_czesciowo_znalezione_subject;
            tpl_body :=
              write default_powiadomienie_czesciowo_znalezione_body |} |}.
Proof. reflexivity. Qed.

Lemma format_write_ok env subject_segs body_segs kwargs :
  forallb plain subject_segs = true ->
  forallb plain body_segs = true ->
  data_ok kwargs = true ->
  exists format_dict,
    build_format_dict kwargs = Ok format_dict
    /\ EmailTemplate_format env
         {| tpl_subject := write subject_segs; tpl_body := write body_segs |}
         kwargs
       = Ok {| tpl_subject := fill_all format_dict subject_segs;
               tpl_body := fill_all format_dict body_segs |}.
Proof.
  intros Hs Hb Hd. destruct (build_format_dict_ok kwargs Hd) as [fd Hfd].
  exists fd. split; [exact Hfd|].
  unfold EmailTemplate_format. rewrite Hfd. simpl.
  now rewrite (format_map_write env fd subject_segs Hs),
              (format_map_write env fd body_segs Hb).
Qed.

Lemma send_email_ok env recipients subj body atts w :
  recipients <> [] ->
  store_fails env (requests w) = false ->
  send_email env recipients subj body atts w
  = (Ok true, {| polls := polls w; requests := S (requests w);
                 trace := trace w ++ [OpSend recipients subj body atts] |}).
Proof.
  intros Hne Hs. unfold send_email. destruct recipients; [congruence|].
  unfold catch, bind. rewrite store_write_eq, Hs. reflexivity.
Qed.

Lemma attach_invoices_quiet env (Hquiet : never_stops env) found :
  forall atts names w,
  exists out,
    attach_invoices env found atts names w
    = (Ok out, poll_n (length found) w).
Proof.
  induction found as [|a rest IH]; intros atts names w;
    cbn [attach_invoices length].
  - exists atts. now rewrite poll_n_0.
  - rewrite (bind_check_quiet env Hquiet). cbv zeta.
    destruct (in_list _ names);
      match goal with
      | |- context [attach_invoices env rest ?a ?n (poll_n 1 w)] =>
          destruct (IH a n (poll_n 1 w)) as [out Hout]
      end;
      exists out; rewrite Hout, poll_n_add; do 2 f_equal; lia.
Qed.

(** The email to accounting under the default templates. *)
Lemma default_accounting_run :
  forall env config original_pdf found_invoices extracted original_email w u,
    never_stops env ->
    username config = Some u ->
    store_fails env (requests w) = false ->
    exists body invoices w',
      send_compensation_email_to_accounting env config get_default
        original_pdf found_invoices extracted original_email w = (Ok true, w')
      /\ trace w'
         = trace w
           ++ [OpSend (get_ksiegowa_emails config)
                 ("Kompensata " ++ subject original_email ++ " - faktury ("
                  ++ decimal (Z.of_nat (length found_invoices)) ++ "/"
                  ++ decimal (Z.of_nat (length extracted)) ++ ")")%string
                 body (original_pdf :: invoices)].
Proof.
  intros env config pdf found extracted email w u Hquiet Hu Hstore.
  unfold send_compensation_email_to_accounting.
  rewrite (bind_check_quiet env Hquiet).
  unfold get_ksiegowa_emails at 1. cbv zeta. unfold catch.
  match goal with
  | |- context [EmailTemplate_format env _ ?td] => set (data := td)
  end.
  assert (Hd : data_ok data = true).
  { subst data. unfold username_value. rewrite Hu.
    destruct (length found <? length extracted)%nat; reflexivity. }
  destruct (format_write_ok env default_email_do_ksiegowej_subject
              default_email_do_ksiegowej_body data eq_refl eq_refl Hd)
    as (fd & Hfd & Hfmt).
  change (email_do_ksiegowej get_default)
    with {| tpl_subject := write default_email_do_ksiegowej_subject;
            tpl_body := write default_email_do_ksiegowej_body |}.
  rewrite Hfmt. unfold lift, bind at 1, ret at 1.
  destruct (attach_invoices_quiet env Hquiet found [pdf]
              [Py.lower (att_name pdf)] (poll_n 1 w)) as [atts Ha].
  pose proof Ha as Hatt. apply attach_invoices_ok in Hatt.
  destruct Hatt as (added & -> & _ & _).
  unfold bind at 1. rewrite Ha.
  rewrite send_email_ok; [|discriminate|exact Hstore].
  eexists. exists added. eexists. split; [reflexivity|].
  cbn [trace poll_n tpl_subject tpl_body app]. do 3 f_equal.
  assert (Hget : forall k, computed_key k = false ->
                           default_get k fd = default_get k data).
  { intros k Hk. unfold default_get.
    now rewrite (build_format_dict_get data fd k Hfd Hk). }
  unfold default_email_do_ksiegowej_subject.
  cbn [fill_all fill]. rewrite !Hget by reflexivity.
  subst data.
  destruct (length found <? length extracted)%nat;
    cbn; rewrite ?string_app_nil; reflexivity.
Qed.

(** X19: with the default templates of [get_default] and a configured
    Exchange user name, the email to accounting cannot fail on its
    template: in a run that is not cancelled, when the store accepts the
    send, [send_compensation_email_to_accounting] returns [True] and the
    one email it has sent has the subject
    "Kompensata <subject> - faktury (<found>/<extracted>)" and the
    compensation document as its first attachment. *)
Theorem default_accounting_email_is_sent :
  forall env config original_pdf found_invoices extracted original_email w u,
    never_stops env ->
    username config = Some u ->
    store_fails env (requests w) = false ->
    exists body invoices w',
      send_compensation_email_to_accounting env config get_default
        original_pdf found_invoices extracted original_email w = (Ok true, w')
      /\ trace w'
         = trace w
           ++ [OpSend (get_ksiegowa_emails config)
                 ("Kompensata " ++ subject original_email ++ " - faktury ("
                  ++ decimal (Z.of_nat (length found_invoices)) ++ "/"
                  ++ decimal (Z.of_nat (length extracted)) ++ ")")%string
                 body (original_pdf :: invoices)].
Proof.
  intros env config pdf found extracted email w u Hquiet Hu Hstore.
  exact (default_accounting_run env config pdf found extracted email w u
           Hquiet Hu Hstore).
Qed.

Lemma default_accounting_email_is_sent_witness :
  never_stops (quiet_env example_account)
  /\ exists body invoices w',
       send_compensation_email_to_accounting (quiet_env example_account)
         example_config get_default
         (FileAttachment "Kompensata_05.pdf" "FV-1")
         [FileAttachment "fv-1.pdf" "FV-1"] ["FV-1"; "FV-2"]
         compensation_message world0 = (Ok true, w')
       /\ trace w'
          = trace world0
            ++ [OpSend (get_ksiegowa_emails example_config)
                  ("Kompensata " ++ subject compensation_message
                   ++ " - faktury (" ++ decimal 1 ++ "/" ++ decimal 2 ++ ")")%string
                  body (FileAttachment "Kompensata_05.pdf" "FV-1" :: invoices)].
Proof.
  assert (Hq : never_stops (quiet_env example_account))
    by (intros n; reflexivity).
  split; [exact Hq|].
  exact (default_accounting_email_is_sent (quiet_env example_account)
           example_config (FileAttachment "Kompensata_05.pdf" "FV-1")
           [FileAttachment "fv-1.pdf" "FV-1"] ["FV-1"; "FV-2"]
           compensation_message world0 "jan@example.com" Hq eq_refl eq_refl).
Defined.

(** ** A run that goes through *)

Lemma find_related_invoices_quiet env (Hquiet : never_stops env)
      ids ref criteria w folder w1 s e :
  get_folder_by_path env (folder_path (related_emails criteria)) (poll_n 1 w)
  = (Ok folder, w1) ->
  datetime_plus ref (days 2) = Ok e ->
  window_start ref (months_back_invoices criteria) = Ok s ->
  exists found w',
    find_related_invoices env ids ref criteria w = (Ok found, w').
Proof.
  intros Hg He Hs.
  destruct ids as [|i rest].
  - unfold find_related_invoices. rewrite (bind_check_quiet env Hquiet).
    unfold ret. eauto.
  - rewrite (find_related_invoices_run env (i :: rest) ref criteria w folder
               w1 s e (Hquiet _) ltac:(discriminate) Hg He Hs).
    apply (find_related_loop_quiet env). exact Hquiet.
Qed.

Lemma default_partial_notification_run env (Hquiet : never_stops env)
      config email extracted found w u :
  username config = Some u ->
  exists b w',
    send_partial_results_notification env config get_default
      email extracted found w = (Ok b, w').
Proof.
  intros Hu. unfold send_partial_results_notification.
  rewrite (bind_check_quiet env Hquiet).
  destruct (get_notification_emails_for_partial_results config) as [|a l];
    [unfold ret; eauto|].
  cbv zeta. unfold catch.
  match goal with
  | |- context [EmailTemplate_format env _ ?td] => set (data := td)
  end.
  assert (Hd : data_ok data = true).
  { subst data. unfold username_value. rewrite Hu. reflexivity. }
  destruct (format_write_ok env
              default_powiadomienie_czesciowo_znalezione_subject
              default_powiadomienie_czesciowo_znalezione_body data
              eq_refl eq_refl Hd) as (fd & _ & Hfmt).
  change (powiadomienie_czesciowo_znalezione get_default)
    with {| tpl_subject :=
              write default_powiadomienie_czesciowo_znalezione_subject;
            tpl_body :=
              write default_powiadomienie_czesciowo_znalezione_body |}.
  rewrite Hfmt. unfold lift, bind at 1, ret at 1.
  match goal with
  | |- context [send_email env ?rc ?sj ?bd ?at0 ?w0] =>
      destruct (send_email env rc sj bd at0 w0) as [r0 w2] eqn:Hs
  end.
  destruct (send_email_outcome _ _ _ _ _ _ _ _ Hs)
    as (_ & [(-> & _)|(-> & _)]); eauto.
Qed.

(** X20: under the default templates and with a configured Exchange
    user name, a run that is never cancelled and whose requests the
    store all accepts ends in success as soon as its lookups go through:
    the compensation message and its attachment are found, the content
    of the attachment is read, the extraction returns at least one
    identifier, the invoice folder resolves, and the window of the
    invoice search can be computed.  The result reports the extracted
    identifiers and the subject of the message, whether or not every
    invoice was found. *)
Theorem default_run_succeeds :
  forall env config search_criteria w u email pdf wb extracted wc folder wd
         start_datetime end_datetime,
    never_stops env ->
    never_fails env ->
    username config = Some u ->
    find_compensation_email env search_criteria (poll_n 1 w)
    = (Ok (Some (email, pdf)), wb) ->
    fetch_fails env (requests wb) = false ->
    extract_invoice_numbers env (att_content pdf)
      (regex_pattern search_criteria) wb = (Ok extracted, wc) ->
    extracted <> [] ->
    get_folder_by_path env (folder_path (related_emails search_criteria))
      (poll_n 1 wc) = (Ok folder, wd) ->
    datetime_plus (datetime_received email) (days 2) = Ok end_datetime ->
    window_start (datetime_received email)
      (months_back_invoices search_criteria) = Ok start_datetime ->
    exists r w',
      process_emails env config get_default search_criteria w = (Ok r, w')
      /\ success r = true
      /\ extracted_data r = extracted
      /\ email_subject r = Some (subject email)
      /\ found_attachments_count r <= length extracted.
Proof.
  intros env config criteria w u email pdf wb extracted wc folder wd
         start_datetime end_datetime
         Hquiet Hstore Hu Hf Hfetch He Hne Hg Hend Hstart.
  destruct (find_related_invoices_quiet env Hquiet extracted
              (datetime_received email) criteria wc folder wd
              start_datetime end_datetime Hg Hend Hstart)
    as (found & w3 & Hfr).
  assert (Hle : length found <= length extracted).
  { pose proof Hfr as Hlen. apply find_related_invoices_ok in Hlen.
    destruct Hlen as [(-> & -> & _)|(_ & folder' & w4 & _ & Hloop)];
      [simpl; lia|].
    apply find_related_loop_ok in Hloop. destruct Hloop as (-> & _ & _).
    simpl. etransitivity; [apply somes_length|].
    now rewrite results_from_length. }
  assert (Hpart : exists w4,
             ((if (length found <? length extracted)%nat
               then send_partial_results_notification env config get_default
                      email extracted found ;;; ret tt
               else ret tt) w3) = (Ok tt, w4)).
  { destruct (length found <? length extracted)%nat; [|unfold ret; eauto].
    destruct (default_partial_notification_run env Hquiet config email
                extracted found w3 u Hu) as (b & w4 & Hp).
    exists w4. now rewrite (bind_ok _ _ _ _ _ Hp). }
  destruct Hpart as (w4 & Hpart).
  destruct (default_accounting_run env config pdf found extracted email w4 u
              Hquiet Hu (Hstore _)) as (body & invoices & w5 & Hacc & _).
  assert (Hcontent : fetch env (att_content pdf) wb = (Ok (att_content pdf), wb)).
  { rewrite fetch_eq, Hfetch. reflexivity. }
  assert (Hd : process_emails_delivery env config get_default criteria w
               = (Ok (Delivery email pdf extracted found true), w5)).
  { unfold process_emails_delivery.
    rewrite (bind_check_quiet env Hquiet).
    rewrite (bind_ok _ _ _ _ _ Hf). rewrite (bind_ok _ _ _ _ _ Hcontent).
    rewrite (bind_ok _ _ _ _ _ He).
    destruct extracted as [|i rest]; [congruence|].
    rewrite (bind_ok _ _ _ _ _ Hfr). rewrite (bind_ok _ _ _ _ _ Hpart).
    rewrite (bind_ok _ _ _ _ _ Hacc). reflexivity. }
  destruct (process_emails_archive env config
              (Delivery email pdf extracted found true) w5)
    as [r w6] eqn:Ha.
  pose proof Ha as Hout. apply process_emails_archive_outcome in Hout.
  destruct Hout as (archive & -> & _).
  eexists. exists w6. split.
  - unfold process_emails, catch. rewrite (bind_ok _ _ _ _ _ Hd), Ha.
    reflexivity.
  - cbn [success extracted_data email_subject found_attachments_count].
    auto.
Qed.

Lemma default_run_succeeds_witness :
  never_stops (working_env example_account)
  /\ never_fails (working_env example_account)
  /\ find_compensation_email (working_env example_account) default_criteria
       (poll_n 1 world0)
     = (Ok (Some (compensation_message,
                  FileAttachment "Kompensata_05.pdf" "FV-1")),
        snd (find_compensation_email (working_env example_account)
               default_criteria (poll_n 1 world0)))
  /\ window_start (datetime_received compensation_message) 4
     = Ok (-100 - days (4 * 31))%Z
  /\ exists r w',
       process_emails (working_env example_account) example_config
         get_default default_criteria world0 = (Ok r, w')
       /\ success r = true
       /\ extracted_data r = ["FV-1"].
Proof.
  assert (Hq : never_stops (working_env example_account))
    by (intros n; reflexivity).
  assert (Hs : never_fails (working_env example_account))
    by (intros n; reflexivity).
  assert (Hf : find_compensation_email (working_env example_account)
                 default_criteria (poll_n 1 world0)
               = (Ok (Some (compensation_message,
                            FileAttachment "Kompensata_05.pdf" "FV-1")),
                  snd (find_compensation_email (working_env example_account)
                         default_criteria (poll_n 1 world0))))
    by reflexivity.
  assert (Hw : window_start (datetime_received compensation_message) 4
               = Ok (-100 - days (4 * 31))%Z) by reflexivity.
  split; [exact Hq|]. split; [exact Hs|]. split; [exact Hf|].
  split; [exact Hw|].
  destruct (default_run_succeeds (working_env example_account)
              example_config default_criteria world0 "jan@example.com"
              compensation_message
              (FileAttachment "Kompensata_05.pdf" "FV-1")
              (snd (find_compensation_email (working_env example_account)
                      default_criteria (poll_n 1 world0)))
              ["FV-1"]
              (snd (extract_invoice_numbers (working_env example_account)
                      "FV-1" (regex_pattern default_criteria)
                      (snd (find_compensation_email
                              (working_env example_account)
                              default_criteria (poll_n 1 world0)))))
              (mkFolder "Faktury" [] [message_with 8 (-200) ["fv-1.pdf"]])
              (snd (get_folder_by_path (working_env example_account)
                      "Skrzynka odbiorcza/Faktury"
                      (poll_n 1
                         (snd (extract_invoice_numbers
                                 (working_env example_account)
                                 "FV-1" (regex_pattern default_criteria)
                                 (snd (find_compensation_email
                                         (working_env example_account)
                                         default_criteria
                                         (poll_n 1 world0))))))))
              (-100 - days (4 * 31))%Z (-100 + days 2)%Z
              Hq Hs eq_refl Hf eq_refl eq_refl)
    as (r & w' & Hrun & Hok & Hex & _).
  - discriminate.
  - reflexivity.
  - reflexivity.
  - exact Hw.
  - exists r, w'. auto.
Defined.

(** ** Dictionaries *)

(** X21: a [SearchCriteria] written with [to_dict] is read back
    unchanged by [from_dict]; the empty dictionary is read as the
    criteria of the dataclass defaults; and a dictionary that gives only
    some keys is read with the defaults for the others. *)
Theorem search_criteria_round_trip :
  (forall criteria,
      SearchCriteria_from_dict (SearchCriteria_to_dict criteria)
      = Some criteria)
  /\ SearchCriteria_from_dict [] = Some default_criteria
  /\ (forall path months,
         SearchCriteria_from_dict
           [("powiazane_emaile_faktury", JDict [("folder_sciezka", JStr path)]);
            ("miesiace_wstecz_faktury", JInt months)]
         = Some {| main_email := main_email default_criteria;
                   main_attachment := main_attachment default_criteria;
                   regex_pattern := regex_pattern default_criteria;
                   related_emails :=
                     {| folder_path := path; file_extension := "pdf" |};
                   months_back_compensation := 8;
                   months_back_invoices := months |}).
Proof.
  split; [|split].
  - intros [[a b c d e] [f g] h [i j] k l]. reflexivity.
  - reflexivity.
  - intros path months. reflexivity.
Qed.

(** X22: a collection of templates written with [to_dict] is read back
    unchanged by [from_dict]; the empty dictionary is read as the default
    templates; and a dictionary that gives only the subject of a template
    is read with the default body of that template and the defaults of
    the other templates. *)
Theorem template_collection_round_trip :
  (forall templates,
      EmailTemplateCollection_from_dict
        (EmailTemplateCollection_to_dict templates) = Some templates)
  /\ EmailTemplateCollection_from_dict [] = Some get_default
  /\ (forall subj,
         EmailTemplateCollection_from_dict
           [("email_do_ksiegowej", JDict [("subject", JStr subj)])]
         = Some {| email_do_ksiegowej :=
                     {| tpl_subject := subj;
                        tpl_body := tpl_body (email_do_ksiegowej get_default) |};
                   powiadomienie_brak_faktur_w_pdf :=
                     powiadomienie_brak_faktur_w_pdf get_default;
                   powiadomienie_czesciowo_znalezione :=
                     powiadomienie_czesciowo_znalezione get_default |}).
Proof.
  split; [|split].
  - intros [[s1 b1] [s2 b2] [s3 b3]]. reflexivity.
  - reflexivity.
  - intros subj. reflexivity.
Qed.

(** ** The configuration *)

Lemma if_set_given (o : option string) (x : string) :
  In x (if_set o) -> x <> "".
Proof.
  destruct o as [s|]; [|intros []]. cbn [if_set].
  destruct s; cbn [Py.truthy]; [intros []|].
  intros [<-|[]]. discriminate.
Qed.

(** X23: the list of accounting addresses is never empty: it starts with
    the main address, whatever that is, and goes on with at most two
    other addresses, none of them empty.  So the check of the accounting
    addresses in [validate_configuration] never fails: a configuration
    is accepted exactly when the user name and the password are given
    and not empty, also when the main accounting address is the empty
    string. *)
Theorem accounting_addresses_never_empty :
  forall config password,
    (exists others,
        get_ksiegowa_emails config = ksiegowa_glowny config :: others
        /\ length others <= 2
        /\ forall x, In x others -> x <> "")
    /\ (fst (validate_configuration config password) = true
        <-> is_given (username config) = true /\ is_given password = true)
    /\ snd (validate_configuration config password)
       <> "Brak adresów email księgowej".
Proof.
  intros config password. split; [|split].
  - exists (if_set (ksiegowa_2 config) ++ if_set (ksiegowa_3 config)).
    split; [reflexivity|]. split.
    + rewrite length_app.
      assert (Hl : forall o, length (if_set o) <= 1).
      { intros [s|]; cbn [if_set]; [destruct (Py.truthy s)|]; simpl; lia. }
      pose proof (Hl (ksiegowa_2 config)). pose proof (Hl (ksiegowa_3 config)).
      lia.
    + intros x Hx. apply in_app_or in Hx.
      destruct Hx as [Hx|Hx]; exact (if_set_given _ _ Hx).
  - unfold validate_configuration, get_ksiegowa_emails.
    destruct (is_given (username config)), (is_given password);
      cbn [negb fst]; intuition congruence.
  - unfold validate_configuration, get_ksiegowa_emails.
    destruct (is_given (username config)), (is_given password);
      cbn [negb snd]; discriminate.
Qed.

Lemma email_list_from_spec environ base_key count : forall i,
  length (email_list_from environ base_key i count) <= count
  /\ forall x, In x (email_list_from environ base_key i count) ->
       x <> "" /\ no_blank_at_ends x
       /\ exists k email,
            i <= k < i + count
            /\ environ (base_key ++ "_" ++ decimal (Z.of_nat k))%string
               = Some email
            /\ x = Py.strip email.
Proof.
  induction count as [|c IH]; intros i; cbn [email_list_from].
  - split; [simpl; lia|]. intros x [].
  - destruct (IH (S i)) as (Hlen & Hall). rewrite length_app. split.
    + destruct (environ _) as [email|]; [|simpl; lia].
      destruct (Py.truthy email && Py.truthy (Py.strip email)); simpl; lia.
    + intros x Hx. apply in_app_or in Hx. destruct Hx as [Hx|Hx].
      * destruct (environ _) as [email|] eqn:He; [|destruct Hx].
        destruct (Py.truthy email && Py.truthy (Py.strip email)) eqn:Ht;
          [|destruct Hx].
        destruct Hx as [<-|[]]. apply andb_true_iff in Ht.
        destruct Ht as (_ & Ht). split.
        { destruct (Py.strip email); [discriminate|discriminate]. }
        split; [apply strip_no_blank_at_ends|].
        exists i, email. split; [lia|]. split; [exact He|reflexivity].
      * destruct (Hall x Hx) as (Hne & Hb & k & email & Hk & He & Hs).
        split; [exact Hne|]. split; [exact Hb|].
        exists k, email. split; [lia|]. split; [exact He|exact Hs].
Qed.

(** X24: [_get_email_list] returns at most [max_count] addresses; each
    is the stripped value of one of the variables [<base_key>_1] to
    [<base_key>_<max_count>] of the environment, is not empty and has no
    blank at either end; variables that are unset, empty or blank are
    skipped. *)
Theorem get_email_list_addresses :
  forall environ base_key max_count,
    length (_get_email_list environ base_key max_count) <= max_count
    /\ (forall x, In x (_get_email_list environ base_key max_count) ->
          x <> "" /\ no_blank_at_ends x
          /\ exists k email,
               1 <= k <= max_count
               /\ environ (base_key ++ "_" ++ decimal (Z.of_nat k))%string
                  = Some email
               /\ x = Py.strip email)
    /\ ((forall k, 1 <= k <= max_count ->
           match environ (base_key ++ "_" ++ decimal (Z.of_nat k))%string with
           | Some email => Py.strip email = ""
           | None => True
           end) ->
        _get_email_list environ base_key max_count = []).
Proof.
  intros environ base_key max_count. unfold _get_email_list.
  destruct (email_list_from_spec environ base_key max_count 1) as (Hlen & Hall).
  split; [exact Hlen|]. split.
  - intros x Hx. destruct (Hall x Hx) as (Hne & Hb & k & email & Hk & He & Hs).
    split; [exact Hne|]. split; [exact Hb|].
    exists k, email. split; [lia|]. auto.
  - intros Hblank.
    destruct (email_list_from environ base_key 1 max_count) as [|x l] eqn:E;
      [reflexivity|].
    destruct (Hall x (or_introl eq_refl))
      as (Hne & _ & k & email & Hk & He & Hs).
    specialize (Hblank k ltac:(lia)). rewrite He in Hblank. congruence.
Qed.

Lemma get_email_list_addresses_witness :
  In "jan@example.com"
     (_get_email_list
        (fun k => if String.eqb k "EMAIL_POWIADOMIENIA_BRAK_PDF_2"
                  then Some "  jan@example.com " else None)
        "EMAIL_POWIADOMIENIA_BRAK_PDF" 4)
  /\ no_blank_at_ends "jan@example.com".
Proof.
  assert (Hin : In "jan@example.com"
                   (_get_email_list
                      (fun k => if String.eqb k "EMAIL_POWIADOMIENIA_BRAK_PDF_2"
                                then Some "  jan@example.com " else None)
                      "EMAIL_POWIADOMIENIA_BRAK_PDF" 4)).
  { vm_compute. left. reflexivity. }
  split; [exact Hin|].
  exact (proj1 (proj2 (proj1 (proj2 (get_email_list_addresses _ _ _)) _ Hin))).
Defined.

(** ** The text of a page *)

Lemma all_chars_app (p : ascii -> bool) (a b : string) :
  all_chars p (a ++ b)%string = all_chars p a && all_chars p b.
Proof.
  induction a as [|c r IH]; simpl; [reflexivity|].
  now rewrite IH, andb_assoc.
Qed.

Lemma snoc_not_empty (cur : string) (c : ascii) :
  (cur ++ String c "")%string <> "".
Proof. destruct cur; discriminate. Qed.

(** The words of a text are words. *)
Lemma words_aux_words (s : string) : forall cur,
  all_chars (fun c => negb (Py.isspace c)) cur = true ->
  Forall (fun w => is_word w = true) (Py.words_aux cur s).
Proof.
  induction s as [|c r IH]; intros cur Hcur; cbn [Py.words_aux].
  - destruct cur as [|x cur']; constructor; [|constructor].
    unfold is_word. now rewrite Hcur.
  - destruct (Py.isspace c) eqn:Hc.
    + destruct cur as [|x cur']; [apply IH; reflexivity|].
      constructor; [unfold is_word; now rewrite Hcur|apply IH; reflexivity].
    + apply IH. rewrite all_chars_app, Hcur. simpl. now rewrite Hc.
Qed.

(** A run without blanks goes to the word under construction. *)
Lemma words_aux_run (w rest : string) : forall cur,
  all_chars (fun c => negb (Py.isspace c)) w = true ->
  Py.words_aux cur (w ++ rest) = Py.words_aux (cur ++ w) rest.
Proof.
  induction w as [|c r IH]; intros cur Hw.
  - now rewrite string_app_nil.
  - simpl in Hw. apply andb_true_iff in Hw. destruct Hw as (Hc & Hr).
    apply negb_true_iff in Hc. cbn [append Py.words_aux]. rewrite Hc.
    rewrite (IH _ Hr), string_app_assoc. reflexivity.
Qed.

Lemma split_join (ws : list string) :
  Forall (fun w => is_word w = true) ws ->
  Py.split (Py.join " " ws) = ws.
Proof.
  unfold Py.split. induction 1 as [|w r Hw Hr IH]; [reflexivity|].
  unfold is_word in Hw. apply andb_true_iff in Hw. destruct Hw as (Hne & Hw).
  destruct r as [|y r'].
  - cbn [Py.join]. rewrite <- (string_app_nil w) at 1.
    rewrite (words_aux_run w "" "" Hw). cbn [append Py.words_aux].
    destruct w; [discriminate|reflexivity].
  - change (Py.join " " (w :: y :: r'))
      with (w ++ " " ++ Py.join " " (y :: r'))%string.
    rewrite (words_aux_run w _ "" Hw). cbn [append Py.words_aux].
    change (Py.isspace " ") with true. cbv iota.
    destruct w; [discriminate|]. now rewrite IH.
Qed.

(** X25: the text that [_extract_text_from_page] returns has the words
    of the text of the page, in their order, with one space between two
    words and nothing before the first and after the last; it is the
    empty string exactly when the page has no word (no text, only
    blanks, or a failed read); and normalising it again changes
    nothing. *)
Theorem extract_text_from_page_normalises :
  forall page,
    _extract_text_from_page page
    = Py.join " " (match page with
                   | Some text => Py.split text
                   | None => []
                   end)
    /\ Py.split (_extract_text_from_page page)
       = match page with Some text => Py.split text | None => [] end
    /\ (_extract_text_from_page page = ""
        <-> match page with Some text => Py.split text | None => [] end = [])
    /\ _extract_text_from_page (Some (_extract_text_from_page page))
       = _extract_text_from_page page.
Proof.
  intros page.
  assert (Hwords : forall text,
             Forall (fun w => is_word w = true) (Py.split text)).
  { intros text. apply words_aux_words. reflexivity. }
  assert (H1 : _extract_text_from_page page
               = Py.join " " (match page with
                              | Some text => Py.split text
                              | None => []
                              end)).
  { destruct page as [[|c r]|]; reflexivity. }
  assert (H2 : Py.split (_extract_text_from_page page)
               = match page with Some text => Py.split text | None => [] end).
  { rewrite H1. apply split_join.
    destruct page as [text|]; [apply Hwords|constructor]. }
  split; [exact H1|]. split; [exact H2|]. split.
  - split.
    + intros He. rewrite <- H2, He. reflexivity.
    + intros He. rewrite H1, He. reflexivity.
  - unfold _extract_text_from_page at 1.
    destruct (Py.truthy (_extract_text_from_page page)) eqn:Ht.
    + rewrite H2. symmetry. exact H1.
    + destruct (_extract_text_from_page page); [reflexivity|discriminate].
Qed.

(** ** When nothing qualifies *)

Section MainSearchRun.

Variable env : Env.
Hypothesis quiet : never_stops env.
Variable criteria : SearchCriteria.

Lemma scan_main_attachments_quiet email atts : forall w,
  exists w',
    scan_main_attachments env criteria email atts w
    = (Ok (option_map (pair email) (find (main_attachment_ok criteria) atts)),
       w').
Proof.
  induction atts as [|a rest IH]; intros w;
    cbn [scan_main_attachments find].
  - unfold ret. eauto.
  - rewrite (bind_check_quiet env quiet). unfold main_attachment_ok at 1.
    destruct (is_file a && _ a _); [unfold ret; simpl; eauto|apply IH].
Qed.

Lemma scan_main_emails_quiet emails : forall w,
  exists w',
    scan_main_emails env criteria emails w
    = (Ok (first_compensation criteria emails), w').
Proof.
  induction emails as [|m rest IH]; intros w;
    cbn [scan_main_emails first_compensation].
  - unfold ret. eauto.
  - rewrite (bind_check_quiet env quiet). unfold main_email_ok. cbv zeta.
    destruct (Py.truthy (subject_contains _) && negb _);
      [cbn [negb andb]; apply IH|].
    destruct (Py.truthy (sender_contains _) && negb _);
      [cbn [negb andb]; apply IH|].
    cbn [negb andb].
    destruct (attachments m) as [|a atts] eqn:Ha; [cbn [find]; apply IH|].
    destruct (scan_main_attachments_quiet m (a :: atts) (poll_n 1 w))
      as [w1 Hs].
    rewrite (bind_ok _ _ _ _ _ Hs).
    destruct (find (main_attachment_ok criteria) (a :: atts)) as [x|];
      [unfold ret; simpl; eauto|apply IH].
Qed.

End MainSearchRun.

(** X26: [find_compensation_email] misses nothing: in a run that is
    never cancelled, once the folder is resolved, the window computed
    and the query accepted by the store, it returns a result, and the
    result is "no message" exactly when no message of the folder passes
    the filters of the window, the attachment flag and the read flag,
    contains the subject and sender texts, and carries a file attachment
    that matches the attachment criteria. *)
Theorem find_compensation_email_complete :
  forall env criteria w folder w1 start_datetime,
    never_stops env ->
    get_folder_by_path env (main_folder_path (main_email criteria))
      (poll_n 1 w) = (Ok folder, w1) ->
    window_start (now env) (months_back_compensation criteria)
    = Ok start_datetime ->
    store_fails env (requests w1) = false ->
    exists r w',
      find_compensation_email env criteria w = (Ok r, w')
      /\ (r = None <->
          forall m,
            In m (folder_items folder) ->
            main_filter criteria start_datetime (now env) m = true ->
            main_email_ok criteria m = true ->
            existsb (main_attachment_ok criteria) (attachments m) = false).
Proof.
  intros env criteria w folder w1 start Hquiet Hg Hw Hstore.
  set (emails := order_by_newest
                   (filter (main_filter criteria start (now env))
                           (folder_items folder))).
  destruct (scan_main_emails_quiet env Hquiet criteria emails (requested w1))
    as [w2 Hs].
  exists (first_compensation criteria emails), w2. split.
  - unfold find_compensation_email.
    rewrite (bind_check_quiet env Hquiet), (bind_ok _ _ _ _ _ Hg).
    cbv zeta. unfold bind at 1. rewrite Hw. unfold lift at 1, ret at 1.
    unfold catch, bind at 1.
    rewrite store_request_eq, Hstore. fold emails. rewrite Hs. reflexivity.
  - split.
    + intros Hnone m Hm Hf Hok.
      apply (first_compensation_none criteria emails Hnone m); [|exact Hok].
      apply order_by_newest_in, filter_In. auto.
    + intros Hall.
      destruct (first_compensation criteria emails) as [[e a]|] eqn:Hfc;
        [|reflexivity].
      apply first_compensation_some in Hfc.
      destruct Hfc as (pre & post & Hl & Hok & Hfind & _).
      assert (Hin : In e emails).
      { rewrite Hl. apply in_or_app. right. left. reflexivity. }
      apply order_by_newest_in, filter_In in Hin. destruct Hin as (Hin & Hflt).
      specialize (Hall e Hin Hflt Hok).
      destruct (find_some _ _ Hfind) as (Ha & Hq).
      assert (Hex : existsb (main_attachment_ok criteria) (attachments e) = true).
      { apply existsb_exists. exists a. auto. }
      congruence.
Qed.

Lemma find_compensation_email_complete_witness :
  never_stops (quiet_env example_account)
  /\ window_start (now (quiet_env example_account)) 8 = Ok (0 - days (8 * 31))%Z
  /\ In compensation_message [compensation_message]
  /\ main_filter default_criteria (0 - days (8 * 31)) 0 compensation_message
     = true
  /\ exists r w',
       find_compensation_email (quiet_env example_account) default_criteria
         world0 = (Ok r, w')
       /\ r <> None.
Proof.
  assert (Hq : never_stops (quiet_env example_account))
    by (intros n; reflexivity).
  assert (Hw : window_start (now (quiet_env example_account)) 8
               = Ok (0 - days (8 * 31))%Z) by reflexivity.
  assert (Hin : In compensation_message [compensation_message])
    by (left; reflexivity).
  assert (Hflt : main_filter default_criteria (0 - days (8 * 31)) 0
                   compensation_message = true) by reflexivity.
  split; [exact Hq|]. split; [exact Hw|]. split; [exact Hin|].
  split; [exact Hflt|].
  destruct (find_compensation_email_complete
              (quiet_env example_account) default_criteria world0
              (mkFolder "Kompensaty Quadra"
                 [mkFolder "Wyslane do weryfikacji" [] []]
                 [compensation_message])
              (snd (get_folder_by_path (quiet_env example_account)
                      "Skrzynka odbiorcza/Kompensaty Quadra"
                      (poll_n 1 world0)))
              (0 - days (8 * 31))%Z
              Hq eq_refl Hw eq_refl) as (r & w' & Hrun & Hiff).
  exists r, w'. split; [exact Hrun|].
  intros Hnone.
  pose proof (proj1 Hiff Hnone compensation_message Hin Hflt eq_refl) as Hno.
  discriminate Hno.
Defined.

(** ** Without a user name *)

Lemma format_needs_username env (t : EmailTemplate) (data : Dict) :
  dict_get "nazwa_uzytkownika" data = None ->
  dict_get "exchange_username" data = Some VNone ->
  exists e, EmailTemplate_format env t data = Raise e.
Proof.
  intros Hn Hu. unfold EmailTemplate_format.
  assert (Hb : exists e, build_format_dict data = Raise e).
  { unfold build_format_dict.
    match goal with
    | |- context [match ?b with Ok info => _ | Raise e => Raise e end] =>
        destruct b as [info|e]; [|eauto]
    end.
    assert (Hhas : forall fd0 info0,
               dict_has "nazwa_uzytkownika"
                 (dict_set "brakujace_faktury_info" info0
                    match dict_get "numery_faktur_z_kompensaty" data with
                    | Some (VList l) =>
                        dict_set "numery_faktur_z_kompensaty_lista"
                                 (VStr (bullet_lines l)) fd0
                    | _ => fd0
                    end)
               = dict_has "nazwa_uzytkownika" fd0).
    { intros fd0 info0. unfold dict_has, dict_set.
      destruct (dict_get "numery_faktur_z_kompensaty" data) as [[| | |]|];
        reflexivity. }
    rewrite Hhas. unfold dict_has, default_get. rewrite Hn, Hu.
    cbn. eauto. }
  destruct Hb as [e ->]. eauto.
Qed.

Section NoUserName.

Variable env : Env.
Variable config : AppConfig.
Variable templates : EmailTemplateCollection.
Hypothesis no_user : username config = None.

Lemma accounting_needs_username pdf found extracted email w r w' :
  send_compensation_email_to_accounting env config templates
    pdf found extracted email w = (r, w') ->
  r <> Ok true /\ trace w' = trace w.
Proof.
  unfold send_compensation_email_to_accounting. step_check env w.
  { intros H; inversion H; subst. split; [discriminate|reflexivity]. }
  unfold get_ksiegowa_emails at 1. cbv zeta. unfold catch.
  match goal with
  | |- context [EmailTemplate_format env ?t ?td] =>
      destruct (format_needs_username env t td) as [e He]
  end.
  - destruct (length found <? length extracted)%nat; reflexivity.
  - unfold username_value. rewrite no_user.
    destruct (length found <? length extracted)%nat; reflexivity.
  - rewrite He. unfold lift, bind at 1, raise at 1.
    destruct (is_cancelled e); intros H; inversion H; subst;
      (split; [discriminate|reflexivity]).
Qed.

Lemma notifications_need_username email w :
  (forall pdf_filename r w',
      send_missing_pdf_notification env config templates email pdf_filename w
      = (r, w') -> r <> Ok true /\ trace w' = trace w)
  /\ (forall extracted found r w',
         send_partial_results_notification env config templates
           email extracted found w = (r, w') ->
         r <> Ok true /\ trace w' = trace w).
Proof.
  split.
  - intros pdf_filename r w'. unfold send_missing_pdf_notification.
    step_check env w.
    { intros H; inversion H; subst. split; [discriminate|reflexivity]. }
    destruct (get_notification_emails_for_missing_pdf config) as [|a l].
    { intros H; inversion H; subst. split; [discriminate|reflexivity]. }
    cbv zeta. unfold catch.
    match goal with
    | |- context [EmailTemplate_format env ?t ?td] =>
        destruct (format_needs_username env t td) as [e He]
    end.
    + reflexivity.
    + unfold username_value. rewrite no_user. reflexivity.
    + rewrite He. unfold lift, bind at 1, raise at 1.
      destruct (is_cancelled e); intros H; inversion H; subst;
        (split; [discriminate|reflexivity]).
  - intros extracted found r w'. unfold send_partial_results_notification.
    step_check env w.
    { intros H; inversion H; subst. split; [discriminate|reflexivity]. }
    destruct (get_notification_emails_for_partial_results config) as [|a l].
    { intros H; inversion H; subst. split; [discriminate|reflexivity]. }
    cbv zeta. unfold catch.
    match goal with
    | |- context [EmailTemplate_format env ?t ?td] =>
        destruct (format_needs_username env t td) as [e He]
    end.
    + reflexivity.
    + unfold username_value. rewrite no_user. reflexivity.
    + rewrite He. unfold lift, bind at 1, raise at 1.
      destruct (is_cancelled e); intros H; inversion H; subst;
        (split; [discriminate|reflexivity]).
Qed.

End NoUserName.

(** X27: without a configured Exchange user name no email is ever sent,
    whatever the templates are: the data of every template then holds
    [exchange_username = None], on which [EmailTemplate.format] raises
    while it computes the user's name.  The email to accounting and the
    two notifications never return [True] and write nothing, also when
    recipients are configured, and no run of [process_emails] ends in
    success.  ([ExchangeClient._connect] refuses to connect without a
    user name, so the senders meet this state only when the user name of
    the shared configuration object is cleared after the service was
    built; the theorem shows that the user name assumed by the two
    theorems on the default templates cannot be dropped.) *)
Theorem no_user_name_no_email :
  forall env config templates,
    username config = None ->
    (forall pdf found extracted email w r w',
        send_compensation_email_to_accounting env config templates
          pdf found extracted email w = (r, w') ->
        r <> Ok true /\ trace w' = trace w)
    /\ (forall email pdf_filename w r w',
           send_missing_pdf_notification env config templates
             email pdf_filename w = (r, w') ->
           r <> Ok true /\ trace w' = trace w)
    /\ (forall email extracted found w r w',
           send_partial_results_notification env config templates
             email extracted found w = (r, w') ->
           r <> Ok true /\ trace w' = trace w)
    /\ (forall search_criteria w r w',
           process_emails env config templates search_criteria w = (r, w') ->
           exists res, r = Ok res /\ success res = false).
Proof.
  intros env config templates Hu. split; [|split; [|split]].
  - intros pdf found extracted email w r w'.
    apply accounting_needs_username. exact Hu.
  - intros email pdf_filename w r w'.
    apply (proj1 (notifications_need_username env config templates Hu email w)).
  - intros email extracted found w r w'.
    apply (proj2 (notifications_need_username env config templates Hu email w)).
  - intros criteria w r w' H.
    unfold process_emails, catch in H. unfold bind at 1 in H.
    destruct (process_emails_delivery env config templates criteria w)
      as [[st|x] w1] eqn:Hd.
    2:{ destruct (is_cancelled x); inversion H; subst; eauto. }
    destruct (process_emails_archive env config st w1) as [r2 w2] eqn:Ha.
    apply process_emails_archive_outcome in Ha.
    destruct (delivery_ok _ _ _ _ _ _ _ Hd) as (_ & fe & wb & _ & Hst).
    destruct st as [r0|email pdf extracted found sent].
    + destruct Ha as (-> & _). inversion H; subst r w'.
      exists r0. split; [reflexivity|].
      destruct fe as [[m a]|].
      * destruct Hst as (ex & wc & _ & [(_ & r1 & Hh & Hr)|(_ & Hr)]).
        -- inversion Hr; subst r0. apply handle_no_data_outcome in Hh.
           destruct Hh as [(Hx & _)|(Hx & _)]; [discriminate|].
           inversion Hx; subst. reflexivity.
        -- destruct Hr as (? & ? & ? & ? & ? & _ & _ & _ & _ & _ & Hr).
           discriminate.
      * destruct Hst as (Hr & _). inversion Hr; subst. reflexivity.
    + destruct Ha as (archive & -> & _). inversion H; subst r w'.
      eexists. split; [reflexivity|].
      cbn [success].
      destruct fe as [[m a]|]; [|destruct Hst; discriminate].
      destruct Hst as (ex & wc & _ & [(_ & r1 & _ & Hr)|(_ & Hr)]);
        [discriminate|].
      destruct Hr as (fi & wd & notice & we & es & _ & _ & _ & _ & Hacc & Hst).
      inversion Hst; subst.
      apply (accounting_needs_username env config templates Hu) in Hacc.
      destruct Hacc as (Hne & _). destruct es; congruence.
Qed.

Lemma no_user_name_no_email_witness :
  username {| username := None; ksiegowa_glowny := "crypto@woox.pl";
              ksiegowa_2 := None; ksiegowa_3 := None;
              powiadomienia_brak_pdf := ["jan@example.com"];
              powiadomienia_czesciowe := [];
              przetworzone := "Inbox" |} = None
  /\ exists res,
       fst (process_emails (working_env example_account)
              {| username := None; ksiegowa_glowny := "crypto@woox.pl";
                 ksiegowa_2 := None; ksiegowa_3 := None;
                 powiadomienia_brak_pdf := ["jan@example.com"];
                 powiadomienia_czesciowe := [];
                 przetworzone := "Inbox" |}
              get_default default_criteria world0) = Ok res
       /\ success res = false.
Proof.
  split; [reflexivity|].
  destruct (proj2 (proj2 (proj2
              (no_user_name_no_email (working_env example_account)
                 {| username := None; ksiegowa_glowny := "crypto@woox.pl";
                    ksiegowa_2 := None; ksiegowa_3 := None;
                    powiadomienia_brak_pdf := ["jan@example.com"];
                    powiadomienia_czesciowe := [];
                    przetworzone := "Inbox" |}
                 get_default eq_refl)))
              default_criteria world0 _ _ (surjective_pairing _))
    as (res & Hr & Hs).
  exists res. split; [exact Hr|exact Hs].
Defined.
